(** * Presence and distance monitoring engine of complete-network-monitor.py

    A shallow embedding of [CompleteNetworkMonitor] and of the HTTP handlers
    that mutate it ([update_device], [clear_alerts], [export_attendance]).

    - Python floats are IEEE binary64 values: they are embedded as Rocq's
      primitive [float], whose comparisons and arithmetic are the same
      binary64 operations.
    - A device and an alert are Python dicts with a fixed set of keys; they
      are embedded as records, an optional key being an [option] field.
    - [self.devices] is a dict whose iteration order is the insertion order:
      it is an association list, updated in place and extended at the end.
    - The monitor object, the three files it writes and the sounds it plays
      form one explicit state; code that can raise runs in a state and
      exception monad. *)

From Stdlib Require Import ZArith List String Ascii Bool Lia.
From Stdlib Require Import Floats DecimalString.
Import ListNotations.

Set Warnings "-inexact-float".

Local Open Scope string_scope.
Local Open Scope Z_scope.

(** ** Python values *)

Module Py.

(** Exceptions the modelled code can raise. *)
Inductive exn := ZeroDivisionError | OverflowError | ValueError | KeyError.

Inductive result (A : Type) :=
| Ok (a : A)
| Raise (e : exn).
Arguments Ok {A} a.
Arguments Raise {A} e.

(** Truth value of a float: [0.0] and [-0.0] are false, everything else
    (NaN included) is true. *)
Definition truthy (x : float) : bool := negb (x =? 0)%float.

(** Truth value of [None] or a float. *)
Definition truthy_opt (x : option float) : bool :=
  match x with
  | None => false
  | Some v => truthy v
  end.

(** [float(z)] for an integer [z]: the nearest binary64 value, or
    [OverflowError] when [z] is too large. *)
Definition float_of_int (z : Z) : result float :=
  let f := SF2Prim (binary_normalize prec emax z 0 false) in
  if is_infinity f then Raise OverflowError else Ok f.

(** [int(x)]: truncation towards zero; raises on infinities and NaN. *)
Definition int_of_float (x : float) : result Z :=
  match Prim2SF x with
  | S754_zero _ => Ok 0
  | S754_infinity _ => Raise OverflowError
  | S754_nan => Raise ValueError
  | S754_finite s m e =>
      let mag := if 0 <=? e then Z.shiftl (Zpos m) e
                 else Z.shiftr (Zpos m) (- e) in
      Ok (if s then - mag else mag)
  end.

(** [str(z)] for an integer. *)
Definition str_of_int (z : Z) : string :=
  NilZero.string_of_int (Z.to_int z).

(** [str(x)] for [None] or a string, as an f-string formats it. *)
Definition str_of_opt (x : option string) : string :=
  match x with
  | None => "None"
  | Some s => s
  end.

(** [s[:n]]. *)
Fixpoint prefix (n : nat) (s : string) : string :=
  match n, s with
  | S n', String c s' => String c (prefix n' s')
  | _, _ => EmptyString
  end.

(** [s[n:]]. *)
Fixpoint drop (n : nat) (s : string) : string :=
  match n, s with
  | S n', String _ s' => drop n' s'
  | _, _ => s
  end.

Definition upper_ascii (c : ascii) : ascii :=
  let n := nat_of_ascii c in
  if (Nat.leb 97 n && Nat.leb n 122)%bool then ascii_of_nat (n - 32) else c.

(** [s.upper()] on ASCII text. *)
Fixpoint upper (s : string) : string :=
  match s with
  | EmptyString => EmptyString
  | String c s' => String (upper_ascii c) (upper s')
  end.

End Py.
Import Py.

(** ** The distance estimator *)

Record Calibration := {
  referenceRSSI : Z;
  pathLossExponent : float;
  distanceThreshold : float
}.

(** The calibration set by [__init__]. *)
Definition default_calibration : Calibration :=
  {| referenceRSSI := -40; pathLossExponent := 2; distanceThreshold := 50 |}.

(** The library functions the code applies to floats: [math.pow], which
    raises [OverflowError] when the result is out of range, [round(x, 1)],
    and the text an f-string gives for a float. *)
Record MathLib := {
  math_pow : float -> float -> result float;
  round1 : float -> float;
  float_str : float -> string
}.

(** [calculate_distance]: [None] for a missing or zero RSSI, otherwise
    [round(math.pow(10, (referenceRSSI - rssi) / (10 * pathLossExponent)), 1)].
    The true division raises [ZeroDivisionError] on a zero divisor. *)
Definition calculate_distance (lib : MathLib) (cal : Calibration)
    (rssi : option Z) : result (option float) :=
  match rssi with
  | None => Ok None
  | Some r =>
      if r =? 0 then Ok None
      else
        match float_of_int (referenceRSSI cal - r) with
        | Raise e => Raise e
        | Ok num =>
            let den := (10 * pathLossExponent cal)%float in
            if (den =? 0)%float then Raise ZeroDivisionError
            else
              match math_pow lib 10 (num / den)%float with
              | Raise e => Raise e
              | Ok distance => Ok (Some (round1 lib distance))
              end
        end
  end.

(** [get_zone]. *)
Definition get_zone (distance : option float) : string :=
  if negb (truthy_opt distance) then "unknown"
  else
    match distance with
    | None => "unknown"
    | Some d =>
        if (d <? 10)%float then "on-site"
        else if (d <? 30)%float then "near-site"
        else if (d <? 50)%float then "leaving"
        else "away"
    end.

(** ** Dictionaries keyed by strings, in insertion order *)

Section Dict.
Context {V : Type}.

(** [d.get(k)]. *)
Fixpoint dict_get (k : string) (d : list (string * V)) : option V :=
  match d with
  | [] => None
  | (k', v) :: rest => if String.eqb k k' then Some v else dict_get k rest
  end.

(** [k in d]. *)
Definition dict_mem (k : string) (d : list (string * V)) : bool :=
  match dict_get k d with
  | Some _ => true
  | None => false
  end.

(** [d[k] = v]: an existing key keeps its position, a new key goes last. *)
Fixpoint dict_set (k : string) (v : V) (d : list (string * V))
    : list (string * V) :=
  match d with
  | [] => [(k, v)]
  | (k', v') :: rest =>
      if String.eqb k k' then (k, v) :: rest
      else (k', v') :: dict_set k v rest
  end.

(** In-place mutation of the value stored under [k], when there is one. *)
Fixpoint dict_alter (f : V -> V) (k : string) (d : list (string * V))
    : list (string * V) :=
  match d with
  | [] => []
  | (k', v') :: rest =>
      if String.eqb k k' then (k', f v') :: rest
      else (k', v') :: dict_alter f k rest
  end.

Definition dict_keys (d : list (string * V)) : list string := map fst d.

End Dict.

(** ** Data model *)

Inductive AlertType := arrival | departure | distance.

Definition type_str (t : AlertType) : string :=
  match t with
  | arrival => "arrival"
  | departure => "departure"
  | distance => "distance"
  end.

(** A device dict.  [mac], [hostname] and [vendor] are always present and
    may hold [None]; [custom_name], [last_seen], [rssi] and
    [estimated_distance] are keys that may be absent ([None] here), and an
    absent [online] reads as [False] everywhere. *)
Module Device.
Record t := {
  ip : string;
  mac : option string;
  hostname : option string;
  vendor : option string;
  first_seen : string;
  monitored : bool;
  device_type : string;
  custom_name : option string;
  online : bool;
  last_seen : option string;
  rssi : option Z;
  estimated_distance : option float
}.

Definition set_online (b : bool) (d : t) : t :=
  {| ip := ip d; mac := mac d; hostname := hostname d; vendor := vendor d;
     first_seen := first_seen d; monitored := monitored d;
     device_type := device_type d; custom_name := custom_name d;
     online := b; last_seen := last_seen d; rssi := rssi d;
     estimated_distance := estimated_distance d |}.

Definition set_last_seen (ts : string) (d : t) : t :=
  {| ip := ip d; mac := mac d; hostname := hostname d; vendor := vendor d;
     first_seen := first_seen d; monitored := monitored d;
     device_type := device_type d; custom_name := custom_name d;
     online := online d; last_seen := Some ts; rssi := rssi d;
     estimated_distance := estimated_distance d |}.

Definition set_rssi (r : Z) (d : t) : t :=
  {| ip := ip d; mac := mac d; hostname := hostname d; vendor := vendor d;
     first_seen := first_seen d; monitored := monitored d;
     device_type := device_type d; custom_name := custom_name d;
     online := online d; last_seen := last_seen d; rssi := Some r;
     estimated_distance := estimated_distance d |}.

Definition set_estimated_distance (x : option float) (d : t) : t :=
  {| ip := ip d; mac := mac d; hostname := hostname d; vendor := vendor d;
     first_seen := first_seen d; monitored := monitored d;
     device_type := device_type d; custom_name := custom_name d;
     online := online d; last_seen := last_seen d; rssi := rssi d;
     estimated_distance := x |}.

(** The three assignments of [update_device]. *)
Definition edit (name : string) (mon : bool) (ty : string) (d : t) : t :=
  {| ip := ip d; mac := mac d; hostname := hostname d; vendor := vendor d;
     first_seen := first_seen d; monitored := mon;
     device_type := ty; custom_name := Some name;
     online := online d; last_seen := last_seen d; rssi := rssi d;
     estimated_distance := estimated_distance d |}.

(** [device.get('custom_name', device.get('hostname', ...))]: the
    [hostname] key is always there, so the inner default is never used. *)
Definition display_name (d : t) : option string :=
  match custom_name d with
  | Some n => Some n
  | None => hostname d
  end.
End Device.

(** An alert dict; [message] is a key that may be absent. *)
Module Alert.
Record t := {
  timestamp : string;
  type : AlertType;
  ip : string;
  mac : option string;
  device_name : option string;
  device_type : string;
  message : option string
}.
End Alert.

Definition registry := list (string * Device.t).
Definition csv_row := list string.

(** The monitor object together with what it has written: the two JSON
    files as the values dumped into them, the attendance CSV as its rows,
    the sounds played, and the number of clock readings taken so far. *)
Record State := {
  devices : registry;
  scanning : bool;
  monitoring : bool;
  distance_mode : bool;
  alerts : list Alert.t;
  calibration : Calibration;
  save_file : option registry;
  alerts_file : option (list Alert.t);
  attendance_file : option (list csv_row);
  sounds : list (Z * float);
  clock : nat
}.

Definition set_devices (v : registry) (s : State) : State :=
  {| devices := v; scanning := scanning s; monitoring := monitoring s;
     distance_mode := distance_mode s; alerts := alerts s;
     calibration := calibration s; save_file := save_file s;
     alerts_file := alerts_file s; attendance_file := attendance_file s;
     sounds := sounds s; clock := clock s |}.

Definition set_scanning (v : bool) (s : State) : State :=
  {| devices := devices s; scanning := v; monitoring := monitoring s;
     distance_mode := distance_mode s; alerts := alerts s;
     calibration := calibration s; save_file := save_file s;
     alerts_file := alerts_file s; attendance_file := attendance_file s;
     sounds := sounds s; clock := clock s |}.

Definition set_alerts (v : list Alert.t) (s : State) : State :=
  {| devices := devices s; scanning := scanning s; monitoring := monitoring s;
     distance_mode := distance_mode s; alerts := v;
     calibration := calibration s; save_file := save_file s;
     alerts_file := alerts_file s; attendance_file := attendance_file s;
     sounds := sounds s; clock := clock s |}.

Definition set_attendance_file (v : option (list csv_row)) (s : State) : State :=
  {| devices := devices s; scanning := scanning s; monitoring := monitoring s;
     distance_mode := distance_mode s; alerts := alerts s;
     calibration := calibration s; save_file := save_file s;
     alerts_file := alerts_file s; attendance_file := v;
     sounds := sounds s; clock := clock s |}.

Definition set_sounds (v : list (Z * float)) (s : State) : State :=
  {| devices := devices s; scanning := scanning s; monitoring := monitoring s;
     distance_mode := distance_mode s; alerts := alerts s;
     calibration := calibration s; save_file := save_file s;
     alerts_file := alerts_file s; attendance_file := attendance_file s;
     sounds := v; clock := clock s |}.

Definition set_clock (v : nat) (s : State) : State :=
  {| devices := devices s; scanning := scanning s; monitoring := monitoring s;
     distance_mode := distance_mode s; alerts := alerts s;
     calibration := calibration s; save_file := save_file s;
     alerts_file := alerts_file s; attendance_file := attendance_file s;
     sounds := sounds s; clock := v |}.

(** The state [__init__] builds when no file exists yet. *)
Definition initial_state : State :=
  {| devices := []; scanning := false; monitoring := false;
     distance_mode := false; alerts := [];
     calibration := default_calibration; save_file := None;
     alerts_file := None; attendance_file := None;
     sounds := []; clock := 0%nat |}.

(** ** The collaborators of a scan cycle

    What the host answers during one cycle: the subnet, the reachability of
    each address, the average round-trip time parsed from the five-probe
    ping ([None] when the command fails or its output does not match), the
    ARP and DNS answers, the successive readings of
    [datetime.now().isoformat()], and the float library. *)
Record Env := {
  get_local_network : string * string;
  ping : string -> bool;
  ping_avg_time : string -> option float;
  get_mac : string -> option string;
  get_hostname : string -> option string;
  now_at : nat -> string;
  lib : MathLib
}.

(** ** Persistence *)

(** [save_data]: dumps the registry and the alert list into their files. *)
Definition save_data (s : State) : State :=
  {| devices := devices s; scanning := scanning s; monitoring := monitoring s;
     distance_mode := distance_mode s; alerts := alerts s;
     calibration := calibration s; save_file := Some (devices s);
     alerts_file := Some (alerts s); attendance_file := attendance_file s;
     sounds := sounds s; clock := clock s |}.

(** One reading of [datetime.now().isoformat()]. *)
Definition now (env : Env) (s : State) : string * State :=
  (now_at env (clock s), set_clock (S (clock s)) s).

(** [play_alert_sound]: the request is recorded; how the platform renders
    it is outside the model, and its failures are swallowed by the code. *)
Definition play_alert_sound (frequency : Z) (duration : float) (s : State)
    : State :=
  set_sounds (sounds s ++ [(frequency, duration)])%list s.

(** ** The alert ledger *)

Definition csv_header : csv_row :=
  ["Timestamp"; "Type"; "Name"; "IP"; "MAC"; "Device Type"; "Message"].

(** A cell holding [None] is written as the empty string. *)
Definition csv_cell (x : option string) : string :=
  match x with
  | None => ""
  | Some v => v
  end.

(** The row [log_attendance] writes for an alert. *)
Definition attendance_row (a : Alert.t) : csv_row :=
  [Alert.timestamp a; type_str (Alert.type a); csv_cell (Alert.device_name a);
   Alert.ip a; csv_cell (Alert.mac a); Alert.device_type a;
   csv_cell (Alert.message a)].

(** [log_attendance]: appends to the CSV, writing the header first when the
    file does not exist yet. *)
Definition log_attendance (a : Alert.t) (s : State) : State :=
  let old :=
    match attendance_file s with
    | None => [csv_header]
    | Some rows => rows
    end in
  set_attendance_file (Some (old ++ [attendance_row a])%list) s.

(** The dict built at the top of [add_alert]; a falsy [message] (absent or
    empty) leaves the key out. *)
Definition make_alert (ts : string) (device : Device.t) (alert_type : AlertType)
    (message : option string) : Alert.t :=
  {| Alert.timestamp := ts;
     Alert.type := alert_type;
     Alert.ip := Device.ip device;
     Alert.mac := Device.mac device;
     Alert.device_name := Device.display_name device;
     Alert.device_type := Device.device_type device;
     Alert.message :=
       match message with
       | Some m => if String.eqb m "" then None else Some m
       | None => None
       end |}.

(** The statements of [add_alert] that write, one function each. *)
Definition alerts_insert (a : Alert.t) (s : State) : State :=
  set_alerts (a :: alerts s) s.

Definition alerts_truncate (s : State) : State :=
  set_alerts (firstn 1000 (alerts s)) s.

(** [add_alert] as the states it goes through: after building the alert,
    after [insert(0, alert)], after the slice, after [log_attendance] and
    after [save_data]. *)
Definition add_alert_trace (env : Env) (device : Device.t)
    (alert_type : AlertType) (message : option string) (s : State)
    : Alert.t * list State :=
  let (ts, s0) := now env s in
  let a := make_alert ts device alert_type message in
  let s1 := alerts_insert a s0 in
  let s2 := alerts_truncate s1 in
  let s3 := log_attendance a s2 in
  let s4 := save_data s3 in
  (a, [s0; s1; s2; s3; s4]).

(** [add_alert]. *)
Definition add_alert (env : Env) (device : Device.t) (alert_type : AlertType)
    (message : option string) (s : State) : State :=
  let (ts, s0) := now env s in
  let a := make_alert ts device alert_type message in
  save_data (log_attendance a (alerts_truncate (alerts_insert a s0))).

(** [clear_alerts]. *)
Definition clear_alerts (s : State) : State :=
  save_data (set_alerts [] s).

(** ** The HTTP handlers that edit the registry *)

(** The JSON body of an [update_device] request; a key may be missing. *)
Record UpdateRequest := {
  req_ip : option string;
  req_name : option string;
  req_monitored : option bool;
  req_device_type : option string
}.

(** A JSON answer with its HTTP status. *)
Inductive Response :=
| Updated
| NotFound.

Definition status_code (r : Response) : Z :=
  match r with
  | Updated => 200
  | NotFound => 404
  end.

Definition response_body (r : Response) : string * string :=
  match r with
  | Updated => ("status", "updated")
  | NotFound => ("error", "Device not found")
  end.

Definition opt_default {A : Type} (default : A) (x : option A) : A :=
  match x with
  | Some v => v
  | None => default
  end.

(** [update_device]. *)
Definition update_device (data : UpdateRequest) (s : State)
    : State * Response :=
  match req_ip data with
  | None => (s, NotFound)
  | Some ip =>
      if dict_mem ip (devices s) then
        let edit :=
          Device.edit (opt_default "" (req_name data))
                      (opt_default false (req_monitored data))
                      (opt_default "employee" (req_device_type data)) in
        (save_data (set_devices (dict_alter edit ip (devices s)) s), Updated)
      else (s, NotFound)
  end.

(** ** Attendance export *)

Definition export_header : csv_row :=
  ["Time"; "Action"; "Name"; "Device Type"; "IP"; "MAC"; "Distance"; "Message"].

(** For the timestamps [isoformat] produces, [fromisoformat] followed by
    [strftime('%Y-%m-%d')] gives back the first ten characters, and
    [strftime('%H:%M:%S')] the eight characters after the separator. *)
Definition date_of (ts : string) : string := prefix 10 ts.
Definition time_of (ts : string) : string := prefix 8 (drop 11 ts).

(** The [Distance] cell: the registry entry of the alert's address is looked
    up when the export runs; a missing device, a missing estimate and a
    zero estimate all give the empty cell. *)
Definition distance_cell (env : Env) (devs : registry) (ip : string) : string :=
  match dict_get ip devs with
  | None => ""
  | Some device =>
      match Device.estimated_distance device with
      | None => ""
      | Some d => if truthy d then float_str (lib env) d ++ "m" else ""
      end
  end.

Definition export_row (env : Env) (devs : registry) (a : Alert.t) : csv_row :=
  [time_of (Alert.timestamp a);
   upper (type_str (Alert.type a));
   csv_cell (Alert.device_name a);
   Alert.device_type a;
   Alert.ip a;
   csv_cell (Alert.mac a);
   distance_cell env devs (Alert.ip a);
   csv_cell (Alert.message a)].

(** [export_attendance]: the rows of the CSV sent back for [date], the
    query argument (the handler's default, today, is resolved by the caller). *)
Definition export_attendance (env : Env) (date : string) (s : State)
    : list csv_row :=
  export_header ::
  map (export_row env (devices s))
      (filter (fun a => String.eqb (date_of (Alert.timestamp a)) date)
              (alerts s)).

(** ** Identity resolution and signal estimate *)

Definition MAC_VENDORS : list (string * string) :=
  [("60:CF:84", "ASUS");
   ("0C:C4:13", "Google");
   ("1C:BF:C0", "TP-Link");
   ("48:B0:2D", "NVIDIA Corporation");
   ("78:80:38", "Samsung Electronics");
   ("04:D9:F5", "Apple Inc.");
   ("00:50:56", "VMware");
   ("F0:D4:15", "Realtek");
   ("04:7C:16", "Realtek");
   ("00:24:27", "ASUS");
   ("0A:00:27", "VirtualBox");
   ("F2:D4:15", "Microsoft");
   ("00:0C:29", "VMware");
   ("DC:A6:32", "Raspberry Pi");
   ("B8:27:EB", "Raspberry Pi");
   ("E4:5F:01", "Raspberry Pi")].

(** [get_vendor]. *)
Definition get_vendor (mac : option string) : option string :=
  match mac with
  | None => None
  | Some m => if String.eqb m "" then None else dict_get (prefix 8 m) MAC_VENDORS
  end.

(** [ping_with_stats]: the average round-trip time put into six signal
    levels; [-70] when there is no usable sample. *)
Definition ping_with_stats (env : Env) (ip : string) : Z :=
  match ping_avg_time env ip with
  | Some avg_time =>
      if (avg_time <? 2)%float then -40
      else if (avg_time <? 5)%float then -50
      else if (avg_time <? 10)%float then -60
      else if (avg_time <? 20)%float then -70
      else if (avg_time <? 50)%float then -80
      else -90
  | None => -70
  end.

(** ** The scan cycle *)

(** Computations that read and write the state and may raise. *)
Definition M (A : Type) : Type := State -> State * result A.

Definition ret {A : Type} (a : A) : M A := fun s => (s, Ok a).

Definition bind {A B : Type} (m : M A) (k : A -> M B) : M B :=
  fun s =>
    match m s with
    | (s', Ok a) => k a s'
    | (s', Raise e) => (s', Raise e)
    end.

Notation "x <- m ;; k" := (bind m (fun x => k))
  (at level 61, m at next level, right associativity).
Notation "m ;; k" := (bind m (fun _ => k))
  (at level 61, right associativity).

Definition gets {A : Type} (f : State -> A) : M A := fun s => (s, Ok (f s)).
Definition modify (f : State -> State) : M unit := fun s => (f s, Ok tt).
Definition lift {A : Type} (r : result A) : M A := fun s => (s, r).
Definition read_clock (env : Env) : M string :=
  fun s => let (ts, s') := now env s in (s', Ok ts).

(** A [for] loop: an exception leaves the loop at once. *)
Fixpoint for_each {A : Type} (l : list A) (body : A -> M unit) : M unit :=
  match l with
  | [] => ret tt
  | x :: rest => body x ;; for_each rest body
  end.

(** [self.devices[ip]]. *)
Definition device_at (ip : string) : M Device.t :=
  fun s =>
    match dict_get ip (devices s) with
    | Some device => (s, Ok device)
    | None => (s, Raise KeyError)
    end.

(** [self.devices[ip][key] = value], as an update [f] of the record. *)
Definition update_at (ip : string) (f : Device.t -> Device.t) : M unit :=
  device_at ip ;;
  modify (fun s => set_devices (dict_alter f ip (devices s)) s).

(** The dict stored for an address seen for the first time. *)
Definition new_device (env : Env) (ip : string) (ts : string) : Device.t :=
  {| Device.ip := ip;
     Device.mac := get_mac env ip;
     Device.hostname := get_hostname env ip;
     Device.vendor := get_vendor (get_mac env ip);
     Device.first_seen := ts;
     Device.monitored := false;
     Device.device_type := "employee";
     Device.custom_name := None;
     Device.online := false;
     Device.last_seen := None;
     Device.rssi := None;
     Device.estimated_distance := None |}.

(** The text of a distance alert. *)
Definition distance_message (device : Device.t) (prev_zone new_zone : string)
    (prev_distance new_distance : float) : result string :=
  match int_of_float prev_distance with
  | Raise e => Raise e
  | Ok p =>
      match int_of_float new_distance with
      | Raise e => Raise e
      | Ok n =>
          Ok (str_of_opt (Device.display_name device) ++ " moved from "
              ++ prev_zone ++ " to " ++ new_zone ++ " (" ++ str_of_int p
              ++ "m → " ++ str_of_int n ++ "m)")
      end
  end.

(** The distance part of the sweep, for a host that answered. *)
Definition estimate_distance (env : Env)
    (previous_distances : list (string * option float)) (ip : string)
    : M unit :=
  let rssi := ping_with_stats env ip in
  cal <- gets calibration ;;
  new_distance <- lift (calculate_distance (lib env) cal (Some rssi)) ;;
  update_at ip (Device.set_rssi rssi) ;;
  update_at ip (Device.set_estimated_distance new_distance) ;;
  mon <- gets monitoring ;;
  match opt_default None (dict_get ip previous_distances), new_distance with
  | Some prev_distance, Some d =>
      if (mon && truthy prev_distance && truthy d)%bool then
        if (10 <? abs (d - prev_distance))%float then
          let prev_zone := get_zone (Some prev_distance) in
          let new_zone := get_zone (Some d) in
          if negb (String.eqb prev_zone new_zone) then
            device <- device_at ip ;;
            message <- lift (distance_message device prev_zone new_zone
                                              prev_distance d) ;;
            modify (add_alert env device distance (Some message)) ;;
            cal' <- gets calibration ;;
            if (distanceThreshold cal' <? d)%float
            then modify (play_alert_sound 300 0.5%float)
            else ret tt
          else ret tt
        else ret tt
      else ret tt
  | _, _ => ret tt
  end.

(** The body of the sweep for one address. *)
Definition scan_host (env : Env)
    (previous_distances : list (string * option float)) (ip : string)
    : M unit :=
  if ping env ip then
    known <- gets (fun s => dict_mem ip (devices s)) ;;
    (if known : bool then ret tt
     else
       ts <- read_clock env ;;
       modify (fun s =>
                 set_devices
                   (dict_set ip (new_device env ip ts) (devices s)) s)) ;;
    update_at ip (Device.set_online true) ;;
    ts <- read_clock env ;;
    update_at ip (Device.set_last_seen ts) ;;
    dm <- gets distance_mode ;;
    if dm : bool then estimate_distance env previous_distances ip else ret tt
  else ret tt.

(** The presence check for one entry of the registry. *)
Definition check_presence (env : Env) (previous_online : list (string * bool))
    (entry : string * Device.t) : M unit :=
  let (ip, device) := entry in
  if Device.monitored device then
    let was_online := opt_default false (dict_get ip previous_online) in
    let is_online := Device.online device in
    if (was_online && negb is_online)%bool then
      modify (add_alert env device departure None) ;;
      modify (play_alert_sound 500 0.2%float)
    else if (negb was_online && is_online)%bool then
      modify (add_alert env device arrival None) ;;
      modify (play_alert_sound 1000 0.2%float)
    else ret tt
  else ret tt.

(** [f"{base}.{i}"]. *)
Definition host_ip (base : string) (i : Z) : string :=
  base ++ "." ++ str_of_int i.

(** The addresses [range(1, 255)] goes through. *)
Definition sweep_ips (env : Env) : list string :=
  map (fun i => host_ip (fst (get_local_network env)) (Z.of_nat i))
      (seq 1 254).

Definition clear_online (devs : registry) : registry :=
  map (fun e => (fst e, Device.set_online false (snd e))) devs.

(** [scan]. *)
Definition scan (env : Env) : M unit :=
  fun s =>
    if scanning s then (s, Ok tt)
    else
      (modify (set_scanning true) ;;
       devs <- gets devices ;;
       let previous_online :=
         map (fun e => (fst e, Device.online (snd e))) devs in
       let previous_distances :=
         map (fun e => (fst e, Device.estimated_distance (snd e))) devs in
       modify (fun s => set_devices (clear_online (devices s)) s) ;;
       for_each (sweep_ips env) (scan_host env previous_distances) ;;
       mon <- gets monitoring ;;
       (if mon : bool then
          devs' <- gets devices ;;
          for_each devs' (check_presence env previous_online)
        else ret tt) ;;
       modify (set_scanning false) ;;
       modify save_data) s.

(** ** Observing the attendance record *)

(** The rows of the attendance file; a file that does not exist has none. *)
Definition attendance_rows (s : State) : list csv_row :=
  match attendance_file s with
  | Some rows => rows
  | None => []
  end.

(** The rows appended between two states. *)
Definition rows_written (s s' : State) : list csv_row :=
  skipn (List.length (attendance_rows s)) (attendance_rows s').

(** A row of the attendance file recording an alert of type [ty] for the
    address [ip] (the header row records none). *)
Definition is_alert_row (ty : AlertType) (ip : string) (row : csv_row) : bool :=
  (String.eqb (nth 1 row "") (type_str ty) && String.eqb (nth 3 row "") ip)%bool.

Definition count_rows (ty : AlertType) (ip : string) (rows : list csv_row)
    : nat :=
  List.length (filter (is_alert_row ty ip) rows).

(** The number of alerts of type [ty] recorded for [ip] between two states. *)
Definition alerts_emitted (ty : AlertType) (ip : string) (s s' : State) : nat :=
  count_rows ty ip (rows_written s s').

(** The sweep pinged [ip] and got an answer. *)
Definition reachable (env : Env) (ip : string) : bool :=
  existsb (fun x => (String.eqb ip x && ping env x)%bool) (sweep_ips env).

(** Every entry of the registry is stored once, under its own address: the
    shape of every registry the scan builds. *)
Definition wf_registry (devs : registry) : Prop :=
  NoDup (dict_keys devs) /\
  forall k d, In (k, d) devs -> Device.ip d = k.

(** A sequence of [add_alert] calls. *)
Definition record_all (env : Env)
    (calls : list (Device.t * AlertType * option string)) (s : State) : State :=
  fold_left (fun st c => add_alert env (fst (fst c)) (snd (fst c)) (snd c) st)
            calls s.

(** ** Stand-ins for the library functions, used in examples

    [whole_pow] is exact where [math.pow] is: on the whole exponents from 0
    to 22, by repeated multiplication.  [round_tenths] and [tenths_str]
    agree with [round(x, 1)] and [str(x)] on the values whose tenfold is
    computed exactly. *)

Fixpoint pow_nat (x : float) (n : nat) : float :=
  match n with
  | O => 1%float
  | S n' => (x * pow_nat x n')%float
  end.

Definition whole_pow (x y : float) : result float :=
  match int_of_float y with
  | Ok k =>
      match float_of_int k with
      | Ok y' =>
          if ((y' =? y)%float && (0 <=? k) && (k <=? 22))%bool
          then Ok (pow_nat x (Z.to_nat k))
          else Ok nan
      | Raise e => Raise e
      end
  | Raise e => Raise e
  end.

(** The integer nearest to [x], ties going to the even one. *)
Definition nearest_even (x : float) : result Z :=
  match Prim2SF x with
  | S754_zero _ => Ok 0
  | S754_infinity _ => Raise OverflowError
  | S754_nan => Raise ValueError
  | S754_finite s m e =>
      let mag :=
        if 0 <=? e then Z.shiftl (Zpos m) e
        else
          let q := Z.shiftr (Zpos m) (- e) in
          let r := Zpos m - Z.shiftl q (- e) in
          let half := Z.shiftl 1 (- e - 1) in
          if r <? half then q
          else if half <? r then q + 1
          else if Z.even q then q else q + 1 in
      Ok (if s then - mag else mag)
  end.

Definition round_tenths (x : float) : float :=
  match nearest_even (x * 10)%float with
  | Ok n =>
      match float_of_int n with
      | Ok f => (f / 10)%float
      | Raise _ => x
      end
  | Raise _ => x
  end.

Definition tenths_str (x : float) : string :=
  match nearest_even (x * 10)%float with
  | Ok n =>
      (if n <? 0 then "-" else "") ++ str_of_int (Z.abs n / 10) ++ "."
      ++ str_of_int (Z.abs n mod 10)
  | Raise _ => "nan"
  end.

Definition example_lib : MathLib :=
  {| math_pow := whole_pow; round1 := round_tenths; float_str := tenths_str |}.

(** ** Example scenarios *)

Module Example.

(** A laptop one metre away, seen online by the previous cycle. *)
Definition laptop (mon : bool) : Device.t :=
  {| Device.ip := "192.168.1.5";
     Device.mac := Some "60:CF:84:00:00:01";
     Device.hostname := Some "laptop";
     Device.vendor := Some "ASUS";
     Device.first_seen := "2024-01-01T08:00:00.000000";
     Device.monitored := mon;
     Device.device_type := "employee";
     Device.custom_name := None;
     Device.online := true;
     Device.last_seen := Some "2024-01-01T08:00:00.000000";
     Device.rssi := Some (-40);
     Device.estimated_distance := Some 1%float |}.

Definition clock_reading (n : nat) : string :=
  "2024-01-02T09:00:" ++ (if Nat.ltb n 10 then "0" else "")
  ++ str_of_int (Z.of_nat n) ++ ".000000".

(** A cycle in which only the addresses [up] accepts answer, 30 ms away. *)
Definition env (up : string -> bool) : Env :=
  {| get_local_network := ("192.168.1", "192.168.1.2");
     ping := up;
     ping_avg_time := fun _ => Some 30%float;
     get_mac := fun _ => None;
     get_hostname := fun _ => None;
     now_at := clock_reading;
     lib := example_lib |}.

Definition laptop_up : Env := env (fun x => String.eqb x "192.168.1.5").
Definition nobody_up : Env := env (fun _ => false).

(** The monitor knowing the laptop only. *)
Definition state (mon monitoring_on distance_on busy : bool) : State :=
  {| devices := [("192.168.1.5", laptop mon)];
     scanning := busy;
     monitoring := monitoring_on;
     distance_mode := distance_on;
     alerts := [];
     calibration := default_calibration;
     save_file := None;
     alerts_file := None;
     attendance_file := None;
     sounds := [];
     clock := 0%nat |}.

Definition rename_laptop : UpdateRequest :=
  {| req_ip := Some "192.168.1.5"; req_name := Some "Ada";
     req_monitored := Some true; req_device_type := Some "visitor" |}.

Definition rename_stranger : UpdateRequest :=
  {| req_ip := Some "192.168.1.77"; req_name := Some "Bob";
     req_monitored := Some true; req_device_type := Some "visitor" |}.

End Example.

(** ** What the sweep and the presence pass may do *)

(** A row that records an arrival or a departure. *)
Definition presence_row (row : csv_row) : bool :=
  (String.eqb (nth 1 row "") "departure"
   || String.eqb (nth 1 row "") "arrival")%bool.

(** What the sweep may do to a state: append rows that are not presence
    rows, keep the registry well formed, keep every entry's identity and
    [monitored] flag while turning [online] on for the addresses in [hit],
    and add entries that are not monitored. *)
Record sweep_rel (hit : string -> bool) (s s' : State) : Prop := {
  sr_scanning : scanning s' = scanning s;
  sr_monitoring : monitoring s' = monitoring s;
  sr_distance_mode : distance_mode s' = distance_mode s;
  sr_calibration : calibration s' = calibration s;
  sr_rows : exists ws,
      attendance_rows s' = (attendance_rows s ++ ws)%list /\
      Forall (fun r => presence_row r = false) ws;
  sr_wf : wf_registry (devices s) -> wf_registry (devices s');
  sr_devs : forall k d,
      dict_get k (devices s) = Some d ->
      exists d',
        dict_get k (devices s') = Some d' /\
        Device.monitored d' = Device.monitored d /\
        Device.ip d' = Device.ip d /\
        Device.online d' = (Device.online d || hit k)%bool;
  sr_new : forall k d',
      dict_get k (devices s') = Some d' ->
      dict_get k (devices s) = None ->
      Device.monitored d' = false
}.

(** A computation that only takes steps allowed in a sweep. *)
Definition sweeping {A : Type} (hit : string -> bool) (m : M A) : Prop :=
  forall s s' a, m s = (s', Ok a) -> sweep_rel hit s s'.

(** The transition of a device that an alert of type [ty] reports. *)
Definition transition (ty : AlertType) (was_online is_online : bool) : bool :=
  match ty with
  | departure => (was_online && negb is_online)%bool
  | arrival => (negb was_online && is_online)%bool
  | distance => false
  end.

(** The presence check of one entry records an alert of type [ty]. *)
Definition emits (po : list (string * bool)) (ty : AlertType)
    (e : string * Device.t) : bool :=
  (Device.monitored (snd e)
   && transition ty (opt_default false (dict_get (fst e) po))
                 (Device.online (snd e)))%bool.

(** ** The statements of the specification that the code does not meet,
    as the specification words them *)

Module Spec.

(** Every defined distance falls in one of the four bands, [0.0] included. *)
Definition zone_total : Prop :=
  forall d : float,
    ((0 <=? d)%float = true -> (d <? 10)%float = true ->
     get_zone (Some d) = "on-site") /\
    ((10 <=? d)%float = true -> (d <? 30)%float = true ->
     get_zone (Some d) = "near-site") /\
    ((30 <=? d)%float = true -> (d <? 50)%float = true ->
     get_zone (Some d) = "leaving") /\
    ((50 <=? d)%float = true -> get_zone (Some d) = "away") /\
    ((0 <=? d)%float = true -> get_zone (Some d) <> "unknown").

(** The row is in the attendance file in every state of [add_alert] in
    which the alert is in the list. *)
Definition logged_before_visible : Prop :=
  forall env device ty msg s,
    let (a, trace) := add_alert_trace env device ty msg s in
    Forall (fun st => In a (alerts st) ->
                      In (attendance_row a) (attendance_rows st)) trace.

(** A monitored device that changes reachability gets its one alert in
    every cycle that runs. *)
Definition presence_alerts : Prop :=
  forall env s s' ip d,
    scanning s = false ->
    wf_registry (devices s) ->
    dict_get ip (devices s) = Some d ->
    Device.monitored d = true ->
    scan env s = (s', Ok tt) ->
    (Device.online d = true -> reachable env ip = false ->
     alerts_emitted departure ip s s' = 1%nat /\
     alerts_emitted arrival ip s s' = 0%nat) /\
    (Device.online d = false -> reachable env ip = true ->
     alerts_emitted arrival ip s s' = 1%nat /\
     alerts_emitted departure ip s s' = 0%nat).

End Spec.

(** ** Starting the monitor *)

(** What a JSON file gives when it is read at start-up: it may not exist,
    [json.load] may fail on it, or it holds a value. *)
Inductive json_file (A : Type) :=
| Missing
| Unreadable
| Holds (v : A).
Arguments Missing {A}.
Arguments Unreadable {A}.
Arguments Holds {A} v.

(** The file a state has written. *)
Definition stored {A : Type} (f : option A) : json_file A :=
  match f with
  | None => Missing
  | Some v => Holds v
  end.

(** The value a file is known to hold, for the state's record of it. *)
Definition holds {A : Type} (f : json_file A) : option A :=
  match f with
  | Holds v => Some v
  | Missing | Unreadable => None
  end.

(** The first half of [load_data]: every saved entry is assigned into
    [self.devices]; a missing or unreadable file changes nothing. *)
Definition load_devices (f : json_file registry) (devs : registry) : registry :=
  match f with
  | Holds saved => fold_left (fun acc e => dict_set (fst e) (snd e) acc) saved devs
  | Missing | Unreadable => devs
  end.

(** The second half: the saved list replaces [self.alerts]; an unreadable
    file empties it. *)
Definition load_alerts (f : json_file (list Alert.t)) (current : list Alert.t)
    : list Alert.t :=
  match f with
  | Holds saved => saved
  | Unreadable => []
  | Missing => current
  end.

(** [load_data]. *)
Definition load_data (devices_file : json_file registry)
    (alerts_json : json_file (list Alert.t)) (s : State) : State :=
  set_alerts (load_alerts alerts_json (alerts s))
             (set_devices (load_devices devices_file (devices s)) s).

(** [__init__]: the fresh object, then [load_data] on the files found. *)
Definition init (devices_file : json_file registry)
    (alerts_json : json_file (list Alert.t))
    (attendance : option (list csv_row)) : State :=
  load_data devices_file alerts_json
    {| devices := []; scanning := false; monitoring := false;
       distance_mode := false; alerts := [];
       calibration := default_calibration;
       save_file := holds devices_file;
       alerts_file := holds alerts_json;
       attendance_file := attendance;
       sounds := []; clock := 0%nat |}.

(** A new process started on the files a state has left. *)
Definition restart (s : State) : State :=
  init (stored (save_file s)) (stored (alerts_file s)) (attendance_file s).

(** ** The other handlers *)

Definition set_monitoring (v : bool) (s : State) : State :=
  {| devices := devices s; scanning := scanning s; monitoring := v;
     distance_mode := distance_mode s; alerts := alerts s;
     calibration := calibration s; save_file := save_file s;
     alerts_file := alerts_file s; attendance_file := attendance_file s;
     sounds := sounds s; clock := clock s |}.

Definition set_distance_mode (v : bool) (s : State) : State :=
  {| devices := devices s; scanning := scanning s; monitoring := monitoring s;
     distance_mode := v; alerts := alerts s;
     calibration := calibration s; save_file := save_file s;
     alerts_file := alerts_file s; attendance_file := attendance_file s;
     sounds := sounds s; clock := clock s |}.

Definition set_calibration (v : Calibration) (s : State) : State :=
  {| devices := devices s; scanning := scanning s; monitoring := monitoring s;
     distance_mode := distance_mode s; alerts := alerts s;
     calibration := v; save_file := save_file s;
     alerts_file := alerts_file s; attendance_file := attendance_file s;
     sounds := sounds s; clock := clock s |}.

(** The JSON body of an [update_calibration] request. *)
Record CalibrationRequest := {
  req_referenceRSSI : option Z;
  req_pathLossExponent : option float;
  req_distanceThreshold : option float
}.

(** [update_calibration]: each key is replaced by the request's value or,
    when the request lacks it, by the constructor's default. *)
Definition update_calibration (data : CalibrationRequest) (s : State) : State :=
  save_data
    (set_calibration
       {| referenceRSSI := opt_default (-40) (req_referenceRSSI data);
          pathLossExponent := opt_default 2%float (req_pathLossExponent data);
          distanceThreshold := opt_default 50%float (req_distanceThreshold data) |}
       s).

(** [toggle_distance]. *)
Definition toggle_distance (enabled : option bool) (s : State) : State :=
  set_distance_mode (opt_default false enabled) s.

(** [stop_monitoring]. *)
Definition stop_monitoring (s : State) : State := set_monitoring false s.

(** The work of the thread [scan_with_distance] starts. *)
Definition scan_with_distance (env : Env) : M unit :=
  modify (set_distance_mode true) ;; scan env.

(** [monitor_loop], for as many turns as there are cycles to answer; the
    pause between two turns is not modelled. *)
Fixpoint monitor_loop (cycles : list Env) : M unit :=
  match cycles with
  | [] => ret tt
  | env :: rest =>
      mon <- gets monitoring ;;
      if mon : bool then scan env ;; monitor_loop rest else ret tt
  end.

(** [start_monitoring], with the thread it starts run over [cycles]. *)
Definition start_monitoring (cycles : list Env) : M unit :=
  modify (set_monitoring true) ;; monitor_loop cycles.

(** ** Finding a port *)

Definition PORTS : list Z := [8000; 8080; 3000; 8888; 5000].

(** The loop of [find_available_port] over the ports left to try;
    [can_bind] tells whether binding the port succeeds. *)
Fixpoint first_port (can_bind : Z -> bool) (ports : list Z) : option Z :=
  match ports with
  | [] => None
  | port :: rest => if can_bind port then Some port else first_port can_bind rest
  end.

(** [find_available_port]. *)
Definition find_available_port (can_bind : Z -> bool) : option Z :=
  first_port can_bind PORTS.

(** ** Addresses and names *)

(** [s.split('.')]. *)
Fixpoint split_dot (s : string) : list string :=
  match s with
  | EmptyString => [EmptyString]
  | String c rest =>
      if Ascii.eqb c "."%char then EmptyString :: split_dot rest
      else
        match split_dot rest with
        | part :: parts => String c part :: parts
        | [] => [String c EmptyString]
        end
  end.

(** ['.'.join(parts)]. *)
Definition join_dot (parts : list string) : string := String.concat "." parts.

(** The body of [get_local_network], given the address the socket reports
    ([None] when the probe raises). *)
Definition local_network (sock : option string) : string * string :=
  match sock with
  | Some local_ip => (join_dot (firstn 3 (split_dot local_ip)), local_ip)
  | None => ("192.168.1", "192.168.1.1")
  end.

(** The body of [get_hostname], given the name the resolver reports. *)
Definition hostname_label (fqdn : option string) : option string :=
  match fqdn with
  | Some name => Some (hd EmptyString (split_dot name))
  | None => None
  end.

(** A string without a dot. *)
Fixpoint dotless (s : string) : bool :=
  match s with
  | EmptyString => true
  | String c rest => (negb (Ascii.eqb c "."%char) && dotless rest)%bool
  end.

(** The number of dots in a string. *)
Fixpoint count_dots (s : string) : nat :=
  match s with
  | EmptyString => 0%nat
  | String c rest =>
      if Ascii.eqb c "."%char then S (count_dots rest) else count_dots rest
  end.

(** ** What a cycle keeps *)

(** The fields of a device a cycle never writes. *)
Definition same_identity (d d' : Device.t) : Prop :=
  Device.ip d' = Device.ip d /\
  Device.mac d' = Device.mac d /\
  Device.hostname d' = Device.hostname d /\
  Device.vendor d' = Device.vendor d /\
  Device.first_seen d' = Device.first_seen d /\
  Device.monitored d' = Device.monitored d /\
  Device.device_type d' = Device.device_type d /\
  Device.custom_name d' = Device.custom_name d.

(** The entry a cycle creates for an address it sees for the first time. *)
Definition fresh (env : Env) (ip : string) (d : Device.t) : Prop :=
  Device.ip d = ip /\
  Device.mac d = get_mac env ip /\
  Device.hostname d = get_hostname env ip /\
  Device.vendor d = get_vendor (get_mac env ip) /\
  Device.monitored d = false /\
  Device.device_type d = "employee" /\
  Device.custom_name d = None.

(** What any part of a cycle does to the state, whether it ends normally
    or raises. *)
Record cycle_rel (env : Env) (s s' : State) : Prop := {
  cr_scanning : scanning s' = scanning s;
  cr_monitoring : monitoring s' = monitoring s;
  cr_distance_mode : distance_mode s' = distance_mode s;
  cr_calibration : calibration s' = calibration s;
  cr_keys : exists added,
      dict_keys (devices s') = (dict_keys (devices s) ++ added)%list;
  cr_kept : forall k d,
      dict_get k (devices s) = Some d ->
      exists d', dict_get k (devices s') = Some d' /\ same_identity d d';
  cr_new : forall k d',
      dict_get k (devices s') = Some d' ->
      dict_get k (devices s) = None ->
      fresh env k d';
  cr_presence_only : distance_mode s = false ->
      forall k d d',
        dict_get k (devices s) = Some d ->
        dict_get k (devices s') = Some d' ->
        Device.rssi d' = Device.rssi d /\
        Device.estimated_distance d' = Device.estimated_distance d;
  cr_wf : wf_registry (devices s) -> wf_registry (devices s')
}.

(** What the sweep leaves alone unless monitoring and distance estimation
    are both on. *)
Definition same_ledger (s s' : State) : Prop :=
  alerts s' = alerts s /\
  attendance_file s' = attendance_file s /\
  alerts_file s' = alerts_file s /\
  save_file s' = save_file s /\
  sounds s' = sounds s.

Record sweep_quiet (s s' : State) : Prop := {
  sq_monitoring : monitoring s' = monitoring s;
  sq_distance_mode : distance_mode s' = distance_mode s;
  sq_ledger : monitoring s = false \/ distance_mode s = false ->
              same_ledger s s'
}.

(** A relation holds of every run of a computation from a state. *)
Definition holds_from {A : Type} (R : State -> State -> Prop) (m : M A)
    (s : State) : Prop :=
  forall s' r, m s = (s', r) -> R s s'.

(** The rank of a zone, from the nearest to the farthest. *)
Definition zone_rank (zone : string) : nat :=
  if String.eqb zone "on-site" then 0
  else if String.eqb zone "near-site" then 1
  else if String.eqb zone "leaving" then 2
  else if String.eqb zone "away" then 3
  else 4.

(** The test the sweep makes before it records a distance alert, on the
    monitoring flag, the estimate of the previous cycle and the new one. *)
Definition distance_alert_due (mon : bool) (prev new_distance : option float)
    : bool :=
  match prev, new_distance with
  | Some p, Some d =>
      (mon && truthy p && truthy d
       && (10 <? abs (d - p))%float
       && negb (String.eqb (get_zone (Some p)) (get_zone (Some d))))%bool
  | _, _ => false
  end.

(** The estimate the sweep computes for a host that answers. *)
Definition host_estimate (env : Env) (cal : Calibration) (ip : string)
    : result (option float) :=
  calculate_distance (lib env) cal (Some (ping_with_stats env ip)).

(** The estimate a registry holds for an address, if any. *)
Definition known_distance (devs : registry) (ip : string) : option float :=
  match dict_get ip devs with
  | Some d => Device.estimated_distance d
  | None => None
  end.

(** A list of strings without repetition, decided. *)
Fixpoint distinct (l : list string) : bool :=
  match l with
  | [] => true
  | x :: rest => (negb (existsb (String.eqb x) rest) && distinct rest)%bool
  end.

(** * Proofs *)

(** ** Order facts on binary64 values *)

Lemma compare_cont_Eq_spec (a b : positive) :
  CompareSpec (a = b) (a < b)%positive (b < a)%positive
              (PosDef.Pos.compare_cont Eq a b).
Proof. exact (Pos.compare_spec a b). Qed.

Ltac sf_cases :=
  repeat match goal with
    | |- context [Z.compare ?a ?b] => destruct (Z.compare_spec a b)
    | |- context [PosDef.Pos.compare_cont Eq ?a ?b] =>
        destruct (compare_cont_Eq_spec a b)
    end.

Ltac sf_order :=
  unfold SFltb, SFleb, SFeqb;
  repeat match goal with
    | x : spec_float |- _ => destruct x as [[]|[]| |[] ? ?]
    end;
  cbn [SFcompare CompOpp];
  sf_cases; cbn [CompOpp]; intros;
  try reflexivity; try discriminate; try lia.

Lemma SFleb_SFltb_false x y : SFleb x y = true -> SFltb y x = false.
Proof. sf_order. Qed.

Lemma SFltb_SFeqb_false x y : SFltb x y = true -> SFeqb y x = false.
Proof. sf_order. Qed.

Lemma SFleb_trans x y z :
  SFleb x y = true -> SFleb y z = true -> SFleb x z = true.
Proof. sf_order. Qed.

Lemma float_leb_ltb_false (a b : float) :
  (a <=? b)%float = true -> (b <? a)%float = false.
Proof. rewrite (leb_spec a b), (ltb_spec b a). apply SFleb_SFltb_false. Qed.

Lemma float_ltb_eqb_false (a b : float) :
  (a <? b)%float = true -> (b =? a)%float = false.
Proof. rewrite (ltb_spec a b), (eqb_spec b a). apply SFltb_SFeqb_false. Qed.

Lemma float_leb_trans (a b c : float) :
  (a <=? b)%float = true -> (b <=? c)%float = true -> (a <=? c)%float = true.
Proof.
  rewrite (leb_spec a b), (leb_spec b c), (leb_spec a c). apply SFleb_trans.
Qed.

(** A distance at or above a bound is not below any smaller bound. *)
Lemma float_not_below (lo hi d : float) :
  (lo <=? hi)%float = true -> (hi <=? d)%float = true -> (d <? lo)%float = false.
Proof.
  intros Hlo Hd. apply float_leb_ltb_false.
  exact (float_leb_trans lo hi d Hlo Hd).
Qed.

(** ** The zone function *)

Lemma get_zone_some (d : float) :
  truthy d = true ->
  get_zone (Some d) =
    if (d <? 10)%float then "on-site"
    else if (d <? 30)%float then "near-site"
    else if (d <? 50)%float then "leaving"
    else "away".
Proof. intros H. unfold get_zone. cbn [truthy_opt]. rewrite H. reflexivity. Qed.

Lemma truthy_above (lo d : float) :
  (0 <? lo)%float = true -> (lo <=? d)%float = true -> truthy d = true.
Proof.
  intros Hlo Hd. unfold truthy.
  destruct (d =? 0)%float eqn:E; [| reflexivity].
  assert (H0 : (0 <? d)%float = true).
  { revert Hlo Hd. rewrite (ltb_spec 0 lo), (leb_spec lo d), (ltb_spec 0 d).
    generalize (Prim2SF 0) (Prim2SF lo) (Prim2SF d). intros x y z. sf_order. }
  rewrite (float_ltb_eqb_false 0 d H0) in E. discriminate.
Qed.

(** C1, as the code has it: a distance that is absent or zero has the zone
    "unknown"; a distance in (0, 10) is on-site, one in [10, 30) is
    near-site, one in [30, 50) is leaving, one at or above 50 is away, and
    every nonzero distance gets one of these four zones.  In particular
    9.9 is on-site, 10.0 near-site, 49.9 leaving and 50.0 away. *)
Theorem get_zone_bands (d : float) :
  get_zone None = "unknown" /\
  get_zone (Some 0%float) = "unknown" /\
  get_zone (Some (-0)%float) = "unknown" /\
  ((0 <? d)%float = true -> (d <? 10)%float = true ->
   get_zone (Some d) = "on-site") /\
  ((10 <=? d)%float = true -> (d <? 30)%float = true ->
   get_zone (Some d) = "near-site") /\
  ((30 <=? d)%float = true -> (d <? 50)%float = true ->
   get_zone (Some d) = "leaving") /\
  ((50 <=? d)%float = true -> get_zone (Some d) = "away") /\
  (truthy d = true ->
   In (get_zone (Some d)) ["on-site"; "near-site"; "leaving"; "away"]) /\
  get_zone (Some 9.9%float) = "on-site" /\
  get_zone (Some 10%float) = "near-site" /\
  get_zone (Some 49.9%float) = "leaving" /\
  get_zone (Some 50%float) = "away".
Proof.
  split; [reflexivity |]. split; [reflexivity |]. split; [reflexivity |].
  split.
  { intros H0 H10. rewrite get_zone_some.
    - rewrite H10. reflexivity.
    - unfold truthy. rewrite (float_ltb_eqb_false 0 d H0). reflexivity. }
  split.
  { intros Hlo Hhi. rewrite get_zone_some.
    - rewrite (float_leb_ltb_false 10 d Hlo), Hhi. reflexivity.
    - apply (truthy_above 10 d); [reflexivity | exact Hlo]. }
  split.
  { intros Hlo Hhi. rewrite get_zone_some.
    - rewrite (float_not_below 10 30 d), (float_leb_ltb_false 30 d Hlo), Hhi;
        [reflexivity | reflexivity | exact Hlo].
    - apply (truthy_above 30 d); [reflexivity | exact Hlo]. }
  split.
  { intros Hlo. rewrite get_zone_some.
    - rewrite (float_not_below 10 50 d), (float_not_below 30 50 d),
        (float_leb_ltb_false 50 d Hlo);
        [reflexivity | reflexivity | exact Hlo | reflexivity | exact Hlo].
    - apply (truthy_above 50 d); [reflexivity | exact Hlo]. }
  split.
  { intros Ht. rewrite (get_zone_some d Ht).
    destruct (d <? 10)%float; [left; reflexivity |].
    destruct (d <? 30)%float; [right; left; reflexivity |].
    destruct (d <? 50)%float; [right; right; left; reflexivity |].
    right; right; right; left; reflexivity. }
  repeat split; reflexivity.
Qed.

Lemma get_zone_bands_witness :
  (0 <? 9.9)%float = true /\ (9.9 <? 10)%float = true /\
  get_zone (Some 9.9%float) = "on-site".
Proof.
  split; [reflexivity |]. split; [reflexivity |].
  apply (get_zone_bands 9.9%float); reflexivity.
Defined.

(** C1, as the specification words it, fails at 0.0: that distance lies in
    [0, 10) and is given the zone "unknown". *)
Lemma zone_total_fails_at_zero :
  (0 <=? 0)%float = true /\ (0 <? 10)%float = true /\
  get_zone (Some 0%float) = "unknown" /\
  ~ Spec.zone_total.
Proof.
  split; [reflexivity |]. split; [reflexivity |]. split; [reflexivity |].
  intros H. destruct (H 0%float) as [Hon _].
  specialize (Hon eq_refl eq_refl). discriminate Hon.
Qed.

(** ** The distance estimate *)

(** C7: the estimate depends on the RSSI and the calibration only.  A
    missing or zero RSSI gives no distance.  For a nonzero RSSI the result
    is [math.pow(10, (referenceRSSI - rssi) / (10 * pathLossExponent))]
    rounded to one decimal, whenever the division and the power are
    defined.  With the reference -40, the exponent 2.0 and the RSSI -60 the
    power is taken at exactly 1.0, so the result is exactly 10.0 as soon as
    [math.pow(10, 1.0)] is 10.0 and [round(10.0, 1)] is 10.0. *)
Theorem calculate_distance_formula (lib : MathLib) (cal : Calibration) :
  calculate_distance lib cal None = Ok None /\
  calculate_distance lib cal (Some 0) = Ok None /\
  (forall (rssi : Z) (num power : float),
     rssi <> 0 ->
     float_of_int (referenceRSSI cal - rssi) = Ok num ->
     (10 * pathLossExponent cal =? 0)%float = false ->
     math_pow lib 10 (num / (10 * pathLossExponent cal))%float = Ok power ->
     calculate_distance lib cal (Some rssi) = Ok (Some (round1 lib power))) /\
  (math_pow lib 10 1 = Ok 10%float ->
   round1 lib 10 = 10%float ->
   calculate_distance lib default_calibration (Some (-60)) = Ok (Some 10%float)).
Proof.
  split; [reflexivity |]. split; [reflexivity |]. split.
  - intros rssi num power Hr Hnum Hden Hpow. unfold calculate_distance.
    destruct (Z.eqb_spec rssi 0) as [E | _]; [contradiction |].
    rewrite Hnum, Hden, Hpow. reflexivity.
  - intros Hpow Hround. unfold calculate_distance.
    change (-60 =? 0) with false. cbv iota.
    change (float_of_int (referenceRSSI default_calibration - -60))
      with (float_of_int 20).
    replace (float_of_int 20) with (Ok 20%float) by (vm_compute; reflexivity).
    cbv beta iota zeta.
    change (pathLossExponent default_calibration) with 2%float.
    change (10 * 2 =? 0)%float with false. cbv iota.
    change (20 / (10 * 2))%float with 1%float.
    rewrite Hpow, Hround. reflexivity.
Qed.

Lemma calculate_distance_formula_witness :
  (-80 <> 0 /\
   float_of_int (referenceRSSI default_calibration - -80) = Ok 40%float /\
   (10 * pathLossExponent default_calibration =? 0)%float = false /\
   math_pow example_lib 10
     (40 / (10 * pathLossExponent default_calibration))%float = Ok 100%float /\
   calculate_distance example_lib default_calibration (Some (-80))
   = Ok (Some (round1 example_lib 100))) /\
  (math_pow example_lib 10 1 = Ok 10%float /\
   round1 example_lib 10 = 10%float /\
   calculate_distance example_lib default_calibration (Some (-60))
   = Ok (Some 10%float)).
Proof.
  assert (Hnum : float_of_int (referenceRSSI default_calibration - -80)
                 = Ok 40%float) by (vm_compute; reflexivity).
  assert (Hpow2 : math_pow example_lib 10
                    (40 / (10 * pathLossExponent default_calibration))%float
                  = Ok 100%float) by (vm_compute; reflexivity).
  assert (Hpow : math_pow example_lib 10 1 = Ok 10%float)
    by (vm_compute; reflexivity).
  assert (Hround : round1 example_lib 10 = 10%float)
    by (vm_compute; reflexivity).
  split.
  - split; [lia |]. split; [exact Hnum |]. split; [reflexivity |].
    split; [exact Hpow2 |].
    refine (proj1 (proj2 (proj2
              (calculate_distance_formula example_lib default_calibration)))
              (-80) 40%float 100%float _ Hnum eq_refl Hpow2).
    lia.
  - split; [exact Hpow |]. split; [exact Hround |].
    apply (calculate_distance_formula example_lib default_calibration);
      assumption.
Defined.

(** The estimates of the six signal levels under the default calibration
    and the stand-in library, where the exponent is whole. *)
Example calculate_distance_levels :
  map (fun r => calculate_distance example_lib default_calibration (Some r))
      [-40; -60; -80]
  = [Ok (Some 1%float); Ok (Some 10%float); Ok (Some 100%float)].
Proof. vm_compute. reflexivity. Qed.

(** A zero path-loss exponent makes the division raise. *)
Example calculate_distance_zero_exponent :
  calculate_distance example_lib
    {| referenceRSSI := -40; pathLossExponent := 0; distanceThreshold := 50 |}
    (Some (-60))
  = Raise ZeroDivisionError.
Proof. vm_compute. reflexivity. Qed.

(** ** Reentrancy *)

(** C6: a scan requested while the flag is set returns at once and leaves
    the whole state (registry, ledger, files, clock, sounds) as it was. *)
Theorem scan_while_scanning (env : Env) (s : State) :
  scanning s = true -> scan env s = (s, Ok tt).
Proof. intros H. unfold scan. rewrite H. reflexivity. Qed.

Lemma scan_while_scanning_witness :
  scanning (Example.state true true true true) = true /\
  scan Example.nobody_up (Example.state true true true true)
  = (Example.state true true true true, Ok tt).
Proof.
  split; [reflexivity |].
  apply (scan_while_scanning Example.nobody_up); reflexivity.
Defined.

(** The same request with the flag clear does run: the laptop does not
    answer, is marked offline and its departure is recorded. *)
Example scan_when_idle :
  let s' := fst (scan Example.nobody_up (Example.state true true true false)) in
  map (fun e => Device.online (snd e)) (devices s') = [false] /\
  map Alert.type (alerts s') = [departure] /\
  scanning s' = false.
Proof. vm_compute. repeat split; reflexivity. Qed.

(** ** Dictionary facts *)

Section DictFacts.
Context {V : Type}.
Implicit Types (d : list (string * V)) (k : string).

Lemma dict_get_alter_same (f : V -> V) k d :
  dict_get k (dict_alter f k d) = option_map f (dict_get k d).
Proof.
  induction d as [| [k' v'] rest IH]; [reflexivity |].
  cbn [dict_alter dict_get].
  destruct (String.eqb k k') eqn:E; cbn [dict_get]; rewrite E;
    [reflexivity | exact IH].
Qed.

Lemma dict_get_alter_other (f : V -> V) k k' d :
  k' <> k -> dict_get k' (dict_alter f k d) = dict_get k' d.
Proof.
  intros Hne. induction d as [| [k0 v0] rest IH]; [reflexivity |].
  cbn [dict_alter dict_get].
  destruct (String.eqb k k0) eqn:E; cbn [dict_get].
  - apply String.eqb_eq in E. subst k0.
    apply String.eqb_neq in Hne. rewrite Hne. reflexivity.
  - rewrite IH. reflexivity.
Qed.

Lemma dict_keys_alter (f : V -> V) k d :
  dict_keys (dict_alter f k d) = dict_keys d.
Proof.
  unfold dict_keys. induction d as [| [k' v'] rest IH]; [reflexivity |].
  cbn [dict_alter]. destruct (String.eqb k k'); cbn [map fst];
    [reflexivity | rewrite IH; reflexivity].
Qed.

Lemma dict_get_set_same k (v : V) d : dict_get k (dict_set k v d) = Some v.
Proof.
  induction d as [| [k' v'] rest IH]; cbn [dict_set dict_get].
  - rewrite String.eqb_refl. reflexivity.
  - destruct (String.eqb k k') eqn:E; cbn [dict_get].
    + rewrite String.eqb_refl. reflexivity.
    + rewrite E. exact IH.
Qed.

Lemma dict_get_set_other k k' (v : V) d :
  k' <> k -> dict_get k' (dict_set k v d) = dict_get k' d.
Proof.
  intros Hne. apply String.eqb_neq in Hne.
  induction d as [| [k0 v0] rest IH]; cbn [dict_set dict_get].
  - rewrite Hne. reflexivity.
  - destruct (String.eqb k k0) eqn:E; cbn [dict_get].
    + apply String.eqb_eq in E. subst k0. rewrite Hne. reflexivity.
    + rewrite IH. reflexivity.
Qed.

Lemma dict_get_In k (v : V) d : dict_get k d = Some v -> In (k, v) d.
Proof.
  induction d as [| [k' v'] rest IH]; cbn [dict_get]; [discriminate |].
  destruct (String.eqb k k') eqn:E.
  - intros H. injection H as ->. apply String.eqb_eq in E. subst. left.
    reflexivity.
  - intros H. right. exact (IH H).
Qed.

Lemma dict_get_None_keys k d : dict_get k d = None -> ~ In k (dict_keys d).
Proof.
  unfold dict_keys.
  induction d as [| [k' v'] rest IH]; cbn [dict_get map fst];
    [intros _ [] |].
  destruct (String.eqb k k') eqn:E; [discriminate |].
  intros H [Heq | Hin].
  - subst k'. rewrite String.eqb_refl in E. discriminate.
  - exact (IH H Hin).
Qed.

Lemma In_dict_get k (v : V) d :
  NoDup (dict_keys d) -> In (k, v) d -> dict_get k d = Some v.
Proof.
  unfold dict_keys.
  induction d as [| [k' v'] rest IH]; cbn [map fst dict_get];
    [intros _ [] |].
  intros Hnd [Heq | Hin].
  - injection Heq as -> ->. rewrite String.eqb_refl. reflexivity.
  - inversion Hnd as [| ? ? Hnotin Hnd']. subst.
    destruct (String.eqb k k') eqn:E.
    + apply String.eqb_eq in E. subst k'. exfalso. apply Hnotin.
      change k with (fst (k, v)). apply in_map. exact Hin.
    + exact (IH Hnd' Hin).
Qed.

End DictFacts.

(** ** Editing a device *)

Lemma dict_mem_true_get {V : Type} (k : string) (d : list (string * V)) :
  dict_mem k d = true -> exists v, dict_get k d = Some v.
Proof.
  unfold dict_mem. destruct (dict_get k d) as [v |]; [| discriminate].
  intros _. exists v. reflexivity.
Qed.

(** C8: an update for an address the registry does not hold (or for no
    address at all) answers 404 "Device not found" and returns the state it
    was given: no entry is created or changed and no file is written.  An
    update for a held address answers 200 "updated" and saves. *)
Theorem update_device_not_found (data : UpdateRequest) (s : State) :
  (opt_default false
     (option_map (fun ip => dict_mem ip (devices s)) (req_ip data)) = false ->
   update_device data s = (s, NotFound) /\
   status_code NotFound = 404 /\
   response_body NotFound = ("error", "Device not found")) /\
  (forall ip,
     req_ip data = Some ip -> dict_mem ip (devices s) = true ->
     snd (update_device data s) = Updated /\
     status_code Updated = 200 /\
     response_body Updated = ("status", "updated") /\
     dict_keys (devices (fst (update_device data s))) = dict_keys (devices s) /\
     save_file (fst (update_device data s))
     = Some (devices (fst (update_device data s)))).
Proof.
  split.
  - intros H. unfold update_device.
    destruct (req_ip data) as [ip |]; cbn [option_map opt_default] in H.
    + rewrite H. repeat split.
    + repeat split.
  - intros ip Hip Hmem. unfold update_device. rewrite Hip, Hmem.
    cbn [fst snd save_data set_devices devices save_file].
    rewrite dict_keys_alter. repeat split.
Qed.

Lemma update_device_not_found_witness :
  (opt_default false
     (option_map
        (fun ip => dict_mem ip (devices (Example.state false false false false)))
        (req_ip Example.rename_stranger)) = false /\
   update_device Example.rename_stranger (Example.state false false false false)
   = (Example.state false false false false, NotFound)) /\
  (req_ip Example.rename_laptop = Some "192.168.1.5" /\
   dict_mem "192.168.1.5" (devices (Example.state false false false false)) = true /\
   snd (update_device Example.rename_laptop
          (Example.state false false false false)) = Updated).
Proof.
  split.
  - split; [reflexivity |].
    apply (update_device_not_found Example.rename_stranger
             (Example.state false false false false)).
    reflexivity.
  - split; [reflexivity |]. split; [reflexivity |].
    apply (update_device_not_found Example.rename_laptop
             (Example.state false false false false) ) with (ip := "192.168.1.5");
      reflexivity.
Defined.

(** C9: a successful update replaces [custom_name], [monitored] and
    [device_type] of the addressed device and nothing else: its other nine
    fields, its place in the registry, every other entry, the alert list,
    the flags, the calibration and the attendance file are as before. *)
Theorem update_device_frame (data : UpdateRequest) (s : State)
    (ip : string) (d : Device.t) :
  req_ip data = Some ip ->
  dict_get ip (devices s) = Some d ->
  let s' := fst (update_device data s) in
  (exists d',
     dict_get ip (devices s') = Some d' /\
     Device.custom_name d' = Some (opt_default "" (req_name data)) /\
     Device.monitored d' = opt_default false (req_monitored data) /\
     Device.device_type d' = opt_default "employee" (req_device_type data) /\
     Device.ip d' = Device.ip d /\
     Device.mac d' = Device.mac d /\
     Device.hostname d' = Device.hostname d /\
     Device.vendor d' = Device.vendor d /\
     Device.online d' = Device.online d /\
     Device.first_seen d' = Device.first_seen d /\
     Device.last_seen d' = Device.last_seen d /\
     Device.rssi d' = Device.rssi d /\
     Device.estimated_distance d' = Device.estimated_distance d) /\
  (forall ip', ip' <> ip ->
     dict_get ip' (devices s') = dict_get ip' (devices s)) /\
  dict_keys (devices s') = dict_keys (devices s) /\
  alerts s' = alerts s /\
  attendance_file s' = attendance_file s /\
  calibration s' = calibration s /\
  (scanning s', monitoring s', distance_mode s')
  = (scanning s, monitoring s, distance_mode s).
Proof.
  intros Hip Hget s'. subst s'. unfold update_device, dict_mem.
  rewrite Hip, Hget.
  cbn [fst save_data set_devices devices alerts attendance_file calibration
       scanning monitoring distance_mode].
  split.
  { eexists. rewrite dict_get_alter_same, Hget. cbn [option_map].
    split; [reflexivity |]. cbn. repeat split. }
  split.
  { intros ip' Hne. apply dict_get_alter_other. exact Hne. }
  split; [apply dict_keys_alter |].
  repeat split.
Qed.

Lemma update_device_frame_witness :
  req_ip Example.rename_laptop = Some "192.168.1.5" /\
  dict_get "192.168.1.5" (devices (Example.state false true true false))
  = Some (Example.laptop false) /\
  alerts (fst (update_device Example.rename_laptop
                 (Example.state false true true false)))
  = alerts (Example.state false true true false).
Proof.
  split; [reflexivity |]. split; [reflexivity |].
  apply (update_device_frame Example.rename_laptop
           (Example.state false true true false) "192.168.1.5"
           (Example.laptop false)); reflexivity.
Defined.

(** ** The alert ledger *)

Lemma add_alert_unfold (env : Env) (device : Device.t) (ty : AlertType)
    (msg : option string) (s : State) :
  add_alert env device ty msg s =
  let a := make_alert (now_at env (clock s)) device ty msg in
  save_data
    (log_attendance a
       (alerts_truncate (alerts_insert a (set_clock (S (clock s)) s)))).
Proof. reflexivity. Qed.

Lemma add_alert_alerts env device ty msg s :
  alerts (add_alert env device ty msg s)
  = firstn 1000 (make_alert (now_at env (clock s)) device ty msg :: alerts s).
Proof. reflexivity. Qed.

Lemma add_alert_attendance_file env device ty msg s :
  attendance_file (add_alert env device ty msg s)
  = Some ((match attendance_file s with
           | None => [csv_header]
           | Some rows => rows
           end)
          ++ [attendance_row (make_alert (now_at env (clock s)) device ty msg)])%list.
Proof. reflexivity. Qed.

Lemma add_alert_attendance_rows env device ty msg s :
  attendance_rows (add_alert env device ty msg s)
  = (attendance_rows s
     ++ (match attendance_file s with
         | None => [csv_header]
         | Some _ => []
         end)
     ++ [attendance_row (make_alert (now_at env (clock s)) device ty msg)])%list.
Proof.
  unfold attendance_rows. rewrite add_alert_attendance_file.
  destruct (attendance_file s); reflexivity.
Qed.

Lemma firstn_app_firstn {A : Type} (n : nat) (l1 l2 : list A) :
  firstn n (l1 ++ firstn n l2) = firstn n (l1 ++ l2).
Proof.
  rewrite !firstn_app, firstn_firstn.
  replace (Nat.min (n - List.length l1) n) with (n - List.length l1)%nat by lia.
  reflexivity.
Qed.

(** The alerts a sequence of calls builds, oldest first. *)
Lemma record_all_spec (env : Env)
    (calls : list (Device.t * AlertType * option string)) :
  forall s,
    exists recorded : list Alert.t,
      List.length recorded = List.length calls /\
      alerts (record_all env calls s)
      = match calls with
        | [] => alerts s
        | _ :: _ => firstn 1000 (rev recorded ++ alerts s)
        end /\
      attendance_rows (record_all env calls s)
      = (attendance_rows s
         ++ (match attendance_file s, calls with
             | None, _ :: _ => [csv_header]
             | _, _ => []
             end)
         ++ map attendance_row recorded)%list.
Proof.
  induction calls as [| [[device ty] msg] calls IH]; intros s.
  - exists []. cbn [record_all fold_left map List.length].
    repeat split. destruct (attendance_file s); rewrite !app_nil_r; reflexivity.
  - cbn [record_all fold_left fst snd].
    change (fold_left _ calls ?x) with (record_all env calls x).
    destruct (IH (add_alert env device ty msg s)) as (rec & Hlen & Hal & Hrows).
    exists (make_alert (now_at env (clock s)) device ty msg :: rec).
    split; [cbn [List.length]; rewrite Hlen; reflexivity |].
    split.
    + rewrite Hal. destruct calls as [| c calls'].
      * destruct rec; [| discriminate Hlen]. rewrite add_alert_alerts.
        reflexivity.
      * rewrite add_alert_alerts, firstn_app_firstn.
        cbn [rev]. rewrite <- app_assoc. reflexivity.
    + rewrite Hrows, add_alert_attendance_rows, add_alert_attendance_file.
      cbn [map]. rewrite <- !app_assoc. reflexivity.
Qed.

(** C4: one call puts the new alert at the head of the list and keeps the
    first 1000 entries, so the list never exceeds 1000 and what is dropped
    is dropped at the tail; it appends exactly one row to the attendance
    file (after the header, when the file is created).  Over any sequence
    of calls the list stays within 1000 and holds the newest alerts first,
    and the attendance file grows by one row per call, its earlier rows
    unchanged. *)
Theorem alert_ledger_bounded (env : Env)
    (calls : list (Device.t * AlertType * option string)) (s : State) :
  (forall device ty msg,
     let a := make_alert (now_at env (clock s)) device ty msg in
     let s' := add_alert env device ty msg s in
     alerts s' = firstn 1000 (a :: alerts s) /\
     (List.length (alerts s') <= 1000)%nat /\
     attendance_file s'
     = Some ((match attendance_file s with
              | None => [csv_header]
              | Some rows => rows
              end) ++ [attendance_row a])%list) /\
  ((List.length (alerts s) <= 1000)%nat ->
   exists recorded : list Alert.t,
     List.length recorded = List.length calls /\
     alerts (record_all env calls s) = firstn 1000 (rev recorded ++ alerts s) /\
     (List.length (alerts (record_all env calls s)) <= 1000)%nat /\
     attendance_rows (record_all env calls s)
     = (attendance_rows s
        ++ (match attendance_file s, calls with
            | None, _ :: _ => [csv_header]
            | _, _ => []
            end)
        ++ map attendance_row recorded)%list).
Proof.
  split.
  - intros device ty msg a s'. subst a s'.
    rewrite add_alert_alerts, add_alert_attendance_file.
    split; [reflexivity |]. split; [apply firstn_le_length | reflexivity].
  - intros Hbound.
    destruct (record_all_spec env calls s) as (rec & Hlen & Hal & Hrows).
    exists rec. split; [exact Hlen |].
    assert (Hal' : alerts (record_all env calls s)
                   = firstn 1000 (rev rec ++ alerts s)).
    { rewrite Hal. destruct calls; [| reflexivity].
      destruct rec; [| discriminate Hlen]. cbn [rev app].
      symmetry. apply firstn_all2. exact Hbound. }
    split; [exact Hal' |]. split; [| exact Hrows].
    rewrite Hal'. apply firstn_le_length.
Qed.

Lemma alert_ledger_bounded_witness :
  (List.length (alerts initial_state) <= 1000)%nat /\
  exists recorded : list Alert.t,
    List.length recorded = 2%nat /\
    attendance_rows
      (record_all Example.laptop_up
         [(Example.laptop true, arrival, None);
          (Example.laptop true, departure, None)] initial_state)
    = (csv_header :: map attendance_row recorded).
Proof.
  split; [cbn; lia |].
  destruct (proj2 (alert_ledger_bounded Example.laptop_up
                     [(Example.laptop true, arrival, None);
                      (Example.laptop true, departure, None)] initial_state))
    as (rec & Hlen & _ & _ & Hrows); [cbn; lia |].
  exists rec. split; [exact Hlen | exact Hrows].
Defined.

(** After 1001 calls the list holds 1000 alerts and the attendance file
    the header and 1001 rows. *)
Example ledger_after_1001_calls :
  let s := record_all Example.laptop_up
             (repeat (Example.laptop true, arrival, None) 1001) initial_state in
  List.length (alerts s) = 1000%nat /\
  List.length (attendance_rows s) = 1002%nat /\
  hd_error (attendance_rows s) = Some csv_header.
Proof. vm_compute. repeat split; reflexivity. Qed.

(** [clear_alerts] empties the list and leaves the attendance file alone. *)
Lemma clear_alerts_keeps_attendance (s : State) :
  alerts (clear_alerts s) = [] /\
  attendance_file (clear_alerts s) = attendance_file s.
Proof. split; reflexivity. Qed.

(** ** The order of the writes in [add_alert] *)

Lemma add_alert_trace_last env device ty msg s :
  last (snd (add_alert_trace env device ty msg s)) s
  = add_alert env device ty msg s.
Proof. reflexivity. Qed.

(** C3, as the code has it: [add_alert] first puts the alert at the head of
    the in-memory list and only later appends its row to the attendance
    file.  So the call goes through a state in which the alert is in the
    list while the file is still as it was; it goes through no state in
    which the file has changed and the alert is not at the head of the
    list; and when it returns the alert heads the list and its row ends
    the file. *)
Theorem add_alert_write_order (env : Env) (device : Device.t)
    (ty : AlertType) (msg : option string) (s : State) :
  let a := fst (add_alert_trace env device ty msg s) in
  let trace := snd (add_alert_trace env device ty msg s) in
  last trace s = add_alert env device ty msg s /\
  (exists st, In st trace /\
              hd_error (alerts st) = Some a /\
              attendance_file st = attendance_file s) /\
  Forall (fun st => attendance_file st <> attendance_file s ->
                    hd_error (alerts st) = Some a) trace /\
  hd_error (alerts (add_alert env device ty msg s)) = Some a /\
  last (attendance_rows (add_alert env device ty msg s)) [] = attendance_row a.
Proof.
  cbn zeta. unfold add_alert_trace, now. cbn [fst snd].
  split; [reflexivity |]. split.
  { eexists. split; [right; left; reflexivity |]. split; reflexivity. }
  split.
  { repeat constructor; cbn; try reflexivity; intros H; exfalso; apply H;
      reflexivity. }
  split; [reflexivity |].
  rewrite add_alert_attendance_rows, app_assoc. apply last_last.
Qed.

(** C3, as the specification words it, fails on the first alert of a fresh
    monitor: after [insert(0, alert)] the list holds the alert and the
    attendance file does not exist yet. *)
Lemma logged_before_visible_fails :
  (let a := make_alert (Example.clock_reading 0) (Example.laptop true)
                       arrival None in
   let st := alerts_insert a (set_clock 1 initial_state) in
   In st (snd (add_alert_trace Example.laptop_up (Example.laptop true)
                 arrival None initial_state)) /\
   alerts st = [a] /\
   attendance_file st = None) /\
  ~ Spec.logged_before_visible.
Proof.
  split.
  - cbn zeta. split; [right; left; reflexivity |]. split; reflexivity.
  - intros H.
    specialize (H Example.laptop_up (Example.laptop true) arrival None
                  initial_state).
    cbn in H. inversion H as [| ? ? _ H1]. subst.
    inversion H1 as [| ? ? Hin _]. subst.
    exact (Hin (or_introl eq_refl)).
Qed.

(** ** The exported distance *)

Lemma make_alert_ignores_distance (ts : string) (device : Device.t)
    (ty : AlertType) (msg : option string) (x : option float) :
  make_alert ts (Device.set_estimated_distance x device) ty msg
  = make_alert ts device ty msg.
Proof. reflexivity. Qed.

Lemma export_attendance_In (env : Env) (date : string) (s : State)
    (a : Alert.t) :
  In a (alerts s) ->
  date_of (Alert.timestamp a) = date ->
  In (export_row env (devices s) a) (export_attendance env date s).
Proof.
  intros Hin Hdate. unfold export_attendance. right.
  apply in_map. apply filter_In. split; [exact Hin |].
  rewrite Hdate. apply String.eqb_refl.
Qed.

(** C10: an alert is built from the device's identity fields and holds no
    distance: the device's estimate at that moment does not enter it.  When
    the alert is exported, under whatever registry [devs'] the monitor has
    by then, its row takes the name, type, address and MAC from the alert
    (the values the device had when the alert was recorded) and the
    Distance cell from [devs']: empty when the address is no longer there,
    the current estimate followed by "m" otherwise. *)
Theorem export_distance_is_current (env : Env) (device : Device.t)
    (ty : AlertType) (msg : option string) (s : State) (devs' : registry)
    (date : string) :
  let a := make_alert (now_at env (clock s)) device ty msg in
  let s' := set_devices devs' (add_alert env device ty msg s) in
  let row := export_row env devs' a in
  date_of (Alert.timestamp a) = date ->
  In row (export_attendance env date s') /\
  (forall x, make_alert (now_at env (clock s))
               (Device.set_estimated_distance x device) ty msg = a) /\
  nth 2 row "" = csv_cell (Device.display_name device) /\
  nth 3 row "" = Device.device_type device /\
  nth 4 row "" = Device.ip device /\
  nth 5 row "" = csv_cell (Device.mac device) /\
  nth 6 row "" = distance_cell env devs' (Device.ip device) /\
  (dict_get (Device.ip device) devs' = None -> nth 6 row "" = "") /\
  (forall current x,
     dict_get (Device.ip device) devs' = Some current ->
     Device.estimated_distance current = Some x ->
     truthy x = true ->
     nth 6 row "" = float_str (lib env) x ++ "m").
Proof.
  intros a s' row Hdate. split.
  { apply (export_attendance_In env date s' a); [| exact Hdate].
    subst s'. cbn [set_devices alerts]. rewrite add_alert_alerts.
    left. reflexivity. }
  split; [intros x; reflexivity |].
  do 5 (split; [reflexivity |]).
  subst row a. cbn [export_row nth make_alert Alert.ip]. unfold distance_cell.
  split.
  - intros ->. reflexivity.
  - intros current x -> -> ->. reflexivity.
Qed.

Lemma export_distance_is_current_witness :
  let recorded_at := Example.state true true true false in
  let moved :=
    [("192.168.1.5",
      Device.set_estimated_distance (Some 31.6%float) (Example.laptop true))] in
  date_of (Alert.timestamp
             (make_alert (now_at Example.laptop_up (clock recorded_at))
                         (Example.laptop true) arrival None)) = "2024-01-02" /\
  In ["09:00:00"; "ARRIVAL"; "laptop"; "employee"; "192.168.1.5";
      "60:CF:84:00:00:01"; "31.6m"; ""]
     (export_attendance Example.laptop_up "2024-01-02"
        (set_devices moved
           (add_alert Example.laptop_up (Example.laptop true) arrival None
                      recorded_at))).
Proof.
  cbn zeta. split; [reflexivity |].
  refine (proj1 (export_distance_is_current Example.laptop_up
                   (Example.laptop true) arrival None
                   (Example.state true true true false)
                   [("192.168.1.5",
                     Device.set_estimated_distance (Some 31.6%float)
                       (Example.laptop true))]
                   "2024-01-02" _)).
  reflexivity.
Defined.

(** The same alert exported after the device has left the registry. *)
Example export_after_removal :
  export_attendance Example.laptop_up "2024-01-02"
    (set_devices []
       (add_alert Example.laptop_up (Example.laptop true) arrival None
                  (Example.state true true true false)))
  = [export_header;
     ["09:00:00"; "ARRIVAL"; "laptop"; "employee"; "192.168.1.5";
      "60:CF:84:00:00:01"; ""; ""]].
Proof. vm_compute. reflexivity. Qed.

(** ** The sweep *)

Lemma sweep_rel_refl (s : State) : sweep_rel (fun _ => false) s s.
Proof.
  constructor; try reflexivity.
  - exists []. rewrite app_nil_r. split; [reflexivity | constructor].
  - auto.
  - intros k d H. exists d. rewrite orb_false_r. auto.
  - intros k d' H1 H2. cbn in H1, H2; congruence.
Qed.

Lemma sweep_rel_trans (h1 h2 : string -> bool) (s1 s2 s3 : State) :
  sweep_rel h1 s1 s2 -> sweep_rel h2 s2 s3 ->
  sweep_rel (fun k => (h1 k || h2 k)%bool) s1 s3.
Proof.
  intros [A1 A2 A3 A4 (w1 & A5 & A5') A6 A7 A8]
         [B1 B2 B3 B4 (w2 & B5 & B5') B6 B7 B8].
  constructor; try congruence.
  - exists (w1 ++ w2)%list. split.
    + rewrite B5, A5, app_assoc. reflexivity.
    + apply Forall_app. split; assumption.
  - auto.
  - intros k d H. destruct (A7 k d H) as (d1 & G1 & M1 & I1 & O1).
    destruct (B7 k d1 G1) as (d2 & G2 & M2 & I2 & O2).
    exists d2. split; [exact G2 |]. split; [congruence |].
    split; [congruence |]. rewrite O2, O1, orb_assoc. reflexivity.
  - intros k d3 H3 H1. destruct (dict_get k (devices s2)) as [d2 |] eqn:H2.
    + destruct (B7 k d2 H2) as (d3' & G3 & M3 & _).
      rewrite G3 in H3. injection H3 as <-. rewrite M3.
      exact (A8 k d2 H2 H1).
    + exact (B8 k d3 H3 H2).
Qed.

Lemma sweep_rel_ext (h h' : string -> bool) (s s' : State) :
  (forall k, h k = h' k) -> sweep_rel h s s' -> sweep_rel h' s s'.
Proof.
  intros E [A1 A2 A3 A4 A5 A6 A7 A8]. constructor; try assumption.
  intros k d H. destruct (A7 k d H) as (d1 & G1 & M1 & I1 & O1).
  exists d1. rewrite <- E. auto.
Qed.

(** Composition with a step that turns nothing on. *)
Lemma sweep_rel_then (h : string -> bool) (s1 s2 s3 : State) :
  sweep_rel h s1 s2 -> sweep_rel (fun _ => false) s2 s3 -> sweep_rel h s1 s3.
Proof.
  intros H1 H2. apply (sweep_rel_ext (fun k => (h k || false)%bool)).
  - intros k. apply orb_false_r.
  - exact (sweep_rel_trans _ _ _ _ _ H1 H2).
Qed.

Lemma sweep_rel_after (h : string -> bool) (s1 s2 s3 : State) :
  sweep_rel (fun _ => false) s1 s2 -> sweep_rel h s2 s3 -> sweep_rel h s1 s3.
Proof.
  intros H1 H2. apply (sweep_rel_ext (fun k => (false || h k)%bool)).
  - intros k. reflexivity.
  - exact (sweep_rel_trans _ _ _ _ _ H1 H2).
Qed.

(** Registry steps *)

Lemma dict_set_new {V : Type} (k : string) (v : V) (d : list (string * V)) :
  dict_get k d = None -> dict_set k v d = (d ++ [(k, v)])%list.
Proof.
  induction d as [| [k' v'] rest IH]; cbn [dict_get dict_set app];
    [reflexivity |].
  destruct (String.eqb k k'); [discriminate |].
  intros H. rewrite (IH H). reflexivity.
Qed.

Lemma In_dict_alter {V : Type} (f : V -> V) (x k : string) (v : V)
    (d : list (string * V)) :
  In (k, v) (dict_alter f x d) ->
  exists v0, In (k, v0) d /\ (v = v0 \/ v = f v0).
Proof.
  induction d as [| [k' v'] rest IH]; cbn [dict_alter]; [intros [] |].
  destruct (String.eqb x k').
  - intros [H | H].
    + injection H as <- <-. exists v'. split; [left; reflexivity | right; reflexivity].
    + exists v. split; [right; exact H | left; reflexivity].
  - intros [H | H].
    + injection H as <- <-. exists v'. split; [left; reflexivity | left; reflexivity].
    + destruct (IH H) as (v0 & Hin & Hv). exists v0. split; [right; exact Hin | exact Hv].
Qed.

Lemma wf_registry_alter (f : Device.t -> Device.t) (x : string) (devs : registry) :
  (forall d, Device.ip (f d) = Device.ip d) ->
  wf_registry devs -> wf_registry (dict_alter f x devs).
Proof.
  intros Hf [Hnd Hip]. split.
  - rewrite dict_keys_alter. exact Hnd.
  - intros k d Hin. destruct (In_dict_alter f x k d devs Hin) as (d0 & Hin0 & [-> | ->]).
    + exact (Hip k d0 Hin0).
    + rewrite Hf. exact (Hip k d0 Hin0).
Qed.

Lemma wf_registry_set_new (x : string) (v : Device.t) (devs : registry) :
  dict_get x devs = None -> Device.ip v = x ->
  wf_registry devs -> wf_registry (dict_set x v devs).
Proof.
  intros Hnone Hv [Hnd Hip]. rewrite (dict_set_new x v devs Hnone). split.
  - unfold dict_keys. rewrite map_app. cbn [map fst].
    apply NoDup_app; [exact Hnd | repeat constructor; intros [] | ].
    intros k Hin [<- | []]. exact (dict_get_None_keys _ _ Hnone Hin).
  - intros k d Hin. apply in_app_or in Hin. destruct Hin as [Hin | [Heq | []]].
    + exact (Hip k d Hin).
    + injection Heq as <- <-. exact Hv.
Qed.

(** An in-place update of the entry of [x] that keeps its identity. *)
Lemma sweep_rel_alter (f : Device.t -> Device.t) (b : bool) (x : string) (s : State) :
  (forall d, Device.ip (f d) = Device.ip d) ->
  (forall d, Device.monitored (f d) = Device.monitored d) ->
  (forall d, Device.online (f d) = (Device.online d || b)%bool) ->
  sweep_rel (fun k => (String.eqb k x && b)%bool) s
            (set_devices (dict_alter f x (devices s)) s).
Proof.
  intros Hip Hmon Hon. constructor; try reflexivity.
  - exists []. unfold attendance_rows. cbn [set_devices attendance_file].
    rewrite app_nil_r. split; [reflexivity | constructor].
  - cbn [set_devices devices]. apply wf_registry_alter. exact Hip.
  - intros k d Hget. cbn [set_devices devices].
    destruct (String.eqb k x) eqn:E.
    + apply String.eqb_eq in E. subst k. exists (f d).
      rewrite dict_get_alter_same, Hget. cbn [option_map andb]. auto.
    + apply String.eqb_neq in E. exists d.
      rewrite (dict_get_alter_other f x k (devices s) E). cbn [andb].
      rewrite orb_false_r. auto.
  - intros k d' H1 H2. cbn [set_devices devices] in H1.
    destruct (String.eqb k x) eqn:E.
    + apply String.eqb_eq in E. subst k.
      rewrite dict_get_alter_same, H2 in H1. discriminate.
    + apply String.eqb_neq in E.
      rewrite (dict_get_alter_other f x k (devices s) E) in H1. congruence.
Qed.

Lemma sweep_rel_alter_quiet (f : Device.t -> Device.t) (x : string) (s : State) :
  (forall d, Device.ip (f d) = Device.ip d) ->
  (forall d, Device.monitored (f d) = Device.monitored d) ->
  (forall d, Device.online (f d) = Device.online d) ->
  sweep_rel (fun _ => false) s (set_devices (dict_alter f x (devices s)) s).
Proof.
  intros Hip Hmon Hon.
  apply (sweep_rel_ext (fun k => (String.eqb k x && false)%bool)).
  - intros k. apply andb_false_r.
  - apply sweep_rel_alter; try assumption.
    intros d. rewrite orb_false_r. apply Hon.
Qed.

Lemma sweep_rel_set_new (x : string) (v : Device.t) (s : State) :
  dict_get x (devices s) = None -> Device.ip v = x ->
  Device.monitored v = false ->
  sweep_rel (fun _ => false) s (set_devices (dict_set x v (devices s)) s).
Proof.
  intros Hnone Hv Hmon. constructor; try reflexivity.
  - exists []. unfold attendance_rows. cbn [set_devices attendance_file].
    rewrite app_nil_r. split; [reflexivity | constructor].
  - cbn [set_devices devices]. apply wf_registry_set_new; assumption.
  - intros k d Hget. cbn [set_devices devices]. exists d.
    rewrite dict_get_set_other.
    + rewrite orb_false_r. auto.
    + intros ->. congruence.
  - intros k d' H1 H2. cbn [set_devices devices] in H1.
    destruct (String.eqb k x) eqn:E.
    + apply String.eqb_eq in E. subst k.
      rewrite dict_get_set_same in H1. injection H1 as <-. exact Hmon.
    + apply String.eqb_neq in E.
      rewrite (dict_get_set_other x k v (devices s) E) in H1. congruence.
Qed.

Lemma sweep_rel_set_clock (n : nat) (s : State) :
  sweep_rel (fun _ => false) s (set_clock n s).
Proof.
  constructor; try reflexivity.
  - exists []. unfold attendance_rows. cbn [set_clock attendance_file].
    rewrite app_nil_r. split; [reflexivity | constructor].
  - auto.
  - intros k d H. exists d. rewrite orb_false_r. auto.
  - intros k d' H1 H2. cbn in H1, H2; congruence.
Qed.

Lemma sweep_rel_play_alert_sound (f : Z) (t : float) (s : State) :
  sweep_rel (fun _ => false) s (play_alert_sound f t s).
Proof.
  constructor; try reflexivity.
  - exists []. unfold attendance_rows. cbn [play_alert_sound set_sounds attendance_file].
    rewrite app_nil_r. split; [reflexivity | constructor].
  - auto.
  - intros k d H. exists d. rewrite orb_false_r. auto.
  - intros k d' H1 H2. cbn in H1, H2; congruence.
Qed.

Lemma sweep_rel_add_distance_alert (env : Env) (device : Device.t)
    (msg : option string) (s : State) :
  sweep_rel (fun _ => false) s (add_alert env device distance msg s).
Proof.
  constructor; try reflexivity.
  - eexists. split; [apply add_alert_attendance_rows |].
    apply Forall_app. split.
    + destruct (attendance_file s); repeat constructor.
    + repeat constructor.
  - auto.
  - intros k d H. exists d. rewrite orb_false_r. auto.
  - intros k d' H1 H2. cbn in H1, H2; congruence.
Qed.

(** Running monadic code *)

Lemma bind_Ok {A B : Type} (m : M A) (k : A -> M B) (s s' : State) (b : B) :
  bind m k s = (s', Ok b) ->
  exists s1 a, m s = (s1, Ok a) /\ k a s1 = (s', Ok b).
Proof.
  unfold bind. destruct (m s) as [s1 [a | e]]; [| discriminate].
  intros H. exists s1, a. split; [reflexivity | exact H].
Qed.

Lemma update_at_Ok (ip : string) (f : Device.t -> Device.t) (s s' : State) (u : unit) :
  update_at ip f s = (s', Ok u) ->
  s' = set_devices (dict_alter f ip (devices s)) s.
Proof.
  unfold update_at, bind, device_at, modify.
  destruct (dict_get ip (devices s)); [| discriminate].
  intros H. injection H as <- _. reflexivity.
Qed.

Lemma sweeping_ret {A : Type} (a : A) : sweeping (fun _ => false) (ret a).
Proof. intros s s' a' H. injection H as <- _. apply sweep_rel_refl. Qed.

Lemma sweeping_gets {A : Type} (f : State -> A) : sweeping (fun _ => false) (gets f).
Proof. intros s s' a' H. injection H as <- _. apply sweep_rel_refl. Qed.

Lemma sweeping_lift {A : Type} (r : result A) : sweeping (fun _ => false) (lift r).
Proof. intros s s' a' H. injection H as <- _. apply sweep_rel_refl. Qed.

Lemma sweeping_device_at (ip : string) : sweeping (fun _ => false) (device_at ip).
Proof.
  intros s s' a' H. unfold device_at in H.
  destruct (dict_get ip (devices s)); [| discriminate].
  injection H as <- _. apply sweep_rel_refl.
Qed.

Lemma sweeping_read_clock (env : Env) : sweeping (fun _ => false) (read_clock env).
Proof.
  intros s s' a' H. unfold read_clock, now in H. injection H as <- _.
  apply sweep_rel_set_clock.
Qed.

Lemma sweeping_modify (hit : string -> bool) (f : State -> State) :
  (forall s, sweep_rel hit s (f s)) -> sweeping hit (modify f).
Proof. intros Hf s s' a' H. injection H as <- _. apply Hf. Qed.

Lemma sweeping_bind {A B : Type} (m : M A) (k : A -> M B) :
  sweeping (fun _ => false) m ->
  (forall a, sweeping (fun _ => false) (k a)) ->
  sweeping (fun _ => false) (bind m k).
Proof.
  intros Hm Hk s s' b H. apply bind_Ok in H. destruct H as (s1 & a & H1 & H2).
  exact (sweep_rel_then _ _ _ _ (Hm _ _ _ H1) (Hk _ _ _ _ H2)).
Qed.

Lemma sweeping_update_quiet (ip : string) (f : Device.t -> Device.t) :
  (forall d, Device.ip (f d) = Device.ip d) ->
  (forall d, Device.monitored (f d) = Device.monitored d) ->
  (forall d, Device.online (f d) = Device.online d) ->
  sweeping (fun _ => false) (update_at ip f).
Proof.
  intros H1 H2 H3 s s' u H. apply update_at_Ok in H. subst s'.
  apply sweep_rel_alter_quiet; assumption.
Qed.

Lemma sweeping_estimate_distance (env : Env)
    (pd : list (string * option float)) (ip : string) :
  sweeping (fun _ => false) (estimate_distance env pd ip).
Proof.
  unfold estimate_distance.
  apply sweeping_bind; [apply sweeping_gets | intros cal].
  apply sweeping_bind; [apply sweeping_lift | intros new_distance].
  apply sweeping_bind; [apply sweeping_update_quiet; reflexivity | intros _].
  apply sweeping_bind; [apply sweeping_update_quiet; reflexivity | intros _].
  apply sweeping_bind; [apply sweeping_gets | intros mon].
  destruct (opt_default None (dict_get ip pd)) as [prev |];
    [| apply sweeping_ret].
  destruct new_distance as [d |]; [| apply sweeping_ret].
  destruct (mon && truthy prev && truthy d)%bool; [| apply sweeping_ret].
  destruct (10 <? abs (d - prev))%float; [| apply sweeping_ret].
  destruct (negb _); [| apply sweeping_ret].
  apply sweeping_bind; [apply sweeping_device_at | intros device].
  apply sweeping_bind; [apply sweeping_lift | intros message].
  apply sweeping_bind;
    [apply sweeping_modify; intros s; apply sweep_rel_add_distance_alert
    | intros _].
  apply sweeping_bind; [apply sweeping_gets | intros cal'].
  destruct (distanceThreshold cal' <? d)%float; [| apply sweeping_ret].
  apply sweeping_modify. intros s. apply sweep_rel_play_alert_sound.
Qed.

(** What [scan_host] does after marking the host online. *)
Lemma sweeping_scan_host_tail (env : Env) (pd : list (string * option float))
    (x : string) :
  sweeping (fun _ => false)
    (ts <- read_clock env ;;
     update_at x (Device.set_last_seen ts) ;;
     dm <- gets distance_mode ;;
     if dm : bool then estimate_distance env pd x else ret tt).
Proof.
  apply sweeping_bind; [apply sweeping_read_clock | intros ts].
  apply sweeping_bind; [apply sweeping_update_quiet; reflexivity | intros _].
  apply sweeping_bind; [apply sweeping_gets | intros dm].
  destruct dm; [apply sweeping_estimate_distance | apply sweeping_ret].
Qed.

(** One address of the sweep: only its own entry can be turned on, and
    only when it answers. *)
Lemma sweeping_scan_host (env : Env) (pd : list (string * option float))
    (x : string) :
  sweeping (fun k => (String.eqb k x && ping env x)%bool) (scan_host env pd x).
Proof.
  intros s s' u H. unfold scan_host in H.
  destruct (ping env x) eqn:Hping.
  2:{ injection H as <- _.
      apply (sweep_rel_ext (fun _ => false));
        [intros k; rewrite andb_false_r; reflexivity | apply sweep_rel_refl]. }
  apply bind_Ok in H. destruct H as (s1 & known & H1 & H).
  injection H1 as <- <-.
  apply bind_Ok in H. destruct H as (s2 & [] & Hnew & H).
  assert (R12 : sweep_rel (fun _ => false) s s2).
  { destruct (dict_mem x (devices s)) eqn:Hmem.
    - injection Hnew as <-. apply sweep_rel_refl.
    - apply bind_Ok in Hnew. destruct Hnew as (s1' & ts & Hc & Hset).
      unfold read_clock, now in Hc. injection Hc as <- <-.
      injection Hset as <-.
      apply (sweep_rel_then _ _ _ _ (sweep_rel_set_clock (S (clock s)) s)).
      apply (sweep_rel_set_new x (new_device env x (now_at env (clock s)))
               (set_clock (S (clock s)) s)); [| reflexivity | reflexivity].
      cbn [set_clock devices]. unfold dict_mem in Hmem.
      destruct (dict_get x (devices s)); [discriminate | reflexivity]. }
  apply bind_Ok in H. destruct H as (s3 & [] & Hon & H).
  apply update_at_Ok in Hon.
  assert (R23 : sweep_rel (fun k => (String.eqb k x && true)%bool) s2 s3).
  { rewrite Hon. apply sweep_rel_alter; intros d;
      [reflexivity | reflexivity | symmetry; apply orb_true_r]. }
  subst s3.
  pose proof (sweeping_scan_host_tail env pd x _ _ _ H) as R3.
  exact (sweep_rel_then _ _ _ _ (sweep_rel_after _ _ _ _ R12 R23) R3).
Qed.

(** The whole sweep over a list of addresses. *)
Lemma sweeping_for_each (env : Env) (pd : list (string * option float))
    (l : list string) :
  sweeping (fun k => existsb (fun x => (String.eqb k x && ping env x)%bool) l)
           (for_each l (scan_host env pd)).
Proof.
  induction l as [| x l IH]; intros s s' u H.
  - injection H as <- _. apply sweep_rel_refl.
  - cbn [for_each] in H. apply bind_Ok in H. destruct H as (s1 & [] & H1 & H2).
    cbn [existsb].
    exact (sweep_rel_trans _ _ _ _ _ (sweeping_scan_host env pd x _ _ _ H1)
                           (IH _ _ _ H2)).
Qed.

(** ** The presence pass and the cycle *)

(** Counting rows *)

Lemma count_rows_app (ty : AlertType) (ip : string) (a b : list csv_row) :
  count_rows ty ip (a ++ b) = (count_rows ty ip a + count_rows ty ip b)%nat.
Proof. unfold count_rows. rewrite filter_app, length_app. reflexivity. Qed.

Lemma count_rows_header (ty : AlertType) (ip : string) :
  count_rows ty ip [csv_header] = 0%nat.
Proof. destruct ty; reflexivity. Qed.

Lemma count_rows_alert (ty : AlertType) (ip : string) (a : Alert.t) :
  count_rows ty ip [attendance_row a]
  = if (match ty, Alert.type a with
        | arrival, arrival | departure, departure | distance, distance => true
        | _, _ => false
        end && String.eqb (Alert.ip a) ip)%bool
    then 1%nat else 0%nat.
Proof.
  unfold count_rows, is_alert_row. cbn [filter attendance_row nth].
  destruct ty, (Alert.type a); cbn [type_str];
    try (destruct (String.eqb (Alert.ip a) ip); reflexivity).
Qed.

Lemma count_rows_quiet (ty : AlertType) (ip : string) (ws : list csv_row) :
  ty <> distance ->
  Forall (fun r => presence_row r = false) ws ->
  count_rows ty ip ws = 0%nat.
Proof.
  intros Hty H. unfold count_rows.
  induction H as [| r ws Hr _ IH]; [reflexivity |].
  cbn [filter]. unfold is_alert_row at 1. unfold presence_row in Hr.
  apply orb_false_elim in Hr. destruct Hr as [Hd Ha].
  destruct ty; cbn [type_str]; try congruence;
    [rewrite Ha | rewrite Hd]; cbn [andb]; exact IH.
Qed.

Lemma skipn_length_app {A : Type} (l l' : list A) :
  skipn (List.length l) (l ++ l') = l'.
Proof. induction l as [| x l IH]; [reflexivity | exact IH]. Qed.

(** The presence pass *)

Lemma check_presence_spec (env : Env) (po : list (string * bool))
    (e : string * Device.t) (s : State) :
  exists s' ws,
    check_presence env po e s = (s', Ok tt) /\
    devices s' = devices s /\
    attendance_rows s' = (attendance_rows s ++ ws)%list /\
    forall ty ip,
      count_rows ty ip ws
      = if (emits po ty e && String.eqb (Device.ip (snd e)) ip)%bool
        then 1%nat else 0%nat.
Proof.
  destruct e as [k device]. unfold check_presence, emits. cbn [fst snd].
  destruct (Device.monitored device).
  2:{ exists s, []. rewrite app_nil_r. repeat split. }
  destruct (opt_default false (dict_get k po)), (Device.online device);
    cbn [andb negb].
  - exists s, []. rewrite app_nil_r. repeat split.
    intros ty ip. destruct ty; reflexivity.
  - eexists. eexists. split; [reflexivity |]. split; [reflexivity |].
    split; [apply add_alert_attendance_rows |].
    intros ty ip. rewrite count_rows_app, count_rows_alert.
    cbn [make_alert Alert.type Alert.ip].
    replace (count_rows ty ip _) with 0%nat
      by (destruct (attendance_file s); [reflexivity | symmetry; apply count_rows_header]).
    destruct ty; reflexivity.
  - eexists. eexists. split; [reflexivity |]. split; [reflexivity |].
    split; [apply add_alert_attendance_rows |].
    intros ty ip. rewrite count_rows_app, count_rows_alert.
    cbn [make_alert Alert.type Alert.ip].
    replace (count_rows ty ip _) with 0%nat
      by (destruct (attendance_file s); [reflexivity | symmetry; apply count_rows_header]).
    destruct ty; reflexivity.
  - exists s, []. rewrite app_nil_r. repeat split.
    intros ty ip. destruct ty; reflexivity.
Qed.

Lemma presence_pass_spec (env : Env) (po : list (string * bool))
    (devs : registry) :
  forall s,
    exists s' ws,
      for_each devs (check_presence env po) s = (s', Ok tt) /\
      devices s' = devices s /\
      attendance_rows s' = (attendance_rows s ++ ws)%list /\
      forall ty ip,
        count_rows ty ip ws
        = List.length
            (filter (fun e => (emits po ty e
                               && String.eqb (Device.ip (snd e)) ip)%bool) devs).
Proof.
  induction devs as [| e devs IH]; intros s.
  - exists s, []. rewrite app_nil_r. repeat split.
  - destruct (check_presence_spec env po e s) as (s1 & w1 & H1 & D1 & R1 & C1).
    destruct (IH s1) as (s2 & w2 & H2 & D2 & R2 & C2).
    exists s2, (w1 ++ w2)%list. cbn [for_each]. unfold bind at 1. rewrite H1.
    split; [exact H2 |]. split; [congruence |].
    split; [rewrite R2, R1, app_assoc; reflexivity |].
    intros ty ip. rewrite count_rows_app, C1, C2. cbn [filter].
    destruct (emits po ty e && String.eqb (Device.ip (snd e)) ip)%bool;
      reflexivity.
Qed.

(** In a well-formed registry at most the entry stored under [ip] counts. *)
Lemma count_entry (g : string * Device.t -> bool) (ip : string)
    (devs : registry) :
  wf_registry devs ->
  List.length
    (filter (fun e => (g e && String.eqb (Device.ip (snd e)) ip)%bool) devs)
  = match dict_get ip devs with
    | Some d => if g (ip, d) then 1%nat else 0%nat
    | None => 0%nat
    end.
Proof.
  induction devs as [| [k d] rest IH]; intros [Hnd Hip]; [reflexivity |].
  unfold dict_keys in Hnd. cbn [map fst] in Hnd.
  apply NoDup_cons_iff in Hnd. destruct Hnd as [Hnotin Hnd].
  assert (Hwf : wf_registry rest).
  { split; [exact Hnd |]. intros k' d' Hin. apply Hip. right. exact Hin. }
  assert (Hk : Device.ip d = k) by (apply Hip; left; reflexivity).
  specialize (IH Hwf).
  cbn [filter dict_get snd]. rewrite Hk, (String.eqb_sym k ip).
  destruct (String.eqb ip k) eqn:E.
  - apply String.eqb_eq in E.
    assert (Hnone : dict_get ip rest = None).
    { destruct (dict_get ip rest) as [d' |] eqn:G; [| reflexivity].
      exfalso. apply Hnotin. rewrite <- E.
      change ip with (fst (ip, d')). apply in_map.
      apply dict_get_In. exact G. }
    rewrite Hnone in IH. rewrite andb_true_r, <- E.
    destruct (g (ip, d)); cbn [List.length]; rewrite IH; reflexivity.
  - rewrite andb_false_r. exact IH.
Qed.

(** Snapshots *)

Lemma dict_get_map_values {V W : Type} (f : V -> W) (k : string)
    (d : list (string * V)) :
  dict_get k (map (fun e => (fst e, f (snd e))) d)
  = option_map f (dict_get k d).
Proof.
  induction d as [| [k' v] rest IH]; [reflexivity |].
  cbn [map dict_get fst snd]. destruct (String.eqb k k'); [reflexivity | exact IH].
Qed.

Lemma wf_registry_clear_online (devs : registry) :
  wf_registry devs -> wf_registry (clear_online devs).
Proof.
  intros [Hnd Hip]. unfold clear_online. split.
  - unfold dict_keys in *. rewrite map_map. cbn [fst]. exact Hnd.
  - intros k d Hin. apply in_map_iff in Hin.
    destruct Hin as ([k0 d0] & Heq & Hin). cbn [fst snd] in Heq.
    injection Heq as <- <-. exact (Hip k0 d0 Hin).
Qed.

(** The cycle as a whole *)

(** What a completed cycle records for [ip] in the way of arrivals and
    departures: one alert when monitoring is on, the device was in the
    registry with [monitored] set, and its reachability changed; none
    otherwise. *)
Lemma scan_presence_rows (env : Env) (s s' : State) (ip : string)
    (ty : AlertType) :
  scanning s = false ->
  wf_registry (devices s) ->
  scan env s = (s', Ok tt) ->
  ty <> distance ->
  alerts_emitted ty ip s s'
  = if (monitoring s &&
        match dict_get ip (devices s) with
        | Some d =>
            Device.monitored d
            && transition ty (Device.online d) (reachable env ip)
        | None => false
        end)%bool
    then 1%nat else 0%nat.
Proof.
  intros Hidle Hwf Hscan Hty. unfold scan in Hscan. rewrite Hidle in Hscan.
  apply bind_Ok in Hscan. destruct Hscan as (s1 & [] & H1 & Hscan).
  injection H1 as <-.
  apply bind_Ok in Hscan. destruct Hscan as (s1' & devs & H1 & Hscan).
  injection H1 as <- <-. cbn [set_scanning devices] in Hscan.
  apply bind_Ok in Hscan. destruct Hscan as (s2 & [] & H2 & Hscan).
  injection H2 as <-.
  apply bind_Ok in Hscan. destruct Hscan as (s3 & [] & Hsweep & Hscan).
  apply bind_Ok in Hscan. destruct Hscan as (s3' & mon & H3 & Hscan).
  injection H3 as <- <-.
  apply bind_Ok in Hscan. destruct Hscan as (s4 & [] & Hpass & Hscan).
  apply bind_Ok in Hscan. destruct Hscan as (s5 & [] & H5 & Hscan).
  injection H5 as <-. injection Hscan as <-.
  apply sweeping_for_each in Hsweep.
  destruct Hsweep as [_ Hmon _ _ (ws1 & Hrows1 & Hquiet) Hwf3 Hdevs Hnew].
  cbn [set_devices set_scanning monitoring devices] in Hmon, Hwf3, Hdevs, Hnew.
  unfold attendance_rows at 2 in Hrows1.
  cbn [set_devices set_scanning attendance_file] in Hrows1.
  fold (attendance_rows s) in Hrows1.
  specialize (Hwf3 (wf_registry_clear_online _ Hwf)).
  assert (Hcount : exists ws2,
             attendance_rows s4 = (attendance_rows s3 ++ ws2)%list /\
             count_rows ty ip ws2
             = if (monitoring s &&
                   match dict_get ip (devices s) with
                   | Some d =>
                       Device.monitored d
                       && transition ty (Device.online d) (reachable env ip)
                   | None => false
                   end)%bool
               then 1%nat else 0%nat).
  { rewrite <- Hmon. destruct (monitoring s3).
    2:{ injection Hpass as <-. exists []. rewrite app_nil_r.
        split; reflexivity. }
    apply bind_Ok in Hpass. destruct Hpass as (s3' & devs' & H3 & Hpass).
    injection H3 as <- <-.
    destruct (presence_pass_spec env
                (map (fun e => (fst e, Device.online (snd e))) (devices s))
                (devices s3) s3) as (s4' & ws2 & Hrun & _ & Hrows2 & Hc).
    rewrite Hrun in Hpass. injection Hpass as <-.
    exists ws2. split; [exact Hrows2 |].
    rewrite Hc, (count_entry _ ip (devices s3) Hwf3). cbn [andb].
    destruct (dict_get ip (devices s)) as [d |] eqn:Hget.
    - destruct (Hdevs ip (Device.set_online false d)) as (d3 & G3 & M3 & I3 & O3).
      { unfold clear_online. rewrite dict_get_map_values, Hget. reflexivity. }
      rewrite G3. unfold emits. cbn [fst snd].
      rewrite dict_get_map_values, Hget. cbn [option_map opt_default].
      rewrite M3, O3. cbn [Device.set_online Device.monitored Device.online orb].
      unfold reachable, transition. destruct ty; try congruence; reflexivity.
    - destruct (dict_get ip (devices s3)) as [d3 |] eqn:G3; [| reflexivity].
      unfold emits. cbn [fst snd]. rewrite (Hnew ip d3 G3); [reflexivity |].
      unfold clear_online. rewrite dict_get_map_values, Hget. reflexivity. }
  destruct Hcount as (ws2 & Hrows2 & Hc).
  unfold alerts_emitted, rows_written.
  replace (attendance_rows (save_data (set_scanning false s4)))
    with (attendance_rows s ++ (ws1 ++ ws2))%list
    by (rewrite app_assoc, <- Hrows1, <- Hrows2; reflexivity).
  rewrite skipn_length_app, count_rows_app, (count_rows_quiet ty ip ws1 Hty Hquiet).
  exact Hc.
Qed.

(** The registry after a completed cycle: every entry that was there is
    still there, with the same [monitored] flag, and is online exactly when
    the sweep reached it, whether it is monitored or not. *)
Lemma scan_registry_online (env : Env) (s s' : State) (ip : string)
    (d : Device.t) :
  scanning s = false ->
  scan env s = (s', Ok tt) ->
  dict_get ip (devices s) = Some d ->
  exists d',
    dict_get ip (devices s') = Some d' /\
    Device.monitored d' = Device.monitored d /\
    Device.online d' = reachable env ip.
Proof.
  intros Hidle Hscan Hget. unfold scan in Hscan. rewrite Hidle in Hscan.
  apply bind_Ok in Hscan. destruct Hscan as (s1 & [] & H1 & Hscan).
  injection H1 as <-.
  apply bind_Ok in Hscan. destruct Hscan as (s1' & devs & H1 & Hscan).
  injection H1 as <- <-. cbn [set_scanning devices] in Hscan.
  apply bind_Ok in Hscan. destruct Hscan as (s2 & [] & H2 & Hscan).
  injection H2 as <-.
  apply bind_Ok in Hscan. destruct Hscan as (s3 & [] & Hsweep & Hscan).
  apply bind_Ok in Hscan. destruct Hscan as (s3' & mon & H3 & Hscan).
  injection H3 as <- <-.
  apply bind_Ok in Hscan. destruct Hscan as (s4 & [] & Hpass & Hscan).
  apply bind_Ok in Hscan. destruct Hscan as (s5 & [] & H5 & Hscan).
  injection H5 as <-. injection Hscan as <-.
  apply sweeping_for_each in Hsweep.
  destruct Hsweep as [_ _ _ _ _ _ Hdevs _].
  cbn [set_devices set_scanning devices] in Hdevs.
  destruct (Hdevs ip (Device.set_online false d)) as (d3 & G3 & M3 & _ & O3).
  { unfold clear_online. rewrite dict_get_map_values, Hget. reflexivity. }
  assert (Hsame : devices s4 = devices s3).
  { destruct (monitoring s3).
    - apply bind_Ok in Hpass. destruct Hpass as (s3' & devs' & H3 & Hpass).
      injection H3 as <- <-.
      destruct (presence_pass_spec env
                  (map (fun e => (fst e, Device.online (snd e))) (devices s))
                  (devices s3) s3) as (s4' & ws2 & Hrun & Hd & _).
      rewrite Hrun in Hpass. injection Hpass as <-. exact Hd.
    - injection Hpass as <-. reflexivity. }
  exists d3. cbn [save_data set_scanning devices]. rewrite Hsame.
  split; [exact G3 |]. split; [exact M3 |]. exact O3.
Qed.

(** No arrival and no departure is ever recorded for an address whose
    entry, if there is one, is not monitored. *)
Lemma unmonitored_no_presence_alert (env : Env) (s s' : State) (ip : string) :
  scanning s = false ->
  wf_registry (devices s) ->
  scan env s = (s', Ok tt) ->
  (forall d, dict_get ip (devices s) = Some d -> Device.monitored d = false) ->
  alerts_emitted arrival ip s s' = 0%nat /\
  alerts_emitted departure ip s s' = 0%nat.
Proof.
  intros Hidle Hwf Hscan Hun.
  rewrite (scan_presence_rows env s s' ip arrival Hidle Hwf Hscan)
    by discriminate.
  rewrite (scan_presence_rows env s s' ip departure Hidle Hwf Hscan)
    by discriminate.
  destruct (dict_get ip (devices s)) as [d |].
  - rewrite (Hun d eq_refl). cbn [andb]. rewrite andb_false_r.
    split; reflexivity.
  - rewrite andb_false_r. split; reflexivity.
Qed.

Lemma update_at_run (ip : string) (f : Device.t -> Device.t) (s : State)
    (d : Device.t) :
  dict_get ip (devices s) = Some d ->
  update_at ip f s = (set_devices (dict_alter f ip (devices s)) s, Ok tt).
Proof.
  intros H. unfold update_at, bind, device_at, modify. rewrite H. reflexivity.
Qed.

Lemma scan_host_completes (env : Env) (pd : list (string * option float))
    (x : string) (s : State) :
  distance_mode s = false ->
  exists s', scan_host env pd x s = (s', Ok tt) /\ distance_mode s' = false.
Proof.
  intros Hdm. unfold scan_host. destruct (ping env x).
  2:{ exists s. split; [reflexivity | exact Hdm]. }
  unfold bind at 1. unfold gets at 1.
  assert (Hnew : exists s1 d1,
             (if dict_mem x (devices s)
              then ret tt
              else ts <- read_clock env ;;
                   modify (fun s0 =>
                     set_devices (dict_set x (new_device env x ts) (devices s0)) s0))
               s = (s1, Ok tt) /\
             dict_get x (devices s1) = Some d1 /\ distance_mode s1 = false).
  { unfold dict_mem. destruct (dict_get x (devices s)) as [d |] eqn:G.
    - exists s, d. repeat split; assumption.
    - eexists. eexists. split; [reflexivity |].
      cbn [set_devices set_clock devices distance_mode].
      rewrite dict_get_set_same. split; [reflexivity | exact Hdm]. }
  destruct Hnew as (s1 & d1 & Hrun & G1 & Hdm1).
  unfold bind at 1. rewrite Hrun.
  unfold bind at 1. rewrite (update_at_run x _ s1 d1 G1).
  unfold bind at 1. unfold read_clock, now.
  unfold bind at 1.
  erewrite update_at_run.
  2:{ cbn [set_clock set_devices devices]. rewrite dict_get_alter_same, G1.
      reflexivity. }
  unfold bind at 1. unfold gets.
  cbn [set_devices set_clock distance_mode]. rewrite Hdm1.
  eexists. split; [reflexivity |]. cbn [set_devices set_clock distance_mode].
  exact Hdm1.
Qed.

Lemma sweep_completes (env : Env) (pd : list (string * option float))
    (l : list string) :
  forall s,
    distance_mode s = false ->
    exists s', for_each l (scan_host env pd) s = (s', Ok tt).
Proof.
  induction l as [| x l IH]; intros s Hdm.
  - exists s. reflexivity.
  - destruct (scan_host_completes env pd x s Hdm) as (s1 & H1 & Hdm1).
    destruct (IH s1 Hdm1) as (s2 & H2).
    exists s2. cbn [for_each]. unfold bind. rewrite H1. exact H2.
Qed.

(** With distance estimation off every requested cycle runs to its end. *)
Lemma scan_completes_without_distance (env : Env) (s : State) :
  distance_mode s = false -> exists s', scan env s = (s', Ok tt).
Proof.
  intros Hdm. unfold scan. destruct (scanning s); [exists s; reflexivity |].
  unfold bind at 1. unfold modify at 1.
  unfold bind at 1. unfold gets at 1.
  unfold bind at 1. unfold modify at 1.
  destruct (sweep_completes env
              (map (fun e => (fst e, Device.estimated_distance (snd e)))
                   (devices (set_scanning true s)))
              (sweep_ips env)
              (set_devices (clear_online (devices (set_scanning true s)))
                           (set_scanning true s)) Hdm) as (s3 & Hsweep).
  unfold bind at 1. rewrite Hsweep.
  unfold bind at 1. unfold gets at 1.
  unfold bind at 1.
  destruct (monitoring s3).
  - unfold bind at 1. unfold gets at 1.
    destruct (presence_pass_spec env
                (map (fun e => (fst e, Device.online (snd e)))
                     (devices (set_scanning true s)))
                (devices s3) s3) as (s4 & ws & Hrun & _).
    rewrite Hrun. eexists. reflexivity.
  - eexists. reflexivity.
Qed.

Lemma wf_registry_single (ip : string) (d : Device.t) :
  Device.ip d = ip -> wf_registry [(ip, d)].
Proof.
  intros H. split.
  - repeat constructor. intros [].
  - intros k d' [Heq | []]. injection Heq as <- <-. exact H.
Qed.

(** C5, as the specification words it, fails when monitoring is off: the
    monitored laptop was online, does not answer, and the cycle records
    nothing. *)
Lemma presence_alerts_fail_without_monitoring :
  (let s := Example.state true false false false in
   let s' := fst (scan Example.nobody_up s) in
   monitoring s = false /\
   Device.monitored (Example.laptop true) = true /\
   Device.online (Example.laptop true) = true /\
   reachable Example.nobody_up "192.168.1.5" = false /\
   scan Example.nobody_up s = (s', Ok tt) /\
   alerts_emitted departure "192.168.1.5" s s' = 0%nat /\
   attendance_file s' = None) /\
  ~ Spec.presence_alerts.
Proof.
  split.
  - cbn zeta. vm_compute. repeat split; reflexivity.
  - intros H.
    destruct (H Example.nobody_up (Example.state true false false false)
                (fst (scan Example.nobody_up
                        (Example.state true false false false)))
                "192.168.1.5" (Example.laptop true)) as [Hdep _].
    + reflexivity.
    + apply wf_registry_single. reflexivity.
    + reflexivity.
    + reflexivity.
    + vm_compute. reflexivity.
    + destruct Hdep as [Hdep _]; [reflexivity | vm_compute; reflexivity |].
      vm_compute in Hdep. discriminate Hdep.
Qed.

(** C2 does not hold of the code: with monitoring and distance mode on, a
    device with [monitored = false] that answers from 100 m, having been
    1 m away, gets a distance alert: the alert is in the list and its row
    in the attendance file.  (Its reachability is updated, and it gets no
    arrival or departure alert: [scan_registry_online],
    [unmonitored_no_presence_alert].) *)
Theorem unmonitored_device_distance_alert :
  let s := Example.state false true true false in
  let s' := fst (scan Example.laptop_up s) in
  Device.monitored (Example.laptop false) = false /\
  scan Example.laptop_up s = (s', Ok tt) /\
  alerts_emitted distance "192.168.1.5" s s' = 1%nat /\
  map (fun a => (Alert.type a, Alert.ip a, Alert.message a)) (alerts s')
  = [(distance, "192.168.1.5",
      Some "laptop moved from on-site to away (1m → 100m)")] /\
  map (fun e => (Device.monitored (snd e), Device.online (snd e),
                 Device.rssi (snd e), Device.estimated_distance (snd e)))
      (devices s')
  = [(false, true, Some (-80), Some 100%float)].
Proof. cbn zeta. vm_compute. repeat split; reflexivity. Qed.

(** * More of the monitor *)

(** ** Running a computation under a relation *)

Lemma gets_inv {A : Type} (f : State -> A) (s s1 : State) (r : result A) :
  gets f s = (s1, r) -> s1 = s /\ r = Ok (f s).
Proof. intros H. injection H as <- <-. split; reflexivity. Qed.

Lemma lift_inv {A : Type} (x : result A) (s s1 : State) (r : result A) :
  lift x s = (s1, r) -> s1 = s /\ r = x.
Proof. intros H. injection H as <- <-. split; reflexivity. Qed.

Lemma device_at_inv (ip : string) (s s1 : State) (r : result Device.t) :
  device_at ip s = (s1, r) ->
  s1 = s /\
  r = match dict_get ip (devices s) with
      | Some device => Ok device
      | None => Raise KeyError
      end.
Proof.
  unfold device_at. destruct (dict_get ip (devices s)); intros H;
    injection H as <- <-; split; reflexivity.
Qed.

Lemma read_clock_inv (env : Env) (s s1 : State) (r : result string) :
  read_clock env s = (s1, r) ->
  s1 = set_clock (S (clock s)) s /\ r = Ok (now_at env (clock s)).
Proof. intros H. injection H as <- <-. split; reflexivity. Qed.

Lemma update_at_inv (ip : string) (f : Device.t -> Device.t) (s s1 : State)
    (r : result unit) :
  update_at ip f s = (s1, r) ->
  match dict_get ip (devices s) with
  | Some _ => s1 = set_devices (dict_alter f ip (devices s)) s /\ r = Ok tt
  | None => s1 = s /\ r = Raise KeyError
  end.
Proof.
  unfold update_at, bind, device_at, modify.
  destruct (dict_get ip (devices s)); intros H; injection H as <- <-;
    split; reflexivity.
Qed.

Section Running.
Variable R : State -> State -> Prop.
Hypothesis R_refl : forall s, R s s.
Hypothesis R_trans : forall s1 s2 s3, R s1 s2 -> R s2 s3 -> R s1 s3.

Lemma holds_ret {A : Type} (a : A) (s : State) : holds_from R (ret a) s.
Proof. intros s' r H. injection H as <- _. apply R_refl. Qed.

Lemma holds_gets {A : Type} (f : State -> A) (s : State) :
  holds_from R (gets f) s.
Proof. intros s' r H. apply gets_inv in H. destruct H as [-> _]. apply R_refl. Qed.

Lemma holds_lift {A : Type} (x : result A) (s : State) :
  holds_from R (lift x) s.
Proof. intros s' r H. apply lift_inv in H. destruct H as [-> _]. apply R_refl. Qed.

Lemma holds_device_at (ip : string) (s : State) :
  holds_from R (device_at ip) s.
Proof.
  intros s' r H. apply device_at_inv in H. destruct H as [-> _]. apply R_refl.
Qed.

Lemma holds_modify (f : State -> State) (s : State) :
  R s (f s) -> holds_from R (modify f) s.
Proof. intros Hf s' r H. injection H as <- _. exact Hf. Qed.

Lemma holds_bind {A B : Type} (m : M A) (k : A -> M B) (s : State) :
  holds_from R m s ->
  (forall a s1, m s = (s1, Ok a) -> holds_from R (k a) s1) ->
  holds_from R (bind m k) s.
Proof.
  intros Hm Hk s' r H. unfold bind in H.
  destruct (m s) as [s1 [a | e]] eqn:E.
  - exact (R_trans _ _ _ (Hm _ _ E) (Hk a s1 eq_refl _ _ H)).
  - injection H as <- _. exact (Hm _ _ E).
Qed.

Lemma holds_update_at (ip : string) (f : Device.t -> Device.t) (s : State) :
  R s (set_devices (dict_alter f ip (devices s)) s) ->
  holds_from R (update_at ip f) s.
Proof.
  intros Hf s' r H. apply update_at_inv in H.
  destruct (dict_get ip (devices s)); destruct H as [-> _];
    [exact Hf | apply R_refl].
Qed.

(** The steps of the sweep, for a relation that keeps the two mode flags:
    a clock reading, the creation of an entry, the marking of an entry,
    and, in distance mode only, the storing of an estimate and, when
    monitoring is on as well, a distance alert and its sound. *)
Variable env : Env.
Hypothesis R_flags : forall s s',
    R s s' ->
    monitoring s' = monitoring s /\ distance_mode s' = distance_mode s.
Hypothesis R_clock : forall s n, R s (set_clock n s).
Hypothesis R_new : forall x ts s,
    dict_get x (devices s) = None ->
    R s (set_devices (dict_set x (new_device env x ts) (devices s)) s).
Hypothesis R_mark : forall x f s,
    (forall d, same_identity d (f d)) ->
    (forall d, Device.rssi (f d) = Device.rssi d /\
               Device.estimated_distance (f d) = Device.estimated_distance d) ->
    R s (set_devices (dict_alter f x (devices s)) s).
Hypothesis R_estimate : forall x f s,
    distance_mode s = true ->
    (forall d, same_identity d (f d)) ->
    R s (set_devices (dict_alter f x (devices s)) s).
Hypothesis R_alert : forall x device msg s,
    monitoring s = true -> distance_mode s = true ->
    dict_get x (devices s) = Some device ->
    R s (add_alert env device distance msg s).
Hypothesis R_sound : forall f t s,
    monitoring s = true -> distance_mode s = true ->
    R s (play_alert_sound f t s).

Lemma holds_read_clock (s : State) : holds_from R (read_clock env) s.
Proof.
  intros s' r H. apply read_clock_inv in H. destruct H as [-> _].
  apply R_clock.
Qed.

Lemma same_identity_refl (d : Device.t) : same_identity d d.
Proof. repeat split. Qed.

Lemma holds_estimate_distance (pd : list (string * option float))
    (x : string) (s : State) :
  distance_mode s = true ->
  holds_from R (estimate_distance env pd x) s.
Proof.
  intros Hdm. unfold estimate_distance.
  apply holds_bind; [apply holds_gets | intros cal s1 H1].
  apply gets_inv in H1. destruct H1 as [-> _].
  apply holds_bind; [apply holds_lift | intros new_distance s1 H1].
  apply lift_inv in H1. destruct H1 as [-> _].
  assert (Hr : holds_from R
                 (update_at x (Device.set_rssi (ping_with_stats env x))) s).
  { apply holds_update_at. apply R_estimate; [exact Hdm |].
    intros d. repeat split. }
  apply holds_bind; [exact Hr | intros [] s1 H1].
  destruct (R_flags _ _ (Hr _ _ H1)) as [Hm1 Hd1]. rewrite Hdm in Hd1.
  assert (He : holds_from R
                 (update_at x (Device.set_estimated_distance new_distance)) s1).
  { apply holds_update_at. apply R_estimate; [exact Hd1 |].
    intros d. repeat split. }
  apply holds_bind; [exact He | intros [] s2 H2].
  destruct (R_flags _ _ (He _ _ H2)) as [Hm2 Hd2]. rewrite Hd1 in Hd2.
  apply holds_bind; [apply holds_gets | intros mon s3 H3].
  apply gets_inv in H3. destruct H3 as [-> H3]. injection H3 as ->.
  destruct (opt_default None (dict_get x pd)) as [prev |];
    [| apply holds_ret].
  destruct new_distance as [d |]; [| apply holds_ret].
  destruct (monitoring s2 && truthy prev && truthy d)%bool eqn:Hgate;
    [| apply holds_ret].
  apply andb_prop in Hgate. destruct Hgate as [Hgate _].
  apply andb_prop in Hgate. destruct Hgate as [Hmon _].
  destruct (10 <? abs (d - prev))%float; [| apply holds_ret].
  destruct (negb _); [| apply holds_ret].
  apply holds_bind; [apply holds_device_at | intros device s3 H3].
  apply device_at_inv in H3. destruct H3 as [-> H3].
  destruct (dict_get x (devices s2)) as [dv |] eqn:Hget; [| discriminate].
  injection H3 as ->.
  apply holds_bind; [apply holds_lift | intros message s3 H3].
  apply lift_inv in H3. destruct H3 as [-> _].
  assert (Ha : holds_from R
                 (modify (add_alert env dv distance (Some message))) s2).
  { apply holds_modify. exact (R_alert x dv _ s2 Hmon Hd2 Hget). }
  apply holds_bind; [exact Ha | intros [] s3 H3].
  destruct (R_flags _ _ (Ha _ _ H3)) as [Hm3 Hd3].
  rewrite Hmon in Hm3. rewrite Hd2 in Hd3.
  apply holds_bind; [apply holds_gets | intros cal' s4 H4].
  apply gets_inv in H4. destruct H4 as [-> _].
  destruct (distanceThreshold cal' <? d)%float; [| apply holds_ret].
  apply holds_modify. apply R_sound; assumption.
Qed.

Lemma holds_scan_host (pd : list (string * option float)) (x : string)
    (s : State) :
  holds_from R (scan_host env pd x) s.
Proof.
  unfold scan_host. destruct (ping env x); [| apply holds_ret].
  apply holds_bind; [apply holds_gets | intros known s1 H1].
  apply gets_inv in H1. destruct H1 as [-> H1]. injection H1 as ->.
  apply holds_bind.
  { unfold dict_mem. destruct (dict_get x (devices s)) eqn:Hget;
      [apply holds_ret |].
    apply holds_bind; [apply holds_read_clock | intros ts s1 H1].
    apply read_clock_inv in H1. destruct H1 as [-> _].
    apply holds_modify. apply R_new. exact Hget. }
  intros [] s1 _.
  apply holds_bind.
  { apply holds_update_at. apply R_mark; intros d; repeat split. }
  intros [] s2 _.
  apply holds_bind; [apply holds_read_clock | intros ts s3 _].
  apply holds_bind.
  { apply holds_update_at. apply R_mark; intros d; repeat split. }
  intros [] s4 _.
  apply holds_bind; [apply holds_gets | intros dm s5 H5].
  apply gets_inv in H5. destruct H5 as [-> H5]. injection H5 as ->.
  destruct (distance_mode s4) eqn:Hdm; [| apply holds_ret].
  apply holds_estimate_distance. exact Hdm.
Qed.

Lemma holds_sweep (pd : list (string * option float)) (l : list string) :
  forall s, holds_from R (for_each l (scan_host env pd)) s.
Proof.
  induction l as [| x l IH]; intros s; cbn [for_each].
  - apply holds_ret.
  - apply holds_bind; [apply holds_scan_host | intros [] s1 _; apply IH].
Qed.

End Running.

(** ** What every part of a cycle keeps *)

Lemma same_identity_trans (d1 d2 d3 : Device.t) :
  same_identity d1 d2 -> same_identity d2 d3 -> same_identity d1 d3.
Proof.
  unfold same_identity. intros H1 H2.
  destruct H1 as (A1 & A2 & A3 & A4 & A5 & A6 & A7 & A8).
  destruct H2 as (B1 & B2 & B3 & B4 & B5 & B6 & B7 & B8).
  repeat split; congruence.
Qed.

Lemma fresh_same_identity (env : Env) (k : string) (d d' : Device.t) :
  fresh env k d -> same_identity d d' -> fresh env k d'.
Proof.
  unfold fresh, same_identity. intros H1 H2.
  destruct H1 as (A1 & A2 & A3 & A4 & A5 & A6 & A7).
  destruct H2 as (B1 & B2 & B3 & B4 & B5 & B6 & B7 & B8).
  repeat split; congruence.
Qed.

Lemma cycle_rel_same_devices (env : Env) (s s' : State) :
  scanning s' = scanning s -> monitoring s' = monitoring s ->
  distance_mode s' = distance_mode s -> calibration s' = calibration s ->
  devices s' = devices s ->
  cycle_rel env s s'.
Proof.
  intros H1 H2 H3 H4 H5. constructor; try assumption; rewrite H5.
  - exists []. rewrite app_nil_r. reflexivity.
  - intros k d H. exists d. split; [exact H | apply same_identity_refl].
  - intros k d' Ha Hb. congruence.
  - intros _ k d d' Ha Hb. rewrite Ha in Hb. injection Hb as <-.
    split; reflexivity.
  - auto.
Qed.

Lemma cycle_rel_refl (env : Env) (s : State) : cycle_rel env s s.
Proof. apply cycle_rel_same_devices; reflexivity. Qed.

Lemma cycle_rel_trans (env : Env) (s1 s2 s3 : State) :
  cycle_rel env s1 s2 -> cycle_rel env s2 s3 -> cycle_rel env s1 s3.
Proof.
  intros [A1 A2 A3 A4 (n1 & A5) A6 A7 A8 A9] [B1 B2 B3 B4 (n2 & B5) B6 B7 B8 B9].
  constructor; try congruence.
  - exists (n1 ++ n2)%list. rewrite B5, A5, app_assoc. reflexivity.
  - intros k d H. destruct (A6 k d H) as (d2 & G2 & I2).
    destruct (B6 k d2 G2) as (d3 & G3 & I3).
    exists d3. split; [exact G3 | exact (same_identity_trans _ _ _ I2 I3)].
  - intros k d3 H3 H1. destruct (dict_get k (devices s2)) as [d2 |] eqn:H2.
    + destruct (B6 k d2 H2) as (d3' & G3 & I3).
      rewrite G3 in H3. injection H3 as <-.
      exact (fresh_same_identity env k d2 d3' (A7 k d2 H2 H1) I3).
    + exact (B7 k d3 H3 H2).
  - intros Hdm k d d3 H1 H3. destruct (A6 k d H1) as (d2 & G2 & _).
    destruct (A8 Hdm k d d2 H1 G2) as [R2 E2].
    rewrite <- A3 in Hdm.
    destruct (B8 Hdm k d2 d3 G2 H3) as [R3 E3].
    split; congruence.
  - auto.
Qed.

Lemma cycle_rel_flags (env : Env) (s s' : State) :
  cycle_rel env s s' ->
  monitoring s' = monitoring s /\ distance_mode s' = distance_mode s.
Proof. intros [_ H2 H3 _ _ _ _ _ _]. split; assumption. Qed.

Lemma cycle_rel_alter (env : Env) (f : Device.t -> Device.t) (x : string)
    (s : State) :
  (forall d, same_identity d (f d)) ->
  (distance_mode s = false ->
   forall d, Device.rssi (f d) = Device.rssi d /\
             Device.estimated_distance (f d) = Device.estimated_distance d) ->
  cycle_rel env s (set_devices (dict_alter f x (devices s)) s).
Proof.
  intros Hid Hest. constructor; try reflexivity; cbn [set_devices devices].
  - exists []. rewrite app_nil_r. apply dict_keys_alter.
  - intros k d H. destruct (String.eqb k x) eqn:E.
    + apply String.eqb_eq in E. subst k. exists (f d).
      rewrite dict_get_alter_same, H. split; [reflexivity | apply Hid].
    + apply String.eqb_neq in E. exists d.
      rewrite (dict_get_alter_other f x k (devices s) E).
      split; [exact H | apply same_identity_refl].
  - intros k d' H1 H2. exfalso. destruct (String.eqb k x) eqn:E.
    + apply String.eqb_eq in E. subst k.
      rewrite dict_get_alter_same, H2 in H1. discriminate.
    + apply String.eqb_neq in E.
      rewrite (dict_get_alter_other f x k (devices s) E) in H1. congruence.
  - intros Hdm k d d' H1 H2. destruct (String.eqb k x) eqn:E.
    + apply String.eqb_eq in E. subst k.
      rewrite dict_get_alter_same, H1 in H2. injection H2 as <-.
      exact (Hest Hdm d).
    + apply String.eqb_neq in E.
      rewrite (dict_get_alter_other f x k (devices s) E) in H2.
      rewrite H1 in H2. injection H2 as <-. split; reflexivity.
  - apply wf_registry_alter. intros d. apply (Hid d).
Qed.

Lemma cycle_rel_new (env : Env) (x ts : string) (s : State) :
  dict_get x (devices s) = None ->
  cycle_rel env s
    (set_devices (dict_set x (new_device env x ts) (devices s)) s).
Proof.
  intros Hnone. constructor; try reflexivity; cbn [set_devices devices].
  - exists [x]. rewrite (dict_set_new x _ (devices s) Hnone).
    unfold dict_keys. rewrite map_app. reflexivity.
  - intros k d H. exists d. rewrite dict_get_set_other.
    + split; [exact H | apply same_identity_refl].
    + intros ->. congruence.
  - intros k d' H1 H2. destruct (String.eqb k x) eqn:E.
    + apply String.eqb_eq in E. subst k. rewrite dict_get_set_same in H1.
      injection H1 as <-. repeat split.
    + apply String.eqb_neq in E.
      rewrite (dict_get_set_other x k _ (devices s) E) in H1. congruence.
  - intros _ k d d' H1 H2. rewrite dict_get_set_other in H2.
    + rewrite H1 in H2. injection H2 as <-. split; reflexivity.
    + intros ->. congruence.
  - apply wf_registry_set_new; [exact Hnone | reflexivity].
Qed.

(** The sweep under [cycle_rel], however it ends. *)
Lemma sweep_cycle_rel (env : Env) (pd : list (string * option float))
    (l : list string) (s : State) :
  holds_from (cycle_rel env) (for_each l (scan_host env pd)) s.
Proof.
  apply (holds_sweep (cycle_rel env) (cycle_rel_refl env)
           (cycle_rel_trans env) env (cycle_rel_flags env)).
  - intros s0 n. apply cycle_rel_same_devices; reflexivity.
  - intros x ts s0 H. apply cycle_rel_new. exact H.
  - intros x f s0 Hid Hest. apply cycle_rel_alter; [exact Hid |].
    intros _. exact Hest.
  - intros x f s0 Hdm Hid. apply cycle_rel_alter; [exact Hid |].
    intros Hoff. congruence.
  - intros x device msg s0 _ _ _. apply cycle_rel_same_devices; reflexivity.
  - intros f t s0 _ _. apply cycle_rel_same_devices; reflexivity.
Qed.

Lemma same_ledger_refl (s : State) : same_ledger s s.
Proof. repeat split. Qed.

Lemma sweep_quiet_untouched (s s' : State) :
  monitoring s' = monitoring s -> distance_mode s' = distance_mode s ->
  same_ledger s s' -> sweep_quiet s s'.
Proof. intros H1 H2 H3. constructor; auto. Qed.

Lemma sweep_quiet_trans (s1 s2 s3 : State) :
  sweep_quiet s1 s2 -> sweep_quiet s2 s3 -> sweep_quiet s1 s3.
Proof.
  intros [A1 A2 A3] [B1 B2 B3]. constructor; try congruence.
  intros H. destruct (A3 H) as (a1 & a2 & a3 & a4 & a5).
  rewrite <- A1, <- A2 in H.
  destruct (B3 H) as (b1 & b2 & b3 & b4 & b5).
  repeat split; congruence.
Qed.

Lemma sweep_quiet_loud (s s' : State) :
  monitoring s = true -> distance_mode s = true ->
  monitoring s' = monitoring s -> distance_mode s' = distance_mode s ->
  sweep_quiet s s'.
Proof.
  intros H1 H2 H3 H4. constructor; try assumption.
  intros [H | H]; congruence.
Qed.

(** The sweep under [sweep_quiet], however it ends. *)
Lemma sweep_sweep_quiet (env : Env) (pd : list (string * option float))
    (l : list string) (s : State) :
  holds_from sweep_quiet (for_each l (scan_host env pd)) s.
Proof.
  apply (holds_sweep sweep_quiet
           (fun s0 => sweep_quiet_untouched s0 s0 eq_refl eq_refl
                        (same_ledger_refl s0))
           sweep_quiet_trans env).
  - intros s0 s1 [H1 H2 _]. split; assumption.
  - intros s0 n. apply sweep_quiet_untouched; repeat split.
  - intros x ts s0 _. apply sweep_quiet_untouched; repeat split.
  - intros x f s0 _ _. apply sweep_quiet_untouched; repeat split.
  - intros x f s0 _ _. apply sweep_quiet_untouched; repeat split.
  - intros x device msg s0 Hm Hd _. apply sweep_quiet_loud; auto.
  - intros f t s0 Hm Hd. apply sweep_quiet_loud; auto.
Qed.

(** ** The phases of a cycle *)

(** The presence pass ends normally and keeps the flags, the calibration
    and the registry. *)
Lemma check_presence_keeps (env : Env) (po : list (string * bool))
    (e : string * Device.t) (s s' : State) (r : result unit) :
  check_presence env po e s = (s', r) ->
  r = Ok tt /\
  scanning s' = scanning s /\ monitoring s' = monitoring s /\
  distance_mode s' = distance_mode s /\ calibration s' = calibration s /\
  devices s' = devices s.
Proof.
  destruct e as [k device]. unfold check_presence.
  destruct (Device.monitored device);
    [| intros H; injection H as <- <-; repeat split].
  destruct (opt_default false (dict_get k po) && negb (Device.online device))%bool;
    [intros H; injection H as <- <-; repeat split |].
  destruct (negb (opt_default false (dict_get k po)) && Device.online device)%bool;
    intros H; injection H as <- <-; repeat split.
Qed.

Lemma presence_pass_keeps (env : Env) (po : list (string * bool))
    (devs : registry) :
  forall s s' r,
    for_each devs (check_presence env po) s = (s', r) ->
    r = Ok tt /\
    scanning s' = scanning s /\ monitoring s' = monitoring s /\
    distance_mode s' = distance_mode s /\ calibration s' = calibration s /\
    devices s' = devices s.
Proof.
  induction devs as [| e devs IH]; intros s s' r H.
  - injection H as <- <-. repeat split.
  - cbn [for_each] in H. unfold bind in H.
    destruct (check_presence env po e s) as [s1 r1] eqn:E.
    apply check_presence_keeps in E.
    destruct E as (-> & E1 & E2 & E3 & E4 & E5).
    apply IH in H. destruct H as (-> & H1 & H2 & H3 & H4 & H5).
    repeat split; congruence.
Qed.

(** A cycle that starts: the sweep from the cleared registry, then, if the
    sweep ended normally, the presence pass and the save. *)
Lemma scan_phases (env : Env) (s s' : State) (r : result unit) :
  scanning s = false ->
  scan env s = (s', r) ->
  exists s3 r3,
    for_each (sweep_ips env)
      (scan_host env
         (map (fun e => (fst e, Device.estimated_distance (snd e))) (devices s)))
      (set_devices (clear_online (devices s)) (set_scanning true s))
    = (s3, r3) /\
    match r3 with
    | Raise e => s' = s3 /\ r = Raise e
    | Ok _ =>
        exists s4,
          (if monitoring s3
           then for_each (devices s3)
                  (check_presence env
                     (map (fun e => (fst e, Device.online (snd e))) (devices s)))
                  s3
           else (s3, Ok tt)) = (s4, Ok tt) /\
          s' = save_data (set_scanning false s4) /\ r = Ok tt
    end.
Proof.
  intros Hidle Hscan. unfold scan in Hscan. rewrite Hidle in Hscan.
  unfold bind at 1 in Hscan. unfold modify at 1 in Hscan.
  unfold bind at 1 in Hscan. unfold gets at 1 in Hscan.
  unfold bind at 1 in Hscan. unfold modify at 1 in Hscan.
  unfold bind at 1 in Hscan.
  cbn [set_scanning set_devices devices] in Hscan.
  match type of Hscan with
  | context [for_each ?l ?b ?st] => destruct (for_each l b st) as [s3 r3] eqn:E
  end.
  exists s3, r3. split; [reflexivity |].
  destruct r3 as [[] | e].
  - unfold bind at 1 in Hscan. unfold gets at 1 in Hscan.
    unfold bind at 1 in Hscan.
    destruct (monitoring s3).
    + unfold bind at 1 in Hscan. unfold gets at 1 in Hscan.
      match type of Hscan with
      | context [for_each ?l ?b ?st] =>
          destruct (for_each l b st) as [s4 r4] eqn:E4
      end.
      destruct (presence_pass_keeps _ _ _ _ _ _ E4) as (-> & _).
      exists s4. split; [reflexivity |].
      injection Hscan as <- <-. split; reflexivity.
    + exists s3. split; [reflexivity |].
      injection Hscan as <- <-. split; reflexivity.
  - injection Hscan as <- <-. split; reflexivity.
Qed.

(** One address of the sweep under [cycle_rel], however its step ends. *)
Lemma holds_scan_host_cycle (env : Env) (pd : list (string * option float))
    (x : string) (s s' : State) (r : result unit) :
  scan_host env pd x s = (s', r) -> cycle_rel env s s'.
Proof.
  intros H.
  pose proof (sweep_cycle_rel env pd [x] s) as K. cbn [for_each] in K.
  apply (K s' r). unfold bind. rewrite H. destruct r as [[] | e]; reflexivity.
Qed.

(** ** Whole cycles *)

Lemma scan_busy (env : Env) (s : State) :
  scanning s = true -> scan env s = (s, Ok tt).
Proof. intros H. unfold scan. rewrite H. reflexivity. Qed.

Lemma dict_get_clear_online (k : string) (devs : registry) :
  dict_get k (clear_online devs)
  = option_map (Device.set_online false) (dict_get k devs).
Proof. unfold clear_online. apply dict_get_map_values. Qed.

Lemma dict_keys_clear_online (devs : registry) :
  dict_keys (clear_online devs) = dict_keys devs.
Proof.
  unfold clear_online, dict_keys. rewrite map_map. reflexivity.
Qed.

(** The start of a cycle under [cycle_rel], apart from the flag. *)
Lemma cycle_rel_clear_online (env : Env) (s : State) :
  cycle_rel env (set_scanning true s)
    (set_devices (clear_online (devices s)) (set_scanning true s)).
Proof.
  constructor; try reflexivity; cbn [set_devices set_scanning devices].
  - exists []. rewrite app_nil_r. apply dict_keys_clear_online.
  - intros k d H. exists (Device.set_online false d).
    rewrite dict_get_clear_online, H. split; [reflexivity | repeat split].
  - intros k d' H1 H2. rewrite dict_get_clear_online, H2 in H1. discriminate.
  - intros _ k d d' H1 H2. rewrite dict_get_clear_online, H1 in H2.
    injection H2 as <-. split; reflexivity.
  - apply wf_registry_clear_online.
Qed.

(** A cycle that starts, from the raised flag to the end of the sweep. *)
Lemma scan_sweep_rel (env : Env) (s s3 : State) (r3 : result unit) :
  for_each (sweep_ips env)
    (scan_host env
       (map (fun e => (fst e, Device.estimated_distance (snd e))) (devices s)))
    (set_devices (clear_online (devices s)) (set_scanning true s))
  = (s3, r3) ->
  cycle_rel env (set_scanning true s) s3.
Proof.
  intros H. apply (cycle_rel_trans env _ _ _ (cycle_rel_clear_online env s)).
  exact (sweep_cycle_rel env _ _ _ _ _ H).
Qed.

(** Whatever a cycle does and however it ends, it leaves the monitoring
    flag, the distance mode and the calibration as they were; it never
    removes or reorders an entry of the registry, and it keeps the
    identity and the user's settings of each of them; the entries it adds
    are unmonitored employees with the identity resolved for their
    address. *)
Lemma scan_cycle_keeps (env : Env) (s : State) :
  let s' := fst (scan env s) in
  monitoring s' = monitoring s /\
  distance_mode s' = distance_mode s /\
  calibration s' = calibration s /\
  (exists added,
     dict_keys (devices s') = (dict_keys (devices s) ++ added)%list) /\
  (forall k d,
     dict_get k (devices s) = Some d ->
     exists d', dict_get k (devices s') = Some d' /\ same_identity d d') /\
  (forall k d',
     dict_get k (devices s') = Some d' ->
     dict_get k (devices s) = None ->
     fresh env k d').
Proof.
  cbn zeta. destruct (scan env s) as [s' r] eqn:Hscan. cbn [fst].
  destruct (scanning s) eqn:Hidle.
  { rewrite (scan_busy env s Hidle) in Hscan. injection Hscan as <- _.
    destruct (cycle_rel_refl env s) as [_ H2 H3 H4 H5 H6 H7 _ _].
    split; [exact H2 |]. split; [exact H3 |]. split; [exact H4 |].
    split; [exact H5 |]. split; [exact H6 | exact H7]. }
  destruct (scan_phases env s s' r Hidle Hscan) as (s3 & r3 & Hsweep & Hrest).
  destruct (scan_sweep_rel env s s3 r3 Hsweep) as [_ H2 H3 H4 H5 H6 H7 _ _].
  cbn [set_scanning monitoring distance_mode calibration devices] in *.
  assert (Hend : monitoring s' = monitoring s3 /\
                 distance_mode s' = distance_mode s3 /\
                 calibration s' = calibration s3 /\
                 devices s' = devices s3).
  { destruct r3 as [[] | e].
    - destruct Hrest as (s4 & Hpass & -> & _).
      cbn [save_data set_scanning monitoring distance_mode calibration devices].
      destruct (monitoring s3) eqn:Hm3.
      + apply presence_pass_keeps in Hpass.
        destruct Hpass as (_ & _ & P2 & P3 & P4 & P5). rewrite Hm3 in P2.
        repeat split; assumption.
      + injection Hpass as <-. repeat split. exact Hm3.
    - destruct Hrest as [-> _]. repeat split. }
  destruct Hend as (E2 & E3 & E4 & E5). rewrite E2, E3, E4, E5.
  split; [exact H2 |]. split; [exact H3 |]. split; [exact H4 |].
  split; [exact H5 |]. split; [exact H6 | exact H7].
Qed.

(** X2: a cycle that raises leaves the scanning flag set, so that every
    later request for a cycle returns at once without doing anything; this
    can only happen in distance mode. *)
Theorem scan_failure_blocks_later_scans (env : Env) (s : State) (e : exn) :
  snd (scan env s) = Raise e ->
  scanning s = false /\
  distance_mode s = true /\
  scanning (fst (scan env s)) = true /\
  forall env', scan env' (fst (scan env s)) = (fst (scan env s), Ok tt).
Proof.
  destruct (scan env s) as [s' r] eqn:Hscan. cbn [fst snd]. intros ->.
  destruct (scanning s) eqn:Hidle.
  { rewrite (scan_busy env s Hidle) in Hscan. discriminate. }
  split; [reflexivity |].
  assert (Hdm : distance_mode s = true).
  { destruct (distance_mode s) eqn:Hdm; [reflexivity |].
    destruct (scan_completes_without_distance env s Hdm) as (s1 & H1).
    congruence. }
  split; [exact Hdm |].
  destruct (scan_phases env s s' _ Hidle Hscan) as (s3 & r3 & Hsweep & Hrest).
  assert (Hbusy : scanning s' = true).
  { destruct r3 as [[] | e3].
    - destruct Hrest as (s4 & _ & _ & Hr). discriminate.
    - destruct Hrest as [-> _].
      destruct (scan_sweep_rel env s s3 _ Hsweep) as [H1 _ _ _ _ _ _ _ _].
      exact H1. }
  split; [exact Hbusy |]. intros env'. apply scan_busy. exact Hbusy.
Qed.

(** X3: with monitoring off a cycle records nothing and plays nothing:
    the alert list, the attendance file and the sounds are as before,
    whatever the hosts answer. *)
Theorem scan_silent_without_monitoring (env : Env) (s : State) :
  monitoring s = false ->
  alerts (fst (scan env s)) = alerts s /\
  attendance_file (fst (scan env s)) = attendance_file s /\
  sounds (fst (scan env s)) = sounds s.
Proof.
  intros Hmon. destruct (scan env s) as [s' r] eqn:Hscan. cbn [fst].
  destruct (scanning s) eqn:Hidle.
  { rewrite (scan_busy env s Hidle) in Hscan. injection Hscan as <- _.
    repeat split. }
  destruct (scan_phases env s s' r Hidle Hscan) as (s3 & r3 & Hsweep & Hrest).
  destruct (sweep_sweep_quiet env _ _ _ _ _ Hsweep) as [Q1 _ Q3].
  cbn [set_devices set_scanning monitoring distance_mode] in Q1, Q3.
  destruct (Q3 (or_introl Hmon)) as (L1 & L2 & _ & _ & L5).
  cbn [set_devices set_scanning alerts attendance_file sounds] in L1, L2, L5.
  destruct r3 as [[] | e].
  - destruct Hrest as (s4 & Hpass & -> & _).
    rewrite Q1, Hmon in Hpass. injection Hpass as <-.
    cbn [save_data set_scanning alerts attendance_file sounds].
    repeat split; assumption.
  - destruct Hrest as [-> _]. repeat split; assumption.
Qed.

Lemma filter_none {A : Type} (f : A -> bool) (l : list A) :
  (forall x, f x = false) -> filter f l = [].
Proof.
  intros H. induction l as [| x l IH]; [reflexivity |].
  cbn [filter]. rewrite H. exact IH.
Qed.

(** X4: with distance estimation off every requested cycle runs to its
    end, leaves the stored RSSI and distance of every device as they were,
    and records no distance alert. *)
Theorem scan_without_distance (env : Env) (s : State) :
  distance_mode s = false ->
  snd (scan env s) = Ok tt /\
  (forall k d,
     dict_get k (devices s) = Some d ->
     exists d',
       dict_get k (devices (fst (scan env s))) = Some d' /\
       Device.rssi d' = Device.rssi d /\
       Device.estimated_distance d' = Device.estimated_distance d) /\
  forall ip, alerts_emitted distance ip s (fst (scan env s)) = 0%nat.
Proof.
  intros Hdm.
  destruct (scan_completes_without_distance env s Hdm) as (s' & Hscan).
  rewrite Hscan. cbn [fst snd]. split; [reflexivity |].
  destruct (scanning s) eqn:Hidle.
  { rewrite (scan_busy env s Hidle) in Hscan. injection Hscan as <-.
    split.
    - intros k d H. exists d. repeat split. exact H.
    - intros ip. unfold alerts_emitted, rows_written.
      rewrite skipn_all. reflexivity. }
  destruct (scan_phases env s s' _ Hidle Hscan) as (s3 & r3 & Hsweep & Hrest).
  destruct r3 as [[] | e]; [| destruct Hrest as [_ Hr]; discriminate].
  destruct Hrest as (s4 & Hpass & -> & _).
  destruct (scan_sweep_rel env s s3 _ Hsweep) as [_ _ _ _ _ K6 _ K8 _].
  cbn [set_scanning distance_mode devices] in K6, K8.
  destruct (sweep_sweep_quiet env _ _ _ _ _ Hsweep) as [_ _ Q3].
  cbn [set_devices set_scanning monitoring distance_mode] in Q3.
  destruct (Q3 (or_intror Hdm)) as (_ & L2 & _).
  cbn [set_devices set_scanning attendance_file] in L2.
  split.
  - intros k d H. destruct (K6 k d H) as (d3 & G3 & _).
    destruct (K8 Hdm k d d3 H G3) as [R3 E3].
    exists d3. cbn [save_data set_scanning devices].
    replace (devices s4) with (devices s3); [repeat split; assumption |].
    destruct (monitoring s3).
    + apply presence_pass_keeps in Hpass.
      destruct Hpass as (_ & _ & _ & _ & _ & P5). symmetry. exact P5.
    + injection Hpass as <-. reflexivity.
  - intros ip. unfold alerts_emitted, rows_written.
    assert (Hrows : exists ws,
               attendance_rows s4 = (attendance_rows s ++ ws)%list /\
               count_rows distance ip ws = 0%nat).
    { assert (H3 : attendance_rows s3 = attendance_rows s)
        by (unfold attendance_rows; rewrite L2; reflexivity).
      destruct (monitoring s3).
      - destruct (presence_pass_spec env
                    (map (fun e => (fst e, Device.online (snd e))) (devices s))
                    (devices s3) s3) as (s4' & ws & Hrun & _ & Hr & Hc).
        rewrite Hrun in Hpass. injection Hpass as <-.
        exists ws. rewrite Hr, H3. split; [reflexivity |].
        rewrite Hc, filter_none; [reflexivity |].
        intros x. unfold emits. cbn [transition]. rewrite andb_false_r.
        reflexivity.
      - injection Hpass as <-. exists []. rewrite app_nil_r, H3.
        split; reflexivity. }
    destruct Hrows as (ws & Hr & Hc).
    change (attendance_rows (save_data (set_scanning false s4)))
      with (attendance_rows s4).
    rewrite Hr, skipn_length_app. exact Hc.
Qed.

(** A completed cycle ends with the flag down and with both JSON files
    holding exactly the registry and the alert list in memory. *)
Lemma scan_completed_files (env : Env) (s s' : State) :
  scanning s = false ->
  scan env s = (s', Ok tt) ->
  scanning s' = false /\
  save_file s' = Some (devices s') /\
  alerts_file s' = Some (alerts s').
Proof.
  intros Hidle Hscan.
  destruct (scan_phases env s s' _ Hidle Hscan) as (s3 & r3 & _ & Hrest).
  destruct r3 as [[] | e]; [| destruct Hrest as [_ Hr]; discriminate].
  destruct Hrest as (s4 & _ & -> & _). repeat split.
Qed.

(** The registry stays well formed through a cycle, however it ends. *)
Lemma scan_keeps_wf (env : Env) (s : State) :
  wf_registry (devices s) -> wf_registry (devices (fst (scan env s))).
Proof.
  intros Hwf. destruct (scan env s) as [s' r] eqn:Hscan. cbn [fst].
  destruct (scanning s) eqn:Hidle.
  { rewrite (scan_busy env s Hidle) in Hscan. injection Hscan as <- _.
    exact Hwf. }
  destruct (scan_phases env s s' r Hidle Hscan) as (s3 & r3 & Hsweep & Hrest).
  destruct (scan_sweep_rel env s s3 r3 Hsweep) as [_ _ _ _ _ _ _ _ K9].
  cbn [set_scanning devices] in K9. specialize (K9 Hwf).
  destruct r3 as [[] | e].
  - destruct Hrest as (s4 & Hpass & -> & _).
    cbn [save_data set_scanning devices].
    destruct (monitoring s3).
    + apply presence_pass_keeps in Hpass.
      destruct Hpass as (_ & _ & _ & _ & _ & P5). rewrite P5. exact K9.
    + injection Hpass as <-. exact K9.
  - destruct Hrest as [-> _]. exact K9.
Qed.

(** X1: whatever a cycle does and however it ends, it leaves the monitoring
    flag, the distance mode and the calibration as they were; it never
    removes or reorders an entry of the registry, and it keeps the
    identity and the user's settings of each of them; the entries it adds
    are unmonitored employees with the identity resolved for their
    address. *)
Theorem scan_keeps_settings (env : Env) (s : State) :
  let s' := fst (scan env s) in
  monitoring s' = monitoring s /\
  distance_mode s' = distance_mode s /\
  calibration s' = calibration s /\
  (exists added,
     dict_keys (devices s') = (dict_keys (devices s) ++ added)%list) /\
  (forall k d,
     dict_get k (devices s) = Some d ->
     exists d', dict_get k (devices s') = Some d' /\ same_identity d d') /\
  (forall k d',
     dict_get k (devices s') = Some d' ->
     dict_get k (devices s) = None ->
     fresh env k d').
Proof. exact (scan_cycle_keeps env s). Qed.

(** X5: a completed cycle ends with the scanning flag down and with both
    JSON files holding exactly the registry and the alert list in memory. *)
Theorem scan_completed_saved (env : Env) (s s' : State) :
  scanning s = false ->
  scan env s = (s', Ok tt) ->
  scanning s' = false /\
  save_file s' = Some (devices s') /\
  alerts_file s' = Some (alerts s').
Proof. exact (scan_completed_files env s s'). Qed.

(** ** Discovery *)

(** A host that answers has an online entry when its step ends. *)
Lemma scan_host_marks (env : Env) (pd : list (string * option float))
    (x : string) (s s' : State) :
  ping env x = true ->
  scan_host env pd x s = (s', Ok tt) ->
  exists d, dict_get x (devices s') = Some d /\ Device.online d = true.
Proof.
  intros Hping H. unfold scan_host in H. rewrite Hping in H.
  apply bind_Ok in H. destruct H as (s1 & known & _ & H).
  apply bind_Ok in H. destruct H as (s2 & [] & _ & H).
  apply bind_Ok in H. destruct H as (s3 & [] & Hon & H).
  apply update_at_inv in Hon.
  destruct (dict_get x (devices s2)) as [d2 |] eqn:G2;
    [| destruct Hon as [_ Hr]; discriminate].
  destruct Hon as [-> _].
  destruct (sweeping_scan_host_tail env pd x _ _ _ H) as [_ _ _ _ _ _ Hdevs _].
  destruct (Hdevs x (Device.set_online true d2)) as (d' & G' & _ & _ & O').
  { cbn [set_devices devices]. rewrite dict_get_alter_same, G2. reflexivity. }
  exists d'. split; [exact G' | exact O'].
Qed.

Lemma sweep_marks (env : Env) (pd : list (string * option float))
    (x : string) (l : list string) :
  forall s s',
    In x l -> ping env x = true ->
    for_each l (scan_host env pd) s = (s', Ok tt) ->
    exists d, dict_get x (devices s') = Some d /\ Device.online d = true.
Proof.
  induction l as [| y l IH]; intros s s' Hin Hping H; [destruct Hin |].
  cbn [for_each] in H. apply bind_Ok in H. destruct H as (s1 & [] & H1 & H2).
  destruct (in_dec string_dec x l) as [Hl | Hl].
  - exact (IH s1 s' Hl Hping H2).
  - destruct Hin as [-> | Hin]; [| contradiction].
    destruct (scan_host_marks env pd x s s1 Hping H1) as (d1 & G1 & O1).
    destruct (sweeping_for_each env pd l _ _ _ H2) as [_ _ _ _ _ _ Hdevs _].
    destruct (Hdevs x d1 G1) as (d' & G' & _ & _ & O').
    exists d'. split; [exact G' |]. rewrite O', O1. reflexivity.
Qed.

Lemma reachable_In (env : Env) (ip : string) :
  reachable env ip = true <-> In ip (sweep_ips env) /\ ping env ip = true.
Proof.
  unfold reachable. rewrite existsb_exists. split.
  - intros (x & Hin & Hx). apply andb_prop in Hx. destruct Hx as [E Hp].
    apply String.eqb_eq in E. subst x. split; assumption.
  - intros [Hin Hp]. exists ip. split; [exact Hin |].
    rewrite String.eqb_refl, Hp. reflexivity.
Qed.

(** X6: after a completed cycle every address of the sweep that answered
    has an entry, and the entry is online; when the address was not known
    before, the entry is an unmonitored employee with the MAC, host name
    and vendor resolved for the address and no custom name. *)
Theorem scan_discovers (env : Env) (s s' : State) (ip : string) :
  scanning s = false ->
  scan env s = (s', Ok tt) ->
  reachable env ip = true ->
  exists d',
    dict_get ip (devices s') = Some d' /\
    Device.online d' = true /\
    (dict_get ip (devices s) = None -> fresh env ip d').
Proof.
  intros Hidle Hscan Hreach. apply reachable_In in Hreach.
  destruct Hreach as [Hin Hping].
  destruct (scan_phases env s s' _ Hidle Hscan) as (s3 & r3 & Hsweep & Hrest).
  destruct r3 as [[] | e]; [| destruct Hrest as [_ Hr]; discriminate].
  destruct Hrest as (s4 & Hpass & -> & _).
  destruct (sweep_marks env _ ip _ _ _ Hin Hping Hsweep) as (d3 & G3 & O3).
  assert (Hsame : devices s4 = devices s3).
  { destruct (monitoring s3).
    - apply presence_pass_keeps in Hpass.
      destruct Hpass as (_ & _ & _ & _ & _ & P5). exact P5.
    - injection Hpass as <-. reflexivity. }
  exists d3. cbn [save_data set_scanning devices]. rewrite Hsame.
  split; [exact G3 |]. split; [exact O3 |].
  intros Hnone.
  destruct (scan_sweep_rel env s s3 _ Hsweep) as [_ _ _ _ _ _ K7 _ _].
  cbn [set_scanning devices] in K7. exact (K7 ip d3 G3 Hnone).
Qed.

(** ** Consecutive cycles *)

(** X8: over two consecutive completed cycles with monitoring on, a
    monitored device gets a departure in the second cycle exactly when the
    first reached it and the second did not, an arrival exactly when the
    first did not reach it and the second did, and neither when its
    reachability is the same in both. *)
Theorem presence_between_cycles (env1 env2 : Env) (s s1 s2 : State)
    (ip : string) (d : Device.t) :
  scanning s = false ->
  monitoring s = true ->
  wf_registry (devices s) ->
  dict_get ip (devices s) = Some d ->
  Device.monitored d = true ->
  scan env1 s = (s1, Ok tt) ->
  scan env2 s1 = (s2, Ok tt) ->
  alerts_emitted departure ip s1 s2
  = (if (reachable env1 ip && negb (reachable env2 ip))%bool
     then 1%nat else 0%nat) /\
  alerts_emitted arrival ip s1 s2
  = (if (negb (reachable env1 ip) && reachable env2 ip)%bool
     then 1%nat else 0%nat).
Proof.
  intros Hidle Hmon Hwf Hget Hm H1 H2.
  destruct (scan_registry_online env1 s s1 ip d Hidle H1 Hget)
    as (d1 & G1 & M1 & O1).
  destruct (scan_completed_files env1 s s1 Hidle H1) as (Hidle1 & _).
  pose proof (scan_keeps_wf env1 s Hwf) as Hwf1. rewrite H1 in Hwf1.
  cbn [fst] in Hwf1.
  pose proof (scan_cycle_keeps env1 s) as K. rewrite H1 in K.
  cbn [fst] in K. destruct K as (Hmon1 & _).
  rewrite (scan_presence_rows env2 s1 s2 ip departure Hidle1 Hwf1 H2)
    by discriminate.
  rewrite (scan_presence_rows env2 s1 s2 ip arrival Hidle1 Hwf1 H2)
    by discriminate.
  rewrite Hmon1, Hmon, G1, M1, Hm, O1. cbn [andb transition].
  split; reflexivity.
Qed.

(** ** The monitoring loop *)

(** X9: while the flag is set the loop does not stop by itself: it runs
    one cycle per turn, and only an exception ends it early. *)
Theorem monitor_loop_runs_every_cycle (cycles : list Env) :
  forall s,
    monitoring s = true ->
    monitor_loop cycles s = for_each cycles scan s.
Proof.
  induction cycles as [| env rest IH]; intros s Hmon; [reflexivity |].
  cbn [monitor_loop for_each]. unfold bind at 1. unfold gets at 1.
  rewrite Hmon. unfold bind.
  destruct (scan env s) as [s1 [[] | e]] eqn:Hscan; [| reflexivity].
  apply IH. pose proof (scan_cycle_keeps env s) as K.
  rewrite Hscan in K. cbn [fst] in K. destruct K as (K1 & _).
  rewrite K1. exact Hmon.
Qed.

(** With the flag down the loop ends before its first cycle. *)
Lemma monitor_loop_stopped (cycles : list Env) (s : State) :
  monitoring s = false -> monitor_loop cycles s = (s, Ok tt).
Proof.
  intros Hmon. destruct cycles as [| env rest]; [reflexivity |].
  cbn [monitor_loop]. unfold bind, gets. rewrite Hmon. reflexivity.
Qed.

(** ** Restarting *)

Lemma not_In_dict_get {V : Type} (k : string) (d : list (string * V)) :
  ~ In k (dict_keys d) -> dict_get k d = None.
Proof.
  intros H. destruct (dict_get k d) as [v |] eqn:G; [| reflexivity].
  exfalso. apply H. unfold dict_keys. change k with (fst (k, v)).
  apply in_map. apply dict_get_In. exact G.
Qed.

(** Assigning the entries of a dict without repeated keys, none of them
    present yet, appends them in order. *)
Lemma load_entries_app (saved : registry) :
  forall devs,
    NoDup (dict_keys saved) ->
    (forall k, In k (dict_keys saved) -> ~ In k (dict_keys devs)) ->
    fold_left (fun acc e => dict_set (fst e) (snd e) acc) saved devs
    = (devs ++ saved)%list.
Proof.
  induction saved as [| [k v] rest IH]; intros devs Hnd Hfresh.
  - rewrite app_nil_r. reflexivity.
  - unfold dict_keys in Hnd. cbn [map fst] in Hnd.
    apply NoDup_cons_iff in Hnd. destruct Hnd as [Hk Hnd].
    cbn [fold_left fst snd].
    rewrite (dict_set_new k v devs)
      by (apply not_In_dict_get; apply Hfresh; left; reflexivity).
    rewrite IH.
    + rewrite <- app_assoc. reflexivity.
    + exact Hnd.
    + intros k' Hin Hin'. unfold dict_keys in Hin'. rewrite map_app in Hin'.
      apply in_app_or in Hin'. destruct Hin' as [Hd | [<- | []]].
      * apply (Hfresh k'); [right; exact Hin | exact Hd].
      * exact (Hk Hin).
Qed.

(** X10: a process started on the files a state has saved gets back the
    registry (in the same order) and the alert list; the scanning,
    monitoring and distance flags are down and the calibration is the
    default one, whatever they were: the calibration is never saved. *)
Theorem restart_restores_saved_state (s : State) :
  NoDup (dict_keys (devices s)) ->
  let s' := restart (save_data s) in
  devices s' = devices s /\
  alerts s' = alerts s /\
  attendance_file s' = attendance_file s /\
  calibration s' = default_calibration /\
  (scanning s', monitoring s', distance_mode s') = (false, false, false).
Proof.
  intros Hnd. cbn zeta. unfold restart, init, load_data.
  cbn [save_data save_file alerts_file attendance_file stored holds
       set_alerts set_devices devices alerts calibration scanning monitoring
       distance_mode load_devices load_alerts].
  rewrite (load_entries_app (devices s) [] Hnd) by (intros k _ []).
  repeat split.
Qed.

(** X11: a restart after a completed cycle loses nothing of the registry
    and the ledger. *)
Theorem restart_after_scan (env : Env) (s s' : State) :
  scanning s = false ->
  wf_registry (devices s) ->
  scan env s = (s', Ok tt) ->
  devices (restart s') = devices s' /\
  alerts (restart s') = alerts s' /\
  attendance_file (restart s') = attendance_file s'.
Proof.
  intros Hidle Hwf Hscan.
  destruct (scan_completed_files env s s' Hidle Hscan) as (_ & Hd & Ha).
  pose proof (scan_keeps_wf env s Hwf) as Hwf'. rewrite Hscan in Hwf'.
  cbn [fst] in Hwf'. destruct Hwf' as [Hnd _].
  unfold restart, init, load_data. rewrite Hd, Ha.
  cbn [stored holds set_alerts set_devices devices alerts attendance_file
       load_devices load_alerts].
  rewrite (load_entries_app (devices s') [] Hnd) by (intros k _ []).
  repeat split.
Qed.

(** [load_data] never fails: a missing file leaves the registry and
    the alert list as they are, an unreadable registry file leaves the
    registry as it is, and an unreadable alert file empties the list. *)
Lemma load_data_unusable_files (s : State) :
  load_data Missing Missing s = s /\
  devices (load_data Unreadable Unreadable s) = devices s /\
  alerts (load_data Unreadable Unreadable s) = [] /\
  devices (init Unreadable Unreadable None) = [] /\
  alerts (init Missing Unreadable None) = [].
Proof.
  repeat split. destruct s. reflexivity.
Qed.

(** ** Signal levels and zones *)

Lemma SFleb_SFltb_trans x y z :
  SFleb x y = true -> SFltb y z = true -> SFltb x z = true.
Proof. sf_order. Qed.

Lemma float_leb_ltb_trans (a b c : float) :
  (a <=? b)%float = true -> (b <? c)%float = true -> (a <? c)%float = true.
Proof.
  rewrite (leb_spec a b), (ltb_spec b c), (ltb_spec a c).
  apply SFleb_SFltb_trans.
Qed.

(** X12: the estimated signal is one of six levels between -90 and -40,
    never zero, so that an answering host always gets a distance estimate
    (or the estimate raises); a longer average round trip never gives a
    stronger signal. *)
Theorem ping_with_stats_levels (env : Env) (ip : string) :
  In (ping_with_stats env ip) [-40; -50; -60; -70; -80; -90] /\
  (forall lib cal,
     calculate_distance lib cal (Some (ping_with_stats env ip)) <> Ok None) /\
  (forall env' ip' t t',
     ping_avg_time env ip = Some t ->
     ping_avg_time env' ip' = Some t' ->
     (t <=? t')%float = true ->
     ping_with_stats env' ip' <= ping_with_stats env ip).
Proof.
  assert (Hin : In (ping_with_stats env ip) [-40; -50; -60; -70; -80; -90]).
  { unfold ping_with_stats. destruct (ping_avg_time env ip) as [t |];
      [| cbn; tauto].
    destruct (t <? 2)%float; [cbn; tauto |].
    destruct (t <? 5)%float; [cbn; tauto |].
    destruct (t <? 10)%float; [cbn; tauto |].
    destruct (t <? 20)%float; [cbn; tauto |].
    destruct (t <? 50)%float; cbn; tauto. }
  split; [exact Hin |]. split.
  - intros lib cal. unfold calculate_distance.
    destruct (Z.eqb_spec (ping_with_stats env ip) 0) as [E | _].
    + rewrite E in Hin. cbn in Hin. intuition discriminate.
    + destruct (float_of_int _); [| discriminate].
      destruct (_ =? 0)%float; [discriminate |].
      destruct (math_pow lib 10 _); discriminate.
  - intros env' ip' t t' Ht Ht' Hle. unfold ping_with_stats.
    rewrite Ht, Ht'.
    pose proof (float_leb_ltb_trans t t' 2 Hle) as H2.
    pose proof (float_leb_ltb_trans t t' 5 Hle) as H5.
    pose proof (float_leb_ltb_trans t t' 10 Hle) as H10.
    pose proof (float_leb_ltb_trans t t' 20 Hle) as H20.
    pose proof (float_leb_ltb_trans t t' 50 Hle) as H50.
    destruct (t' <? 2)%float; [rewrite (H2 eq_refl); lia |].
    destruct (t' <? 5)%float;
      [rewrite (H5 eq_refl); destruct (t <? 2)%float; lia |].
    destruct (t' <? 10)%float;
      [rewrite (H10 eq_refl); destruct (t <? 2)%float, (t <? 5)%float; lia |].
    destruct (t' <? 20)%float;
      [rewrite (H20 eq_refl);
       destruct (t <? 2)%float, (t <? 5)%float, (t <? 10)%float; lia |].
    destruct (t' <? 50)%float;
      [rewrite (H50 eq_refl);
       destruct (t <? 2)%float, (t <? 5)%float, (t <? 10)%float,
         (t <? 20)%float; lia |].
    destruct (t <? 2)%float, (t <? 5)%float, (t <? 10)%float,
      (t <? 20)%float, (t <? 50)%float; lia.
Qed.

Lemma ping_with_stats_levels_witness :
  ping_avg_time (Example.env (fun _ => true)) "192.168.1.5" = Some 30%float /\
  (30 <=? 30)%float = true /\
  ping_with_stats (Example.env (fun _ => true)) "192.168.1.9"
  <= ping_with_stats (Example.env (fun _ => true)) "192.168.1.5".
Proof.
  split; [reflexivity |]. split; [reflexivity |].
  refine (proj2 (proj2 (ping_with_stats_levels
                          (Example.env (fun _ => true)) "192.168.1.5"))
            (Example.env (fun _ => true)) "192.168.1.9" 30%float 30%float
            eq_refl eq_refl eq_refl).
Defined.

(** X13: the zone is monotone in the distance: of two nonzero distances the
    larger is never in a nearer zone. *)
Theorem get_zone_monotone (d d' : float) :
  truthy d = true -> truthy d' = true ->
  (d <=? d')%float = true ->
  (zone_rank (get_zone (Some d)) <= zone_rank (get_zone (Some d')))%nat.
Proof.
  intros Ht Ht' Hle. rewrite (get_zone_some d Ht), (get_zone_some d' Ht').
  pose proof (float_leb_ltb_trans d d' 10 Hle) as H10.
  pose proof (float_leb_ltb_trans d d' 30 Hle) as H30.
  pose proof (float_leb_ltb_trans d d' 50 Hle) as H50.
  destruct (d' <? 10)%float; [rewrite (H10 eq_refl); apply le_n |].
  destruct (d' <? 30)%float;
    [rewrite (H30 eq_refl); destruct (d <? 10)%float; cbn; lia |].
  destruct (d' <? 50)%float;
    [rewrite (H50 eq_refl); destruct (d <? 10)%float, (d <? 30)%float;
     cbn; lia |].
  destruct (d <? 10)%float, (d <? 30)%float, (d <? 50)%float; cbn; lia.
Qed.

Lemma get_zone_monotone_witness :
  truthy 8%float = true /\ truthy 45%float = true /\
  (8 <=? 45)%float = true /\
  (zone_rank (get_zone (Some 8%float))
   <= zone_rank (get_zone (Some 45%float)))%nat.
Proof.
  split; [reflexivity |]. split; [reflexivity |]. split; [reflexivity |].
  apply (get_zone_monotone 8%float 45%float); reflexivity.
Defined.

(** ** The export *)

(** X14: the export for a date starts with the header and then has one row
    per alert of the list whose timestamp falls on that date, and no other
    row. *)
Theorem export_attendance_rows (env : Env) (date : string) (s : State) :
  hd_error (export_attendance env date s) = Some export_header /\
  List.length (export_attendance env date s)
  = S (List.length
         (filter (fun a => String.eqb (date_of (Alert.timestamp a)) date)
                 (alerts s))) /\
  forall row,
    In row (tl (export_attendance env date s)) <->
    exists a, In a (alerts s) /\ date_of (Alert.timestamp a) = date /\
              row = export_row env (devices s) a.
Proof.
  unfold export_attendance. cbn [hd_error tl List.length].
  split; [reflexivity |]. split; [rewrite length_map; reflexivity |].
  intros row. rewrite in_map_iff. split.
  - intros (a & <- & Hin). apply filter_In in Hin. destruct Hin as [Hin E].
    apply String.eqb_eq in E. exists a. repeat split; assumption.
  - intros (a & Hin & E & ->). exists a. split; [reflexivity |].
    apply filter_In. split; [exact Hin |]. apply String.eqb_eq. exact E.
Qed.

(** ** The port *)

Lemma first_port_spec (can_bind : Z -> bool) (ports : list Z) :
  match first_port can_bind ports with
  | Some p =>
      can_bind p = true /\
      exists before after,
        ports = (before ++ p :: after)%list /\
        Forall (fun q => can_bind q = false) before
  | None => Forall (fun q => can_bind q = false) ports
  end.
Proof.
  induction ports as [| port rest IH]; cbn [first_port]; [constructor |].
  destruct (can_bind port) eqn:E.
  - split; [exact E |]. exists [], rest. split; [reflexivity | constructor].
  - destruct (first_port can_bind rest) as [p |].
    + destruct IH as (Hp & before & after & -> & Hb). split; [exact Hp |].
      exists (port :: before), after. split; [reflexivity |].
      constructor; assumption.
    + constructor; assumption.
Qed.

(** X15: the port found is the first of 8000, 8080, 3000, 8888 and 5000 that
    can be bound: it can be bound and no port before it in that order can;
    no port is found only when none of the five can be bound. *)
Theorem find_available_port_first_fit (can_bind : Z -> bool) :
  match find_available_port can_bind with
  | Some p =>
      In p PORTS /\ can_bind p = true /\
      exists before after,
        PORTS = (before ++ p :: after)%list /\
        Forall (fun q => can_bind q = false) before
  | None => forall q, In q PORTS -> can_bind q = false
  end.
Proof.
  unfold find_available_port.
  pose proof (first_port_spec can_bind PORTS) as H.
  destruct (first_port can_bind PORTS) as [p |].
  - destruct H as (Hp & before & after & E & Hb).
    split; [rewrite E; apply in_elt |]. split; [exact Hp |].
    exists before, after. split; assumption.
  - apply Forall_forall. exact H.
Qed.

(** ** The vendor *)

Lemma prefix_length (n : nat) (s : string) :
  String.length (prefix n s) = Nat.min n (String.length s).
Proof.
  revert s. induction n as [| n IH]; intros [| c s]; cbn; try reflexivity.
  rewrite IH. reflexivity.
Qed.

Lemma prefix_app (s tail : string) :
  prefix (String.length s) (s ++ tail) = s.
Proof. induction s as [| c s IH]; cbn; [destruct tail |]; congruence. Qed.

(** X16: a vendor is found only for a MAC of at least eight characters whose
    first eight are a key of the table, and it depends on those eight
    characters alone; a missing or empty MAC has no vendor. *)
Theorem get_vendor_by_prefix (m : string) :
  get_vendor None = None /\
  get_vendor (Some "") = None /\
  (forall v, get_vendor (Some m) = Some v ->
             In (prefix 8 m, v) MAC_VENDORS /\
             (8 <= String.length m)%nat) /\
  (forall tail, String.length m = 8%nat ->
                get_vendor (Some (m ++ tail)) = dict_get m MAC_VENDORS).
Proof.
  split; [reflexivity |]. split; [reflexivity |]. split.
  - intros v H. unfold get_vendor in H.
    destruct (String.eqb m ""); [discriminate |].
    apply dict_get_In in H. split; [exact H |].
    assert (Hlen : String.length (prefix 8 m) = 8%nat).
    { remember (prefix 8 m) as p eqn:Hp. clear Hp.
      cbn [MAC_VENDORS In] in H.
      repeat (destruct H as [H | H];
              [injection H as <- _; reflexivity |]).
      destruct H. }
    rewrite prefix_length in Hlen. lia.
  - intros tail Hlen. unfold get_vendor.
    destruct m as [| c m]; [discriminate |]. cbn [append String.eqb].
    change (String c (m ++ tail)) with (String c m ++ tail).
    rewrite <- Hlen, prefix_app. reflexivity.
Qed.

Lemma get_vendor_by_prefix_witness :
  get_vendor (Some "B8:27:EB:12:34:56") = Some "Raspberry Pi" /\
  In (prefix 8 "B8:27:EB:12:34:56", "Raspberry Pi") MAC_VENDORS /\
  (8 <= String.length "B8:27:EB:12:34:56")%nat.
Proof.
  split; [reflexivity |].
  apply (get_vendor_by_prefix "B8:27:EB:12:34:56"). reflexivity.
Defined.

(** ** Splitting at dots *)

Lemma split_dot_nonempty (s : string) : split_dot s <> [].
Proof.
  induction s as [| c s IH]; cbn [split_dot]; [discriminate |].
  destruct (Ascii.eqb c "."); [discriminate |].
  destruct (split_dot s); discriminate.
Qed.

Lemma join_dot_cons (a : string) (l : list string) :
  l <> [] -> join_dot (a :: l) = a ++ "." ++ join_dot l.
Proof. destruct l; [congruence | reflexivity]. Qed.

(** Joining what was split gives the string back. *)
Lemma join_split_dot (s : string) : join_dot (split_dot s) = s.
Proof.
  induction s as [| c s IH]; [reflexivity |]. cbn [split_dot].
  destruct (Ascii.eqb_spec c ".") as [-> | _].
  - rewrite join_dot_cons by apply split_dot_nonempty. rewrite IH. reflexivity.
  - pose proof (split_dot_nonempty s) as Hne.
    destruct (split_dot s) as [| part parts]; [congruence |].
    destruct parts as [| p ps].
    + cbn in IH |- *. rewrite IH. reflexivity.
    + rewrite join_dot_cons in IH |- * by discriminate.
      rewrite <- IH. reflexivity.
Qed.

Lemma split_dot_dotless (s : string) : dotless s = true -> split_dot s = [s].
Proof.
  induction s as [| c s IH]; [reflexivity |]. cbn [dotless split_dot].
  destruct (Ascii.eqb c "."); [discriminate |]. cbn [negb andb].
  intros H. rewrite (IH H). reflexivity.
Qed.

Lemma split_dot_app (a rest : string) :
  dotless a = true -> split_dot (a ++ "." ++ rest) = a :: split_dot rest.
Proof.
  change ("." ++ rest) with (String "." rest).
  induction a as [| c a IH]; [reflexivity |]. cbn [dotless append split_dot].
  destruct (Ascii.eqb c "."); [discriminate |]. cbn [negb andb].
  intros H. rewrite (IH H). reflexivity.
Qed.

Lemma split_dot_parts_dotless (s : string) :
  Forall (fun part => dotless part = true) (split_dot s).
Proof.
  induction s as [| c s IH]; cbn [split_dot]; [repeat constructor |].
  destruct (Ascii.eqb c ".") eqn:E; [constructor; [reflexivity | exact IH] |].
  destruct (split_dot s) as [| part parts]; [repeat constructor; cbn; rewrite E; reflexivity |].
  inversion IH as [| ? ? Hp Hps]. subst. constructor; [| exact Hps].
  cbn [dotless]. rewrite E, Hp. reflexivity.
Qed.

Lemma split_dot_head_prefix (s : string) :
  exists rest, s = hd EmptyString (split_dot s) ++ rest.
Proof.
  induction s as [| c s IH]; [exists ""; reflexivity |]. cbn [split_dot].
  destruct (Ascii.eqb c "."); [exists (String c s); reflexivity |].
  destruct IH as (rest & IH).
  destruct (split_dot s) as [| part parts].
  - exists s. reflexivity.
  - exists rest. cbn [hd append] in IH |- *. rewrite <- IH. reflexivity.
Qed.

Lemma string_app_assoc (a b c : string) : (a ++ b) ++ c = a ++ b ++ c.
Proof. induction a as [| x a IH]; cbn; congruence. Qed.

Lemma split_dot_length (s : string) :
  List.length (split_dot s) = S (count_dots s).
Proof.
  induction s as [| c s IH]; [reflexivity |]. cbn [split_dot count_dots].
  destruct (Ascii.eqb c "."); [cbn [List.length]; rewrite IH; reflexivity |].
  destruct (split_dot s) as [| part parts]; [discriminate IH | exact IH].
Qed.

(** X17: for a dotted address the subnet base is the first three parts; an
    address with fewer than three dots (none, one or two) is its own base;
    when the socket probe fails the network is 192.168.1 with the host
    192.168.1.1.  The sweep of a host whose last part is a number from 1 to
    254 includes the host's own address. *)
Theorem local_network_base (a b c rest : string) :
  dotless a = true -> dotless b = true -> dotless c = true ->
  local_network (Some (a ++ "." ++ b ++ "." ++ c ++ "." ++ rest))
  = (a ++ "." ++ b ++ "." ++ c, a ++ "." ++ b ++ "." ++ c ++ "." ++ rest) /\
  (forall ip, (count_dots ip < 3)%nat -> local_network (Some ip) = (ip, ip)) /\
  local_network (Some a) = (a, a) /\
  local_network (Some (a ++ "." ++ b)) = (a ++ "." ++ b, a ++ "." ++ b) /\
  local_network (Some (a ++ "." ++ b ++ "." ++ c))
  = (a ++ "." ++ b ++ "." ++ c, a ++ "." ++ b ++ "." ++ c) /\
  local_network None = ("192.168.1", "192.168.1.1") /\
  (forall env n,
     get_local_network env
     = local_network
         (Some (a ++ "." ++ b ++ "." ++ c ++ "." ++ str_of_int n)) ->
     1 <= n <= 254 ->
     In (a ++ "." ++ b ++ "." ++ c ++ "." ++ str_of_int n) (sweep_ips env)).
Proof.
  intros Ha Hb Hc.
  assert (Hbase : forall tail,
             local_network (Some (a ++ "." ++ b ++ "." ++ c ++ "." ++ tail))
             = (a ++ "." ++ b ++ "." ++ c,
                a ++ "." ++ b ++ "." ++ c ++ "." ++ tail)).
  { intros tail. unfold local_network.
    rewrite (split_dot_app a _ Ha), (split_dot_app b _ Hb),
      (split_dot_app c _ Hc).
    cbn [firstn]. reflexivity. }
  split; [apply Hbase |]. split.
  { intros ip Hdots. unfold local_network.
    rewrite firstn_all2 by (rewrite split_dot_length; lia).
    rewrite join_split_dot. reflexivity. }
  split.
  { unfold local_network. rewrite (split_dot_dotless a Ha). reflexivity. }
  split.
  { unfold local_network. rewrite (split_dot_app a _ Ha), (split_dot_dotless b Hb).
    reflexivity. }
  split.
  { unfold local_network.
    rewrite (split_dot_app a _ Ha), (split_dot_app b _ Hb),
      (split_dot_dotless c Hc).
    reflexivity. }
  split; [reflexivity |].
  intros env n Henv Hn. unfold sweep_ips. rewrite Henv, Hbase. cbn [fst].
  apply in_map_iff. exists (Z.to_nat n). split.
  - unfold host_ip. rewrite Z2Nat.id by lia.
    rewrite !string_app_assoc. reflexivity.
  - apply in_seq. lia.
Qed.

Lemma local_network_base_witness :
  (dotless "10" = true /\ dotless "0" = true /\ dotless "7" = true) /\
  local_network (Some "10.0.7.23") = ("10.0.7", "10.0.7.23") /\
  local_network (Some "localhost") = ("localhost", "localhost") /\
  local_network (Some "10") = ("10", "10") /\
  local_network (Some "10.0") = ("10.0", "10.0") /\
  local_network (Some "10.0.7") = ("10.0.7", "10.0.7").
Proof.
  split; [repeat split; reflexivity |].
  destruct (local_network_base "10" "0" "7" "23" eq_refl eq_refl eq_refl)
    as (H4 & Hfew & H0 & H1 & H2 & _).
  split; [exact H4 |]. split; [apply (Hfew "localhost"); cbn; lia |].
  split; [exact H0 |]. split; [exact H1 | exact H2].
Defined.

(** X18: the host name kept for a device is the first label of the
    resolved name: it has no dot and the resolved name starts with it; no
    resolved name gives no host name. *)
Theorem hostname_label_first (name : string) :
  hostname_label None = None /\
  (exists label rest,
     hostname_label (Some name) = Some label /\
     dotless label = true /\ name = label ++ rest) /\
  (forall domain,
     dotless name = true ->
     hostname_label (Some (name ++ "." ++ domain)) = Some name /\
     hostname_label (Some name) = Some name).
Proof.
  split; [reflexivity |]. split.
  - exists (hd EmptyString (split_dot name)).
    destruct (split_dot_head_prefix name) as (rest & Hrest).
    exists rest. split; [reflexivity |]. split; [| exact Hrest].
    pose proof (split_dot_parts_dotless name) as H.
    destruct (split_dot name) as [| part parts]; [reflexivity |].
    inversion H. assumption.
  - intros domain Hd. unfold hostname_label.
    rewrite (split_dot_app name domain Hd), (split_dot_dotless name Hd).
    split; reflexivity.
Qed.

Lemma hostname_label_first_witness :
  dotless "printer" = true /\
  hostname_label (Some "printer.office.example") = Some "printer".
Proof.
  split; [reflexivity |].
  exact (proj1 (proj2 (proj2 (hostname_label_first "printer"))
                  "office.example" eq_refl)).
Defined.

(** ** The other handlers *)

(** X19: [scan_with_distance] leaves distance mode on, whether the cycle it
    starts completes, raises or is skipped because one is running. *)
Theorem scan_with_distance_sticks (env : Env) (s : State) :
  distance_mode (fst (scan_with_distance env s)) = true /\
  (scanning s = true ->
   scan_with_distance env s = (set_distance_mode true s, Ok tt)).
Proof.
  unfold scan_with_distance, bind, modify. split.
  - pose proof (scan_cycle_keeps env (set_distance_mode true s)) as K.
    destruct (scan env (set_distance_mode true s)) as [s' [[] | e]];
      cbn [fst] in K |- *; destruct K as (_ & K & _); exact K.
  - intros H. rewrite scan_busy by exact H. reflexivity.
Qed.

(** X20: [update_calibration] replaces the calibration and rewrites the
    two JSON files from the registry and the alert list in memory; the
    registry with its stored estimates, the alert list, the attendance
    file, the three flags, the sounds and the clock stay as they are; a
    key the request lacks is reset to its default rather than kept; and
    the new calibration does not survive a restart. *)
Theorem update_calibration_effect (data : CalibrationRequest) (s : State) :
  let s' := update_calibration data s in
  calibration s'
  = {| referenceRSSI := opt_default (-40) (req_referenceRSSI data);
       pathLossExponent := opt_default 2%float (req_pathLossExponent data);
       distanceThreshold := opt_default 50%float (req_distanceThreshold data) |} /\
  save_file s' = Some (devices s) /\
  alerts_file s' = Some (alerts s) /\
  devices s' = devices s /\
  alerts s' = alerts s /\
  attendance_file s' = attendance_file s /\
  (scanning s', monitoring s', distance_mode s')
  = (scanning s, monitoring s, distance_mode s) /\
  sounds s' = sounds s /\
  clock s' = clock s /\
  (req_referenceRSSI data = None -> referenceRSSI (calibration s') = -40) /\
  (req_pathLossExponent data = None ->
   pathLossExponent (calibration s') = 2%float) /\
  (req_distanceThreshold data = None ->
   distanceThreshold (calibration s') = 50%float) /\
  calibration (restart s') = default_calibration /\
  alerts (restart s') = alerts s.
Proof.
  cbn zeta. unfold update_calibration.
  cbn [save_data set_calibration devices alerts attendance_file scanning
       monitoring distance_mode calibration referenceRSSI pathLossExponent
       distanceThreshold save_file alerts_file sounds clock].
  repeat split; intros ->; reflexivity.
Qed.

(** X21: after an update that gives no name, or an empty one, the device's
    alerts carry an empty name, not its host name: the stored empty
    [custom_name] takes precedence. *)
Theorem update_device_blank_name (data : UpdateRequest) (s : State)
    (ip : string) (d : Device.t) :
  req_ip data = Some ip ->
  dict_get ip (devices s) = Some d ->
  req_name data = None \/ req_name data = Some "" ->
  exists d',
    dict_get ip (devices (fst (update_device data s))) = Some d' /\
    Device.hostname d' = Device.hostname d /\
    forall ts ty msg,
      Alert.device_name (make_alert ts d' ty msg) = Some "" /\
      nth 2 (attendance_row (make_alert ts d' ty msg)) "?" = "".
Proof.
  intros Hip Hget Hname. unfold update_device, dict_mem. rewrite Hip, Hget.
  cbn [fst save_data set_devices devices].
  rewrite dict_get_alter_same, Hget. cbn [option_map].
  eexists. split; [reflexivity |]. split; [reflexivity |].
  intros ts ty msg. destruct Hname as [-> | ->]; split; reflexivity.
Qed.

Lemma update_device_blank_name_witness :
  let data := {| req_ip := Some "192.168.1.5"; req_name := None;
                 req_monitored := Some true; req_device_type := None |} in
  let s := Example.state false true false false in
  req_ip data = Some "192.168.1.5" /\
  dict_get "192.168.1.5" (devices s) = Some (Example.laptop false) /\
  exists d',
    dict_get "192.168.1.5" (devices (fst (update_device data s))) = Some d' /\
    Device.hostname d' = Some "laptop" /\
    Alert.device_name (make_alert "t" d' arrival None) = Some "".
Proof.
  cbn zeta. split; [reflexivity |]. split; [reflexivity |].
  destruct (update_device_blank_name
              {| req_ip := Some "192.168.1.5"; req_name := None;
                 req_monitored := Some true; req_device_type := None |}
              (Example.state false true false false) "192.168.1.5"
              (Example.laptop false) eq_refl eq_refl (or_introl eq_refl))
    as (d' & G & Hh & Ha).
  exists d'. split; [exact G |]. split; [exact Hh |].
  exact (proj1 (Ha "t" arrival None)).
Defined.

(** ** Distance estimates and distance alerts *)

Lemma count_rows_nil (ty : AlertType) (ip : string) :
  count_rows ty ip [] = 0%nat.
Proof. reflexivity. Qed.

(** The distance part of a host's step, when it ends normally. *)
Lemma estimate_distance_effect (env : Env) (pd : list (string * option float))
    (x : string) (s s' : State) (dv : Device.t) :
  dict_get x (devices s) = Some dv ->
  estimate_distance env pd x s = (s', Ok tt) ->
  exists nd,
    host_estimate env (calibration s) x = Ok nd /\
    devices s'
    = dict_alter (Device.set_estimated_distance nd) x
        (dict_alter (Device.set_rssi (ping_with_stats env x)) x (devices s)) /\
    exists ws,
      attendance_rows s' = (attendance_rows s ++ ws)%list /\
      forall ip,
        count_rows distance ip ws
        = if (String.eqb (Device.ip dv) ip
              && distance_alert_due (monitoring s)
                   (opt_default None (dict_get x pd)) nd)%bool
          then 1%nat else 0%nat.
Proof.
  intros Hget H. unfold estimate_distance in H.
  apply bind_Ok in H. destruct H as (s1 & cal & H1 & H).
  apply gets_inv in H1. destruct H1 as [-> H1]. injection H1 as ->.
  apply bind_Ok in H. destruct H as (s1 & nd & H1 & H).
  apply lift_inv in H1. destruct H1 as [-> Hnd].
  apply bind_Ok in H. destruct H as (s1 & [] & H1 & H).
  apply update_at_inv in H1. rewrite Hget in H1. destruct H1 as [-> _].
  apply bind_Ok in H. destruct H as (s2 & [] & H2 & H).
  apply update_at_inv in H2. cbn [set_devices devices] in H2.
  rewrite dict_get_alter_same, Hget in H2. cbn [option_map] in H2.
  destruct H2 as [-> _].
  apply bind_Ok in H. destruct H as (s3 & mon & H3 & H).
  apply gets_inv in H3. destruct H3 as [-> H3]. injection H3 as ->.
  cbn [set_devices monitoring] in H.
  exists nd. split; [symmetry; exact Hnd |].
  set (s2 := set_devices
               (dict_alter (Device.set_estimated_distance nd) x
                  (devices
                     (set_devices
                        (dict_alter (Device.set_rssi (ping_with_stats env x))
                           x (devices s)) s)))
               (set_devices
                  (dict_alter (Device.set_rssi (ping_with_stats env x)) x
                     (devices s)) s)) in *.
  assert (Hquiet : forall b,
             s' = s2 ->
             distance_alert_due (monitoring s)
               (opt_default None (dict_get x pd)) nd = b -> b = false ->
             devices s' = devices s2 /\
             exists ws,
               attendance_rows s' = (attendance_rows s ++ ws)%list /\
               forall ip,
                 count_rows distance ip ws
                 = if (String.eqb (Device.ip dv) ip
                       && distance_alert_due (monitoring s)
                            (opt_default None (dict_get x pd)) nd)%bool
                   then 1%nat else 0%nat).
  { intros b -> Hb ->. split; [reflexivity |]. exists [].
    rewrite app_nil_r. split; [reflexivity |]. intros ip.
    rewrite Hb, andb_false_r. reflexivity. }
  unfold distance_alert_due in *.
  destruct (opt_default None (dict_get x pd)) as [prev |].
  2:{ injection H as <-. exact (Hquiet false eq_refl eq_refl eq_refl). }
  destruct nd as [d |].
  2:{ injection H as <-. exact (Hquiet false eq_refl eq_refl eq_refl). }
  destruct (monitoring s && truthy prev && truthy d)%bool.
  2:{ injection H as <-. exact (Hquiet false eq_refl eq_refl eq_refl). }
  destruct (10 <? abs (d - prev))%float.
  2:{ injection H as <-. exact (Hquiet false eq_refl eq_refl eq_refl). }
  destruct (negb (get_zone (Some prev) =? get_zone (Some d))%string).
  2:{ injection H as <-. exact (Hquiet false eq_refl eq_refl eq_refl). }
  clear Hquiet. cbn [andb].
  apply bind_Ok in H. destruct H as (s3 & device & H3 & H).
  apply device_at_inv in H3. destruct H3 as [-> H3].
  cbn [set_devices devices] in H3.
  rewrite !dict_get_alter_same, Hget in H3. cbn [option_map] in H3.
  injection H3 as ->.
  apply bind_Ok in H. destruct H as (s3 & message & H3 & H).
  apply lift_inv in H3. destruct H3 as [-> _].
  apply bind_Ok in H. destruct H as (s3 & [] & H3 & H).
  injection H3 as <-.
  apply bind_Ok in H. destruct H as (s4 & cal' & H4 & H).
  apply gets_inv in H4. destruct H4 as [-> _].
  assert (Hend : devices s' = devices s2 /\
                 attendance_rows s'
                 = attendance_rows
                     (add_alert env
                        (Device.set_estimated_distance (Some d)
                           (Device.set_rssi (ping_with_stats env x) dv))
                        distance (Some message) s2)).
  { destruct (distanceThreshold cal' <? d)%float; injection H as <-;
      split; reflexivity. }
  destruct Hend as [Hd Hr]. split; [exact Hd |].
  eexists. split.
  - rewrite Hr, add_alert_attendance_rows. reflexivity.
  - intros ip. rewrite count_rows_app, count_rows_alert.
    cbn [make_alert Alert.type Alert.ip Device.set_estimated_distance
         Device.set_rssi Device.ip].
    replace (count_rows distance ip _) with 0%nat
      by (destruct (attendance_file s2);
          [reflexivity | symmetry; apply count_rows_header]).
    rewrite andb_true_r. reflexivity.
Qed.

(** What one address of the sweep does to the registry and to the
    distance rows, when its step ends normally. *)
Lemma scan_host_distance (env : Env) (pd : list (string * option float))
    (x : string) (s s' : State) :
  wf_registry (devices s) ->
  scan_host env pd x s = (s', Ok tt) ->
  (forall k, k <> x -> dict_get k (devices s') = dict_get k (devices s)) /\
  (ping env x = false -> s' = s) /\
  (ping env x = true -> distance_mode s = true ->
   exists nd d',
     host_estimate env (calibration s) x = Ok nd /\
     dict_get x (devices s') = Some d' /\
     Device.rssi d' = Some (ping_with_stats env x) /\
     Device.estimated_distance d' = nd) /\
  exists ws,
    attendance_rows s' = (attendance_rows s ++ ws)%list /\
    forall ip,
      count_rows distance ip ws
      = if (String.eqb ip x && ping env x && distance_mode s
            && match host_estimate env (calibration s) x with
               | Ok nd => distance_alert_due (monitoring s)
                            (opt_default None (dict_get x pd)) nd
               | Raise _ => false
               end)%bool
        then 1%nat else 0%nat.
Proof.
  intros Hwf H. unfold scan_host in H.
  destruct (ping env x) eqn:Hping.
  2:{ injection H as <-. split; [reflexivity |]. split; [reflexivity |].
      split; [discriminate |]. exists []. rewrite app_nil_r.
      split; [reflexivity |]. intros ip. rewrite andb_false_r. reflexivity. }
  apply bind_Ok in H. destruct H as (s1 & known & H1 & H).
  apply gets_inv in H1. destruct H1 as [-> H1]. injection H1 as ->.
  apply bind_Ok in H. destruct H as (s2 & [] & Hnew & H).
  assert (P2 : (forall k, k <> x ->
                  dict_get k (devices s2) = dict_get k (devices s)) /\
               (exists d2, dict_get x (devices s2) = Some d2 /\
                           Device.ip d2 = x) /\
               attendance_rows s2 = attendance_rows s /\
               calibration s2 = calibration s /\
               monitoring s2 = monitoring s /\
               distance_mode s2 = distance_mode s).
  { unfold dict_mem in Hnew.
    destruct (dict_get x (devices s)) as [d0 |] eqn:G0.
    - injection Hnew as <-. split; [reflexivity |]. split.
      + exists d0. split; [exact G0 |]. destruct Hwf as [_ Hip].
        apply Hip. apply dict_get_In. exact G0.
      + repeat split.
    - apply bind_Ok in Hnew. destruct Hnew as (s1 & ts & Hc & Hset).
      apply read_clock_inv in Hc. destruct Hc as [-> _].
      injection Hset as <-. cbn [set_devices set_clock devices calibration
                                 monitoring distance_mode].
      split; [intros k Hk; apply dict_get_set_other; exact Hk |]. split.
      + eexists. split; [apply dict_get_set_same | reflexivity].
      + repeat split. }
  destruct P2 as (Hother2 & (d2 & G2 & Hip2) & Hrows2 & Hcal2 & Hmon2 & Hdm2).
  apply bind_Ok in H. destruct H as (s3 & [] & H3 & H).
  apply update_at_inv in H3. rewrite G2 in H3. destruct H3 as [-> _].
  apply bind_Ok in H. destruct H as (s4 & ts & H4 & H).
  apply read_clock_inv in H4. destruct H4 as [-> _].
  apply bind_Ok in H. destruct H as (s5 & [] & H5 & H).
  apply update_at_inv in H5. cbn [set_clock set_devices devices] in H5.
  rewrite dict_get_alter_same, G2 in H5. cbn [option_map] in H5.
  destruct H5 as [-> _].
  apply bind_Ok in H. destruct H as (s6 & dm & H6 & H).
  apply gets_inv in H6. destruct H6 as [-> H6]. injection H6 as ->.
  cbn [set_devices set_clock devices distance_mode] in H.
  set (marked := dict_alter (Device.set_last_seen ts) x
                   (dict_alter (Device.set_online true) x (devices s2))) in *.
  assert (Gm : dict_get x marked
               = Some (Device.set_last_seen ts (Device.set_online true d2))).
  { subst marked. rewrite !dict_get_alter_same, G2. reflexivity. }
  assert (Om : forall k, k <> x -> dict_get k marked = dict_get k (devices s)).
  { intros k Hk. subst marked. rewrite !dict_get_alter_other by exact Hk.
    apply Hother2. exact Hk. }
  rewrite Hdm2 in H. destruct (distance_mode s) eqn:Hdm.
  - match type of H with
    | estimate_distance _ _ _ ?st = _ =>
        destruct (estimate_distance_effect env pd x st s' _ Gm H)
          as (nd & Hnd & Hdevs & ws & Hrows & Hcount)
    end.
    cbn [set_devices set_clock devices calibration monitoring] in Hnd, Hdevs,
      Hcount.
    unfold attendance_rows at 2 in Hrows.
    cbn [set_devices set_clock attendance_file] in Hrows.
    fold (attendance_rows s2) in Hrows.
    rewrite Hcal2 in Hnd. rewrite Hmon2 in Hcount.
    split.
    { intros k Hk. rewrite Hdevs, !dict_get_alter_other by exact Hk.
      apply Om. exact Hk. }
    split; [discriminate |]. split.
    { intros _ _. exists nd. eexists. split; [exact Hnd |].
      rewrite Hdevs, !dict_get_alter_same, Gm. cbn [option_map].
      split; [reflexivity |]. split; reflexivity. }
    exists ws. rewrite Hrows, Hrows2. split; [reflexivity |].
    intros ip. rewrite Hcount, Hnd.
    cbn [Device.set_last_seen Device.set_online Device.ip]. rewrite Hip2.
    rewrite (String.eqb_sym x ip), !andb_true_r. reflexivity.
  - injection H as <-. cbn [set_devices set_clock devices].
    split; [exact Om |]. split; [discriminate |]. split; [discriminate |].
    exists []. rewrite app_nil_r. unfold attendance_rows at 1.
    cbn [set_devices set_clock attendance_file]. fold (attendance_rows s2).
    split; [exact Hrows2 |]. intros ip.
    rewrite andb_false_r. reflexivity.
Qed.

Lemma existsb_eqb_In (x : string) (l : list string) :
  existsb (String.eqb x) l = true <-> In x l.
Proof.
  rewrite existsb_exists. split.
  - intros (y & Hin & E). apply String.eqb_eq in E. subst y. exact Hin.
  - intros Hin. exists x. split; [exact Hin | apply String.eqb_refl].
Qed.

Lemma distinct_NoDup (l : list string) : distinct l = true -> NoDup l.
Proof.
  induction l as [| x l IH]; cbn [distinct]; [constructor |].
  intros H. apply andb_prop in H. destruct H as [Hx Hl].
  constructor; [| exact (IH Hl)].
  intros Hin. apply existsb_eqb_In in Hin. rewrite Hin in Hx. discriminate.
Qed.

Lemma string_app_inj (a b c : string) : a ++ b = a ++ c -> b = c.
Proof.
  induction a as [| x a IH]; cbn [append]; [auto |].
  intros H. injection H as H. exact (IH H).
Qed.

Lemma NoDup_map_inj {A B : Type} (f : A -> B) (l : list A) :
  (forall a b, f a = f b -> a = b) -> NoDup l -> NoDup (map f l).
Proof.
  intros Hinj. induction 1 as [| x l Hx Hl IH]; cbn [map]; constructor.
  - intros Hin. apply in_map_iff in Hin. destruct Hin as (y & E & Hy).
    apply Hinj in E. subst y. exact (Hx Hy).
  - exact IH.
Qed.

(** The sweep never visits an address twice. *)
Lemma sweep_ips_NoDup (env : Env) : NoDup (sweep_ips env).
Proof.
  unfold sweep_ips.
  change (map (fun i => host_ip (fst (get_local_network env)) (Z.of_nat i))
              (seq 1 254))
    with (map (fun i => fst (get_local_network env)
                        ++ (fun j => "." ++ str_of_int (Z.of_nat j)) i)
              (seq 1 254)).
  rewrite <- (map_map (fun j => "." ++ str_of_int (Z.of_nat j))
                (fun t => fst (get_local_network env) ++ t)).
  apply NoDup_map_inj.
  - intros t t' H. exact (string_app_inj _ _ _ H).
  - apply distinct_NoDup. vm_compute. reflexivity.
Qed.

(** The sweep over addresses without repetition, when it ends normally. *)
Lemma sweep_distance (env : Env) (pd : list (string * option float))
    (l : list string) :
  NoDup l ->
  forall s s',
    wf_registry (devices s) ->
    for_each l (scan_host env pd) s = (s', Ok tt) ->
    (forall k, ~ In k l \/ ping env k = false ->
       dict_get k (devices s') = dict_get k (devices s)) /\
    (forall x, In x l -> ping env x = true -> distance_mode s = true ->
       exists nd d',
         host_estimate env (calibration s) x = Ok nd /\
         dict_get x (devices s') = Some d' /\
         Device.rssi d' = Some (ping_with_stats env x) /\
         Device.estimated_distance d' = nd) /\
    exists ws,
      attendance_rows s' = (attendance_rows s ++ ws)%list /\
      forall ip,
        count_rows distance ip ws
        = if (existsb (String.eqb ip) l && ping env ip && distance_mode s
              && match host_estimate env (calibration s) ip with
                 | Ok nd => distance_alert_due (monitoring s)
                              (opt_default None (dict_get ip pd)) nd
                 | Raise _ => false
                 end)%bool
          then 1%nat else 0%nat.
Proof.
  induction l as [| x l IH]; intros Hnd s s' Hwf H.
  - injection H as <-. split; [reflexivity |]. split; [intros x [] |].
    exists []. rewrite app_nil_r. split; reflexivity.
  - apply NoDup_cons_iff in Hnd. destruct Hnd as [Hx Hnd].
    cbn [for_each] in H.
    destruct (scan_host env pd x s) as [s1 r1] eqn:H1.
    pose proof (holds_scan_host_cycle env pd x s s1 r1 H1) as K.
    unfold bind in H. rewrite H1 in H. destruct r1 as [[] | e];
      [| discriminate].
    destruct K as [_ Kmon Kdm Kcal _ _ _ _ Kwf].
    destruct (scan_host_distance env pd x s s1 Hwf H1)
      as (A1 & A2 & A3 & w1 & Ar & Ac).
    destruct (IH Hnd s1 s' (Kwf Hwf) H) as (B1 & B2 & w2 & Br & Bc).
    rewrite Kmon, Kdm, Kcal in *.
    split.
    { intros k Hk.
      assert (Hk' : ~ In k l \/ ping env k = false)
        by (destruct Hk as [Hk | Hk]; [left; intros Hin; apply Hk; right; exact Hin | right; exact Hk]).
      rewrite (B1 k Hk').
      destruct (String.eqb k x) eqn:E.
      - apply String.eqb_eq in E. subst k.
        destruct Hk as [Hk | Hk]; [exfalso; apply Hk; left; reflexivity |].
        rewrite (A2 Hk). reflexivity.
      - apply String.eqb_neq in E. apply A1. exact E. }
    split.
    { intros y Hy Hping Hdm. destruct (String.eqb y x) eqn:E.
      - apply String.eqb_eq in E. subst y.
        destruct (A3 Hping Hdm) as (nd & d1 & Hnd1 & G1 & R1 & E1).
        exists nd, d1. split; [exact Hnd1 |].
        rewrite (B1 x (or_introl Hx)). repeat split; assumption.
      - apply String.eqb_neq in E.
        destruct Hy as [-> | Hy]; [congruence |].
        exact (B2 y Hy Hping Hdm). }
    exists (w1 ++ w2)%list. split; [rewrite Br, Ar, app_assoc; reflexivity |].
    intros ip. rewrite count_rows_app, Ac, Bc. cbn [existsb].
    destruct (String.eqb ip x) eqn:E.
    + apply String.eqb_eq in E. subst ip.
      assert (Hex : existsb (String.eqb x) l = false).
      { destruct (existsb (String.eqb x) l) eqn:Ex; [| reflexivity].
        apply existsb_eqb_In in Ex. contradiction. }
      rewrite Hex. cbn [orb andb]. rewrite Nat.add_0_r. reflexivity.
    + cbn [orb andb]. reflexivity.
Qed.

Lemma reachable_split (env : Env) (ip : string) :
  reachable env ip
  = (existsb (String.eqb ip) (sweep_ips env) && ping env ip)%bool.
Proof.
  unfold reachable. induction (sweep_ips env) as [| x l IH]; [reflexivity |].
  cbn [existsb]. rewrite IH. destruct (String.eqb ip x) eqn:E.
  - apply String.eqb_eq in E. subst x.
    destruct (ping env ip); cbn [andb orb];
      [reflexivity | rewrite andb_false_r; reflexivity].
  - reflexivity.
Qed.

Lemma emits_distance (po : list (string * bool)) (e : string * Device.t) :
  emits po distance e = false.
Proof. unfold emits, transition. apply andb_false_r. Qed.

(** X7: a completed cycle in distance mode.  Every address that answered the
    sweep carries the signal strength derived from its ping and the distance
    computed from it under the calibration in force; an entry whose address
    did not answer is kept and marked offline, its estimate untouched; and
    the cycle records one distance alert for an address exactly when it
    answered and [distance_alert_due] holds of the estimate it had before
    the cycle and the new one. *)
Theorem scan_distance_estimates (env : Env) (s s' : State) (ip : string) :
  scanning s = false ->
  distance_mode s = true ->
  wf_registry (devices s) ->
  scan env s = (s', Ok tt) ->
  (reachable env ip = true ->
   exists nd d',
     host_estimate env (calibration s) ip = Ok nd /\
     dict_get ip (devices s') = Some d' /\
     Device.rssi d' = Some (ping_with_stats env ip) /\
     Device.estimated_distance d' = nd) /\
  (reachable env ip = false ->
   dict_get ip (devices s')
   = option_map (Device.set_online false) (dict_get ip (devices s))) /\
  alerts_emitted distance ip s s'
  = if (reachable env ip
        && match host_estimate env (calibration s) ip with
           | Ok nd => distance_alert_due (monitoring s)
                        (known_distance (devices s) ip) nd
           | Raise _ => false
           end)%bool
    then 1%nat else 0%nat.
Proof.
  intros Hidle Hdm Hwf Hscan.
  destruct (scan_phases env s s' (Ok tt) Hidle Hscan) as (s3 & r3 & Hsweep & K).
  destruct r3 as [[] | e]; [| destruct K as [_ K]; discriminate].
  destruct K as (s4 & Hpass & -> & _).
  destruct (sweep_distance env _ _ (sweep_ips_NoDup env)
              (set_devices (clear_online (devices s)) (set_scanning true s))
              s3 (wf_registry_clear_online _ Hwf) Hsweep)
    as (A1 & A2 & ws & Ar & Ac).
  cbn [set_devices set_scanning devices calibration monitoring distance_mode]
    in A1, A2, Ac.
  assert (P : devices s4 = devices s3 /\
              exists wp, attendance_rows s4 = (attendance_rows s3 ++ wp)%list /\
                         count_rows distance ip wp = 0%nat).
  { destruct (monitoring s3).
    - destruct (presence_pass_spec env
                  (map (fun e => (fst e, Device.online (snd e))) (devices s))
                  (devices s3) s3) as (s4' & wp & H4 & D4 & R4 & C4).
      rewrite H4 in Hpass. injection Hpass as ->.
      split; [exact D4 |]. exists wp. split; [exact R4 |].
      rewrite C4, filter_none; [reflexivity |]. intros e.
      rewrite emits_distance. reflexivity.
    - injection Hpass as <-. split; [reflexivity |]. exists [].
      rewrite app_nil_r. split; reflexivity. }
  destruct P as (D4 & wp & R4 & C4).
  change (devices (save_data (set_scanning false s4))) with (devices s4).
  rewrite D4. split; [| split].
  - intros Hr. apply reachable_In in Hr. destruct Hr as [Hin Hp].
    exact (A2 ip Hin Hp Hdm).
  - intros Hr. rewrite A1, dict_get_clear_online; [reflexivity |].
    rewrite reachable_split in Hr. apply andb_false_iff in Hr.
    destruct Hr as [Hr | Hr]; [left | right; exact Hr].
    intros Hin. apply existsb_eqb_In in Hin. congruence.
  - unfold alerts_emitted, rows_written.
    change (attendance_rows (save_data (set_scanning false s4)))
      with (attendance_rows s4).
    rewrite R4, Ar.
    change (attendance_rows
              (set_devices (clear_online (devices s)) (set_scanning true s)))
      with (attendance_rows s).
    rewrite <- app_assoc, skipn_length_app, count_rows_app, C4, Nat.add_0_r, Ac.
    rewrite reachable_split, Hdm, andb_true_r.
    unfold known_distance. rewrite dict_get_map_values.
    destruct (dict_get ip (devices s)); reflexivity.
Qed.

(** ** The cycle theorems on the example scenarios *)

Lemma scan_failure_blocks_later_scans_witness :
  let s := set_calibration
             {| referenceRSSI := -40; pathLossExponent := 0%float;
                distanceThreshold := 50%float |}
             (Example.state false false true false) in
  snd (scan Example.laptop_up s) = Raise ZeroDivisionError /\
  scanning s = false /\
  distance_mode s = true /\
  scanning (fst (scan Example.laptop_up s)) = true /\
  forall env',
    scan env' (fst (scan Example.laptop_up s))
    = (fst (scan Example.laptop_up s), Ok tt).
Proof.
  cbn zeta.
  assert (H : snd (scan Example.laptop_up
                     (set_calibration
                        {| referenceRSSI := -40; pathLossExponent := 0%float;
                           distanceThreshold := 50%float |}
                        (Example.state false false true false)))
              = Raise ZeroDivisionError)
    by (vm_compute; reflexivity).
  split; [exact H |].
  exact (scan_failure_blocks_later_scans Example.laptop_up _ _ H).
Defined.

Lemma scan_silent_without_monitoring_witness :
  let s := Example.state true false true false in
  monitoring s = false /\
  alerts (fst (scan Example.nobody_up s)) = alerts s /\
  attendance_file (fst (scan Example.nobody_up s)) = attendance_file s /\
  sounds (fst (scan Example.nobody_up s)) = sounds s.
Proof.
  cbn zeta. split; [reflexivity |].
  apply (scan_silent_without_monitoring Example.nobody_up
           (Example.state true false true false)).
  reflexivity.
Defined.

Lemma scan_without_distance_witness :
  let s := Example.state true true false false in
  distance_mode s = false /\
  snd (scan Example.laptop_up s) = Ok tt /\
  (forall k d,
     dict_get k (devices s) = Some d ->
     exists d',
       dict_get k (devices (fst (scan Example.laptop_up s))) = Some d' /\
       Device.rssi d' = Device.rssi d /\
       Device.estimated_distance d' = Device.estimated_distance d) /\
  forall ip, alerts_emitted distance ip s (fst (scan Example.laptop_up s)) = 0%nat.
Proof.
  cbn zeta. split; [reflexivity |].
  apply (scan_without_distance Example.laptop_up
           (Example.state true true false false)).
  reflexivity.
Defined.

Lemma scan_completed_saved_witness :
  let s := Example.state true true false false in
  let s' := fst (scan Example.laptop_up s) in
  (scanning s = false /\ scan Example.laptop_up s = (s', Ok tt)) /\
  scanning s' = false /\
  save_file s' = Some (devices s') /\
  alerts_file s' = Some (alerts s').
Proof.
  cbn zeta.
  assert (H : scan Example.laptop_up (Example.state true true false false)
              = (fst (scan Example.laptop_up
                        (Example.state true true false false)), Ok tt))
    by (vm_compute; reflexivity).
  split; [split; [reflexivity | exact H] |].
  exact (scan_completed_saved Example.laptop_up
           (Example.state true true false false) _ eq_refl H).
Defined.

Lemma scan_discovers_witness :
  let up := Example.env (fun x => String.eqb x "192.168.1.9") in
  let s := Example.state true true false false in
  let s' := fst (scan up s) in
  (scanning s = false /\ scan up s = (s', Ok tt) /\
   reachable up "192.168.1.9" = true) /\
  exists d',
    dict_get "192.168.1.9" (devices s') = Some d' /\
    Device.online d' = true /\
    (dict_get "192.168.1.9" (devices s) = None -> fresh up "192.168.1.9" d').
Proof.
  cbn zeta.
  assert (H : scan (Example.env (fun x => String.eqb x "192.168.1.9"))
                (Example.state true true false false)
              = (fst (scan (Example.env (fun x => String.eqb x "192.168.1.9"))
                        (Example.state true true false false)), Ok tt))
    by (vm_compute; reflexivity).
  assert (R : reachable (Example.env (fun x => String.eqb x "192.168.1.9"))
                "192.168.1.9" = true)
    by (vm_compute; reflexivity).
  split; [split; [reflexivity | split; [exact H | exact R]] |].
  exact (scan_discovers _ (Example.state true true false false) _
           "192.168.1.9" eq_refl H R).
Defined.

Lemma presence_between_cycles_witness :
  let s := Example.state true true false false in
  let s1 := fst (scan Example.laptop_up s) in
  let s2 := fst (scan Example.nobody_up s1) in
  (scanning s = false /\ monitoring s = true /\
   wf_registry (devices s) /\
   dict_get "192.168.1.5" (devices s) = Some (Example.laptop true) /\
   Device.monitored (Example.laptop true) = true /\
   scan Example.laptop_up s = (s1, Ok tt) /\
   scan Example.nobody_up s1 = (s2, Ok tt)) /\
  alerts_emitted departure "192.168.1.5" s1 s2 = 1%nat /\
  alerts_emitted arrival "192.168.1.5" s1 s2 = 0%nat.
Proof.
  cbn zeta.
  assert (H1 : scan Example.laptop_up (Example.state true true false false)
               = (fst (scan Example.laptop_up
                         (Example.state true true false false)), Ok tt))
    by (vm_compute; reflexivity).
  assert (H2 : scan Example.nobody_up
                 (fst (scan Example.laptop_up
                         (Example.state true true false false)))
               = (fst (scan Example.nobody_up
                         (fst (scan Example.laptop_up
                                 (Example.state true true false false)))),
                  Ok tt))
    by (vm_compute; reflexivity).
  assert (Hwf : wf_registry (devices (Example.state true true false false)))
    by (apply wf_registry_single; reflexivity).
  split.
  { split; [reflexivity |]. split; [reflexivity |]. split; [exact Hwf |].
    split; [reflexivity |]. split; [reflexivity |].
    split; [exact H1 | exact H2]. }
  assert (R1 : reachable Example.laptop_up "192.168.1.5" = true)
    by (vm_compute; reflexivity).
  assert (R2 : reachable Example.nobody_up "192.168.1.5" = false)
    by (vm_compute; reflexivity).
  pose proof (presence_between_cycles Example.laptop_up Example.nobody_up
                (Example.state true true false false) _ _ "192.168.1.5"
                (Example.laptop true) eq_refl eq_refl Hwf eq_refl eq_refl
                H1 H2) as K.
  rewrite R1, R2 in K. cbn [andb negb] in K. exact K.
Defined.

Lemma monitor_loop_runs_every_cycle_witness :
  let s := Example.state true true false false in
  monitoring s = true /\
  monitor_loop [Example.laptop_up; Example.nobody_up] s
  = for_each [Example.laptop_up; Example.nobody_up] scan s.
Proof.
  cbn zeta. split; [reflexivity |].
  apply (monitor_loop_runs_every_cycle
           [Example.laptop_up; Example.nobody_up]
           (Example.state true true false false)).
  reflexivity.
Defined.

Lemma restart_restores_saved_state_witness :
  let s := Example.state true true true false in
  let s' := restart (save_data s) in
  NoDup (dict_keys (devices s)) /\
  devices s' = devices s /\
  alerts s' = alerts s /\
  attendance_file s' = attendance_file s /\
  calibration s' = default_calibration /\
  (scanning s', monitoring s', distance_mode s') = (false, false, false).
Proof.
  cbn zeta.
  assert (H : NoDup (dict_keys (devices (Example.state true true true false))))
    by (constructor; [intros [] | constructor]).
  split; [exact H |].
  exact (restart_restores_saved_state (Example.state true true true false) H).
Defined.

Lemma restart_after_scan_witness :
  let s := Example.state true true false false in
  let s' := fst (scan Example.nobody_up s) in
  (scanning s = false /\ wf_registry (devices s) /\
   scan Example.nobody_up s = (s', Ok tt)) /\
  devices (restart s') = devices s' /\
  alerts (restart s') = alerts s' /\
  attendance_file (restart s') = attendance_file s'.
Proof.
  cbn zeta.
  assert (H : scan Example.nobody_up (Example.state true true false false)
              = (fst (scan Example.nobody_up
                        (Example.state true true false false)), Ok tt))
    by (vm_compute; reflexivity).
  assert (Hwf : wf_registry (devices (Example.state true true false false)))
    by (apply wf_registry_single; reflexivity).
  split; [split; [reflexivity | split; [exact Hwf | exact H]] |].
  exact (restart_after_scan Example.nobody_up
           (Example.state true true false false) _ eq_refl Hwf H).
Defined.

Lemma scan_distance_estimates_witness :
  let s := Example.state true true true false in
  let s' := fst (scan Example.laptop_up s) in
  (scanning s = false /\ distance_mode s = true /\
   wf_registry (devices s) /\
   scan Example.laptop_up s = (s', Ok tt)) /\
  (exists d',
     dict_get "192.168.1.5" (devices s') = Some d' /\
     Device.rssi d' = Some (-80) /\
     Device.estimated_distance d' = Some 100%float) /\
  alerts_emitted distance "192.168.1.5" s s' = 1%nat.
Proof.
  cbn zeta.
  assert (H : scan Example.laptop_up (Example.state true true true false)
              = (fst (scan Example.laptop_up
                        (Example.state true true true false)), Ok tt))
    by (vm_compute; reflexivity).
  assert (Hwf : wf_registry (devices (Example.state true true true false)))
    by (apply wf_registry_single; reflexivity).
  split; [split; [reflexivity | split; [reflexivity | split; [exact Hwf | exact H]]] |].
  assert (R : reachable Example.laptop_up "192.168.1.5" = true)
    by (vm_compute; reflexivity).
  assert (E : host_estimate Example.laptop_up
                (calibration (Example.state true true true false))
                "192.168.1.5" = Ok (Some 100%float))
    by (vm_compute; reflexivity).
  destruct (scan_distance_estimates Example.laptop_up
              (Example.state true true true false) _ "192.168.1.5"
              eq_refl eq_refl Hwf H) as (K1 & _ & K3).
  split.
  - destruct (K1 R) as (nd & d' & Hnd & G & Hr & Hd).
    exists d'. split; [exact G |]. split; [exact Hr |].
    rewrite Hd. rewrite E in Hnd. injection Hnd as <-. reflexivity.
  - rewrite K3, R, E. vm_compute. reflexivity.
Defined.

(** ** Clearing the alerts *)

(** X22: clearing the alerts empties every export, whatever the date,
    although the attendance file keeps all the rows logged so far; the
    registry is untouched, the cleared list is what the alert file now
    holds, and it is what a restart reads back. *)
Theorem clear_alerts_empties_export (env : Env) (date : string) (s : State) :
  export_attendance env date (clear_alerts s) = [export_header] /\
  attendance_file (clear_alerts s) = attendance_file s /\
  devices (clear_alerts s) = devices s /\
  alerts_file (clear_alerts s) = Some [] /\
  alerts (restart (clear_alerts s)) = [] /\
  forall device ty msg,
    export_attendance env (date_of (fst (now env (clear_alerts s))))
      (add_alert env device ty msg (clear_alerts s))
    = [export_header;
       export_row env (devices s)
         (make_alert (fst (now env (clear_alerts s))) device ty msg)].
Proof.
  split; [reflexivity |]. split; [reflexivity |]. split; [reflexivity |].
  split; [reflexivity |]. split; [reflexivity |].
  intros device ty msg.
  change (fst (now env (clear_alerts s)))
    with (now_at env (clock (clear_alerts s))).
  unfold export_attendance. rewrite add_alert_alerts.
  change (alerts (clear_alerts s)) with (@nil Alert.t).
  cbn [firstn app filter make_alert Alert.timestamp].
  rewrite String.eqb_refl. reflexivity.
Qed.

(** ** Presence alerts and the monitoring flag *)

(** With monitoring off a cycle leaves the attendance file as it is,
    however it ends. *)
Lemma scan_attendance_without_monitoring (env : Env) (s : State) :
  monitoring s = false ->
  attendance_file (fst (scan env s)) = attendance_file s.
Proof.
  intros Hmon. destruct (scan env s) as [s' r] eqn:Hscan. cbn [fst].
  destruct (scanning s) eqn:Hidle.
  { rewrite (scan_busy env s Hidle) in Hscan. injection Hscan as <- _.
    reflexivity. }
  destruct (scan_phases env s s' r Hidle Hscan) as (s3 & r3 & Hsweep & Hrest).
  destruct (sweep_sweep_quiet env _ _ _ _ _ Hsweep) as [Q1 _ Q3].
  cbn [set_devices set_scanning monitoring distance_mode] in Q1, Q3.
  destruct (Q3 (or_introl Hmon)) as (_ & L2 & _).
  cbn [set_devices set_scanning attendance_file] in L2.
  destruct r3 as [[] | e].
  - destruct Hrest as (s4 & Hpass & -> & _).
    rewrite Q1, Hmon in Hpass. injection Hpass as <-.
    cbn [save_data set_scanning attendance_file]. exact L2.
  - destruct Hrest as [-> _]. exact L2.
Qed.

(** Nothing is recorded between two states with the same attendance file. *)
Lemma alerts_emitted_same_file (ty : AlertType) (ip : string) (s s' : State) :
  attendance_file s' = attendance_file s ->
  alerts_emitted ty ip s s' = 0%nat.
Proof.
  intros H. unfold alerts_emitted, rows_written, attendance_rows.
  rewrite H, skipn_all. reflexivity.
Qed.

(** C5, as the code has it.  In a cycle that runs to its end with
    monitoring enabled, a monitored device stored under its own address
    gets exactly one departure row and no arrival row in the attendance
    record when it was online before the cycle and the sweep did not reach
    it, and exactly one arrival row and no departure row when it was
    offline and the sweep reached it.  One unanswered probe is enough.
    With monitoring disabled a cycle, however it ends, records no arrival
    and no departure for any address.  (A cycle does run to its end
    whenever distance estimation is off:
    [scan_completes_without_distance].) *)
Theorem presence_alerts_when_monitoring (env : Env) :
  (forall (s s' : State) (ip : string) (d : Device.t),
     scanning s = false ->
     monitoring s = true ->
     wf_registry (devices s) ->
     dict_get ip (devices s) = Some d ->
     Device.monitored d = true ->
     scan env s = (s', Ok tt) ->
     (Device.online d = true -> reachable env ip = false ->
      alerts_emitted departure ip s s' = 1%nat /\
      alerts_emitted arrival ip s s' = 0%nat) /\
     (Device.online d = false -> reachable env ip = true ->
      alerts_emitted arrival ip s s' = 1%nat /\
      alerts_emitted departure ip s s' = 0%nat)) /\
  (forall (s : State) (ip : string),
     monitoring s = false ->
     alerts_emitted arrival ip s (fst (scan env s)) = 0%nat /\
     alerts_emitted departure ip s (fst (scan env s)) = 0%nat).
Proof.
  split.
  - intros s s' ip d Hidle Hmon Hwf Hget Hm Hscan.
    pose proof (scan_presence_rows env s s' ip departure Hidle Hwf Hscan) as D.
    pose proof (scan_presence_rows env s s' ip arrival Hidle Hwf Hscan) as A.
    rewrite Hmon, Hget, Hm in D, A. cbn [andb transition] in D, A.
    split; intros Hon Hreach; rewrite Hon, Hreach in D, A;
      cbn [andb negb] in D, A;
      (split; [apply D || apply A | apply A || apply D]); discriminate.
  - intros s ip Hmon.
    pose proof (scan_attendance_without_monitoring env s Hmon) as H.
    split; apply alerts_emitted_same_file; exact H.
Qed.

Lemma presence_alerts_when_monitoring_witness :
  let s := Example.state true true false false in
  let s' := fst (scan Example.nobody_up s) in
  let q := Example.state true false false false in
  ((scanning s = false /\ monitoring s = true /\
    dict_get "192.168.1.5" (devices s) = Some (Example.laptop true) /\
    Device.monitored (Example.laptop true) = true /\
    scan Example.nobody_up s = (s', Ok tt) /\
    Device.online (Example.laptop true) = true /\
    reachable Example.nobody_up "192.168.1.5" = false) /\
   alerts_emitted departure "192.168.1.5" s s' = 1%nat /\
   alerts_emitted arrival "192.168.1.5" s s' = 0%nat) /\
  (monitoring q = false /\
   alerts_emitted arrival "192.168.1.5" q (fst (scan Example.nobody_up q))
   = 0%nat /\
   alerts_emitted departure "192.168.1.5" q (fst (scan Example.nobody_up q))
   = 0%nat).
Proof.
  cbn zeta.
  assert (Hscan : scan Example.nobody_up (Example.state true true false false)
                  = (fst (scan Example.nobody_up
                            (Example.state true true false false)), Ok tt))
    by (vm_compute; reflexivity).
  assert (Hreach : reachable Example.nobody_up "192.168.1.5" = false)
    by (vm_compute; reflexivity).
  assert (Hwf : wf_registry (devices (Example.state true true false false)))
    by (apply wf_registry_single; reflexivity).
  destruct (presence_alerts_when_monitoring Example.nobody_up) as [On Off].
  split; [split |].
  - split; [reflexivity |]. split; [reflexivity |]. split; [reflexivity |].
    split; [reflexivity |]. split; [exact Hscan |].
    split; [reflexivity | exact Hreach].
  - exact (proj1 (On (Example.state true true false false) _ "192.168.1.5"
                     (Example.laptop true) eq_refl eq_refl Hwf eq_refl eq_refl
                     Hscan)
                 eq_refl Hreach).
  - split; [reflexivity |].
    exact (Off (Example.state true false false false) "192.168.1.5" eq_refl).
Defined.
